(** * A shallow embedding of the prediction pipeline

    The development follows the layout of the repository:

    - [Js]            the fragment of the JavaScript value model the code relies on;
    - [Db]            the rows of the two SQLite tables ([data/dbSetup.js]);
    - [FeatureEngine] [features/featureEngine.js] ([calcTeamStats]);
    - [Effects]       the store, the environment, the outside world, and the
                      monad of the code that reads and writes them;
    - [FeatureJob]    [features/featureEngine.js] ([calculateFeatures]);
    - [Api]           [api/apiHandler.js] ([composeMatchId], the history fetchers);
    - [Predictor]     the predictor module ([predictMatch], [hydrateMatchHistory],
                      [normalizePrediction], [simpleRulePredict], ...);
    - [Bot]           [bot/bot.js] ([formatPercent], [escapeHtml]);
    - [Binary64]      [simpleRulePredict], [round] and the arithmetic of
                      [normalizePrediction] on binary64 numbers;
    - [Examples]      concrete inputs;

    followed by the properties, one module of facts per component.

    Numbers.  A JavaScript number is modelled twice.  [Js.JsNum] is an exact
    rational for a finite double, and the three special values: arithmetic on
    finite values is exact, and the rounding error, the overflow and the
    signed zero of binary64 are outside it.  The properties stated over it
    are those that do not hinge on a rounding error: bounds with a margin,
    counts, identifiers (integers below 2^53) and control flow.  Where the
    result of the code depends on the last bit (a comparison with a
    threshold, a tie of [Math.round]) the code is embedded over the
    primitive binary64 numbers of [Binary64]. *)

From Stdlib Require Import QArith Qround Qabs Qminmax ZArith List String Ascii Bool Lia Lqa.
From Stdlib Require Import DecimalString Permutation Sorted.
From Stdlib Require PrimFloat FloatOps SpecFloat Uint63.
Import ListNotations.

Set Warnings "-register-all".
Local Open Scope Q_scope.

(* ================================================================== *)
(** ** JavaScript values *)
(* ================================================================== *)

Module Js.

(** A JavaScript number. *)
Inductive JsNum : Type :=
| Fin (q : Q)
| PInf
| NInf
| NaN.

(** Equality of numbers up to the representation of the rational. *)
Definition num_eq (a b : JsNum) : Prop :=
  match a, b with
  | Fin x, Fin y => x == y
  | PInf, PInf | NInf, NInf | NaN, NaN => True
  | _, _ => False
  end.

Definition isNaN (n : JsNum) : bool :=
  match n with NaN => true | _ => false end.

Definition isFinite (n : JsNum) : bool :=
  match n with Fin _ => true | _ => false end.

Definition Qltb (a b : Q) : bool := negb (Qle_bool b a).

Definition neg (a : JsNum) : JsNum :=
  match a with
  | Fin x => Fin (- x)
  | PInf => NInf
  | NInf => PInf
  | NaN => NaN
  end.

Definition add (a b : JsNum) : JsNum :=
  match a, b with
  | NaN, _ | _, NaN => NaN
  | Fin x, Fin y => Fin (x + y)
  | PInf, NInf | NInf, PInf => NaN
  | PInf, _ | _, PInf => PInf
  | NInf, _ | _, NInf => NInf
  end.

Definition sub (a b : JsNum) : JsNum := add a (neg b).

(** The product of [q] and an infinity, positive or negative: the infinity
    of the resulting sign, and [NaN] for [q == 0]. *)
Definition signedInf (q : Q) (positive : bool) : JsNum :=
  match q ?= 0 with
  | Eq => NaN
  | Gt => if positive then PInf else NInf
  | Lt => if positive then NInf else PInf
  end.

Definition mul (a b : JsNum) : JsNum :=
  match a, b with
  | NaN, _ | _, NaN => NaN
  | Fin x, Fin y => Fin (x * y)
  | Fin x, PInf | PInf, Fin x => signedInf x true
  | Fin x, NInf | NInf, Fin x => signedInf x false
  | PInf, PInf | NInf, NInf => PInf
  | PInf, NInf | NInf, PInf => NInf
  end.

(** Division; a finite non-zero number over zero is an infinity (the zero is
    taken as positive), zero over zero is [NaN]. *)
Definition div (a b : JsNum) : JsNum :=
  match a, b with
  | NaN, _ | _, NaN => NaN
  | Fin x, Fin y => if Qeq_bool y 0 then signedInf x true else Fin (x / y)
  | Fin _, PInf | Fin _, NInf => Fin 0
  | PInf, Fin y => if Qltb y 0 then NInf else PInf
  | NInf, Fin y => if Qltb y 0 then PInf else NInf
  | PInf, PInf | PInf, NInf | NInf, PInf | NInf, NInf => NaN
  end.

(** [a < b]. *)
Definition ltb (a b : JsNum) : bool :=
  match a, b with
  | NaN, _ | _, NaN => false
  | Fin x, Fin y => Qltb x y
  | NInf, NInf => false
  | NInf, _ => true
  | _, NInf => false
  | PInf, _ => false
  | _, PInf => true
  end.

(** [a <= b]. *)
Definition leb (a b : JsNum) : bool :=
  match a, b with
  | NaN, _ | _, NaN => false
  | Fin x, Fin y => Qle_bool x y
  | NInf, _ => true
  | _, NInf => false
  | _, PInf => true
  | PInf, _ => false
  end.

Definition gtb (a b : JsNum) : bool := ltb b a.
Definition geb (a b : JsNum) : bool := leb b a.

(** [!n] for a number: zero and [NaN] are falsy. *)
Definition falsyNum (n : JsNum) : bool :=
  match n with
  | Fin x => Qeq_bool x 0
  | NaN => true
  | _ => false
  end.

(** [Math.round]: the nearest integer, ties towards plus infinity. *)
Definition Math_round (n : JsNum) : JsNum :=
  match n with
  | Fin x => Fin (inject_Z (Qfloor (x + (1 # 2))))
  | _ => n
  end.

Definition Math_abs (n : JsNum) : JsNum :=
  match n with
  | Fin x => Fin (Qabs x)
  | NInf => PInf
  | _ => n
  end.

Definition Math_min (a b : JsNum) : JsNum :=
  match a, b with
  | NaN, _ | _, NaN => NaN
  | _, _ => if ltb b a then b else a
  end.

Definition Math_max (a b : JsNum) : JsNum :=
  match a, b with
  | NaN, _ | _, NaN => NaN
  | _, _ => if ltb a b then b else a
  end.

(** Rounding a rational to two decimals, ties upwards. *)
Definition round2 (x : Q) : Q := inject_Z (Qfloor (x * 100 + (1 # 2))) / 100.

(** A JavaScript value, as [JSON.parse], the HTTP client or SQLite hand it over. *)
Inductive JsValue : Type :=
| VUndefined
| VNull
| VBool (b : bool)
| VNum (n : JsNum)
| VStr (s : string)
| VArr (items : list JsValue)
| VObj (fields : list (string * JsValue)).

(** The result of a call: a value, or an exception with its message. *)
Inductive Outcome (A : Type) : Type :=
| Returned (value : A)
| Thrown (message : string).

Arguments Returned {A} value.
Arguments Thrown {A} message.

(** Induction on a value whose arrays hold values: the entries of an array
    satisfy the property before the array does. *)
Section Induction.

Variable P : JsValue -> Prop.

Hypothesis atomic :
  forall v, match v with VArr _ => False | _ => True end -> P v.
Hypothesis array : forall items, Forall P items -> P (VArr items).

Fixpoint JsValue_entries_ind (v : JsValue) : P v :=
  match v with
  | VArr items =>
      array items
        ((fix entries (l : list JsValue) : Forall P l :=
            match l with
            | [] => Forall_nil P
            | entry :: rest =>
                Forall_cons entry (JsValue_entries_ind entry) (entries rest)
            end) items)
  | VUndefined => atomic VUndefined I
  | VNull => atomic VNull I
  | VBool b => atomic (VBool b) I
  | VNum n => atomic (VNum n) I
  | VStr s => atomic (VStr s) I
  | VObj fields => atomic (VObj fields) I
  end.

End Induction.

(** Sequencing of calls that may throw. *)
Definition andThen {A B : Type} (o : Outcome A) (k : A -> Outcome B) : Outcome B :=
  match o with
  | Returned a => k a
  | Thrown message => Thrown message
  end.

(** The built-ins of the language whose results the code only passes on.  They
    are left abstract: every theorem holds whatever they compute. *)
Class Runtime : Type := {
  (** [Number(s)] for a string [s]. *)
  StringToNumber : string -> JsNum;
  (** [String(n)] for a number, as a template literal renders it. *)
  NumberToString : JsNum -> string;
  (** [JSON.parse]; [None] when it throws a [SyntaxError]. *)
  JSON_parse : string -> option JsValue;
  (** [text.match(re)] for a regular expression without the [g] flag:
      the matched substring. *)
  regex_match : string -> string -> option string;
  (** [text.replace(re, by)] for a regular expression with the [g] flag. *)
  regex_replace_all : string -> string -> string -> string
}.

(** The time zone of the process: [LocalTZA t isUTC] is the offset of local
    time from UTC in milliseconds, at the instant [t] when [isUTC] and at
    the local time [t] otherwise. *)
Class Zone : Type := {
  LocalTZA : Z -> bool -> Z
}.

(** [Object.prototype.hasOwnProperty]. *)
Definition hasOwn (key : string) (fields : list (string * JsValue)) : bool :=
  existsb (fun field => String.eqb (fst field) key) fields.

Definition conversionError : string :=
  "TypeError: Cannot convert object to primitive value".

(** [String(v)].  The values are those of JSON and of the database driver:
    an object is a plain object whose properties are data, never functions,
    and an array has no property of its own but its entries.  A plain object
    is converted by the [toString] it inherits, which gives
    ["[object Object]"], unless it has a property [toString] of its own:
    that one is not callable, the inherited [valueOf] returns the object
    itself, and the conversion throws a [TypeError].  An array is converted
    by [join]: its entries are converted in turn, [null] and [undefined] to
    the empty string, and joined by commas. *)
Fixpoint ToString `{Runtime} (v : JsValue) : Outcome string :=
  match v with
  | VUndefined => Returned "undefined"%string
  | VNull => Returned "null"%string
  | VBool true => Returned "true"%string
  | VBool false => Returned "false"%string
  | VNum n => Returned (NumberToString n)
  | VStr s => Returned s
  | VArr items =>
      (fix join (entries : list JsValue) : Outcome string :=
         match entries with
         | [] => Returned EmptyString
         | entry :: rest =>
             andThen
               (match entry with
                | VUndefined | VNull => Returned EmptyString
                | _ => ToString entry
                end)
               (fun first =>
                  match rest with
                  | [] => Returned first
                  | _ =>
                      andThen (join rest)
                        (fun others => Returned (first ++ "," ++ others)%string)
                  end)
         end) items
  | VObj fields =>
      if hasOwn "toString" fields then Thrown conversionError
      else Returned "[object Object]"%string
  end.

(** [Number(v)].  An array or an object is first converted to a primitive:
    [valueOf] returns the value itself, or is a property that is not
    callable, so the primitive is the string [String(v)], or the conversion
    throws as [String(v)] does. *)
Definition Number `{Runtime} (v : JsValue) : Outcome JsNum :=
  match v with
  | VUndefined => Returned NaN
  | VNull => Returned (Fin 0)
  | VBool true => Returned (Fin 1)
  | VBool false => Returned (Fin 0)
  | VNum n => Returned n
  | VStr s => Returned (StringToNumber s)
  | VArr _ | VObj _ => andThen (ToString v) (fun text => Returned (StringToNumber text))
  end.

(** [!v]. *)
Definition falsy (v : JsValue) : bool :=
  match v with
  | VUndefined | VNull => true
  | VBool b => negb b
  | VNum n => falsyNum n
  | VStr s => match s with EmptyString => true | _ => false end
  | VArr _ | VObj _ => false
  end.

Definition truthy (v : JsValue) : bool := negb (falsy v).

(** [a ?? b]. *)
Definition nullish (a b : JsValue) : JsValue :=
  match a with
  | VUndefined | VNull => b
  | _ => a
  end.

Fixpoint lookup (key : string) (fields : list (string * JsValue)) : JsValue :=
  match fields with
  | [] => VUndefined
  | (k, v) :: rest => if String.eqb k key then v else lookup key rest
  end.

(** [v.key] or [v[key]] for a string key, where [v] is neither [null] nor
    [undefined] (there the access throws, see [Predictor.getProp]).  Own
    properties of wrapper objects ([length] and the like) are not asked for by
    the code and read as [undefined]. *)
Definition prop (v : JsValue) (key : string) : JsValue :=
  match v with
  | VObj fields => lookup key fields
  | _ => VUndefined
  end.

End Js.

Export Js.

Declare Scope js_scope.
Delimit Scope js_scope with js.
Infix "=n=" := num_eq (at level 70, no associativity) : js_scope.
Local Open Scope js_scope.

(* ================================================================== *)
(** ** The tables of the store *)
(* ================================================================== *)

Module Db.

(** A row of the table [matches].  The TEXT column [date] holds NULL or an
    ISO timestamp, as [saveMatches] writes it: [date] is the instant it
    denotes, in milliseconds since the epoch, which [new Date] and SQLite's
    [datetime] both read off it, and [None] for NULL.  The score columns hold
    a number or NULL. *)
Record MatchRow : Type := {
  match_id : Z;
  sport : option string;
  date : option Z;
  status : option string;
  home_team_id : option Z;
  away_team_id : option Z;
  home_team : option string;
  away_team : option string;
  home_goals : option Q;
  away_goals : option Q
}.

(** A row of the table [stats]. *)
Record StatsRow : Type := {
  stats_match_id : Z;
  stats_sport : option string;
  stats_home_form : option Q;
  stats_away_form : option Q;
  stats_home_goals_avg : option Q;
  stats_away_goals_avg : option Q
}.

(** [a === b] for two nullable strings. *)
Definition str_eqb (a b : option string) : bool :=
  match a, b with
  | Some x, Some y => String.eqb x y
  | None, None => true
  | _, _ => false
  end.

(** [!s] for a nullable string. *)
Definition str_falsy (s : option string) : bool :=
  match s with
  | None | Some EmptyString => true
  | Some _ => false
  end.

End Db.

Export Db.

(* ================================================================== *)
(** ** features/featureEngine.js *)
(* ================================================================== *)

Module FeatureEngine.

Record TeamStats : Type := {
  form : JsNum;
  avgGoalsFor : JsNum
}.

(** [toNumber] on a score column: a number is returned as it is, NULL is
    [null]; the column holds nothing else. *)
Definition toNumber (value : option Q) : option JsNum :=
  match value with
  | Some q => Some (Fin q)
  | None => None
  end.

Definition DAY_MS : Z := 86400000.

(** The largest time value of a [Date], in milliseconds either side of the
    epoch. *)
Definition MAX_TIME : Z := 8640000000000000.

(** [TimeClip]: [None] is the time value [NaN] of an [Invalid Date]. *)
Definition TimeClip (time : Z) : option Z :=
  if (Z.abs time <=? MAX_TIME)%Z then Some time else None.

(** [round]: [Math.round(value * 100) / 100]. *)
Definition round (value : JsNum) : JsNum :=
  div (Math_round (mul value (Fin 100))) (Fin 100).

(** [Array.prototype.sort] with a comparator: a stable sort. *)
Fixpoint insertBy {A : Type} (cmp : A -> A -> Z) (x : A) (l : list A) : list A :=
  match l with
  | [] => [x]
  | y :: ys => if (cmp x y <=? 0)%Z then x :: y :: ys else y :: insertBy cmp x ys
  end.

Definition sortBy {A : Type} (cmp : A -> A -> Z) (l : list A) : list A :=
  fold_right (insertBy cmp) [] l.

(** [l.slice(-n)]: the last [n] elements; [-0] is [0], and [l.slice(0)] is
    the whole array. *)
Definition slice_last {A : Type} (n : nat) (l : list A) : list A :=
  match n with
  | O => l
  | _ => skipn (List.length l - n) l
  end.

(** The callback of [filter] in [calcTeamStats].  [cutoff] is [null]
    ([None]), or a [Date]: every [Date] is truthy, and the comparison with an
    [Invalid Date] ([Some None]) is false. *)
Definition relevantMatch (teamName : option string) (currentDate : option Z)
    (cutoff : option (option Z)) (m : MatchRow) : bool :=
  match date m with
  | None => false
  | Some d =>
      let isTeam := str_eqb (home_team m) teamName || str_eqb (away_team m) teamName in
      let beforeCurrent :=
        match currentDate with Some c => (d <? c)%Z | None => true end in
      let afterCutoff :=
        match cutoff with
        | Some (Some c) => (d >=? c)%Z
        | Some None => false
        | None => true
        end in
      isTeam && beforeCurrent && afterCutoff
  end.

(** The comparator of [sort] in [calcTeamStats]: [da - db]. *)
Definition byDate (a b : MatchRow) : Z :=
  let da := match date a with Some d => d | None => 0%Z end in
  let db := match date b with Some d => d | None => 0%Z end in
  (da - db)%Z.

(** The three counters of the loop. *)
Record Counters : Type := {
  wins : Z;
  gamesCount : Z;
  goalsForTotal : JsNum
}.

(** One turn of the loop over [relevant]. *)
Definition countMatch (teamName : option string) (acc : Counters) (m : MatchRow)
    : Counters :=
  match toNumber (home_goals m), toNumber (away_goals m) with
  | Some homeGoals, Some awayGoals =>
      if str_eqb (home_team m) teamName then
        {| wins := if gtb homeGoals awayGoals then wins acc + 1 else wins acc;
           gamesCount := gamesCount acc + 1;
           goalsForTotal := add (goalsForTotal acc) homeGoals |}
      else
        {| wins := if gtb awayGoals homeGoals then wins acc + 1 else wins acc;
           gamesCount := gamesCount acc + 1;
           goalsForTotal := add (goalsForTotal acc) awayGoals |}
  | _, _ => acc
  end%Z.

Definition noStats : TeamStats := {| form := Fin 0; avgGoalsFor := Fin 0 |}.

Section WithZone.

Context {zone : Zone}.

(** [shiftDate]: [setDate(getDate() + days)] on a copy of the date.  The day
    of the month is read and written in local time: the local time of the
    date is moved by [days] days of 24 hours, which keeps the time of day on
    the local clock, and is read back as an instant with the offset in force
    at the new local time.  Where the offset is the same at both ends the
    shift is of [days * 24] hours; across a change of the offset (daylight
    saving time) it is longer or shorter by the difference. *)
Definition shiftDate (date : Z) (days : Z) : option Z :=
  let localTime := (date + LocalTZA date true)%Z in
  let shifted := (localTime + days * DAY_MS)%Z in
  TimeClip (shifted - LocalTZA shifted false).

Definition calcTeamStats (matches : list MatchRow) (teamName : option string)
    (currentDateStr : option Z) (windowSize : nat) : TeamStats :=
  if str_falsy teamName then noStats
  else
    let currentDate := currentDateStr in
    let cutoff := option_map (fun c => shiftDate c (-365)) currentDate in
    let relevant :=
      slice_last windowSize
        (sortBy byDate (filter (relevantMatch teamName currentDate cutoff) matches)) in
    match relevant with
    | [] => noStats
    | _ =>
        let acc :=
          fold_left (countMatch teamName) relevant
            {| wins := 0; gamesCount := 0; goalsForTotal := Fin 0 |} in
        let denominator :=
          Math_max (Fin (inject_Z (gamesCount acc))) (Fin 1) in
        let form := div (Fin (inject_Z (wins acc))) denominator in
        let avgGoalsFor :=
          if (gamesCount acc =? 0)%Z then Fin 0
          else div (goalsForTotal acc) (Fin (inject_Z (gamesCount acc))) in
        {| form := if isFinite form then form else Fin 0;
           avgGoalsFor := if isFinite avgGoalsFor then round avgGoalsFor else Fin 0 |}
    end.

End WithZone.

(** The default of the parameter [windowSize]. *)
Definition WINDOW_SIZE : nat := 10.

(** *** The quantities the specification speaks of *)

(** A match with known scores. *)
Definition scored (m : MatchRow) : bool :=
  match home_goals m, away_goals m with
  | Some _, Some _ => true
  | _, _ => false
  end.

Definition scoreOr0 (g : option Q) : Q :=
  match g with Some q => q | None => 0 end.

(** The score of the team in a match, and of its opponent. *)
Definition teamScore (team : string) (m : MatchRow) : Q :=
  if str_eqb (home_team m) (Some team) then scoreOr0 (home_goals m)
  else scoreOr0 (away_goals m).

Definition opponentScore (team : string) (m : MatchRow) : Q :=
  if str_eqb (home_team m) (Some team) then scoreOr0 (away_goals m)
  else scoreOr0 (home_goals m).

Definition won (team : string) (m : MatchRow) : bool :=
  Qltb (opponentScore team m) (teamScore team m).

Definition games (kept : list MatchRow) : Z := Z.of_nat (List.length kept).

Definition winsOf (team : string) (kept : list MatchRow) : Z :=
  Z.of_nat (List.length (filter (won team) kept)).

Definition scoreSum (team : string) (kept : list MatchRow) : Q :=
  fold_right Qplus 0 (map (teamScore team) kept).

Section Window.

Context {zone : Zone}.

(** The start of the window of a reference date, 365 days before it, the
    days counted on the calendar of the time zone of the process: the
    instant at which the local clock shows the time of day of the reference
    date, 365 days earlier; [None] when that instant is out of the range of
    a [Date]. *)
Definition windowStart (reference : Z) : option Z :=
  let wallClock := (reference + LocalTZA reference true - 365 * DAY_MS)%Z in
  let start := (wallClock - LocalTZA wallClock false)%Z in
  if (- MAX_TIME <=? start)%Z && (start <=? MAX_TIME)%Z then Some start else None.

(** A match of the team strictly before the reference date and at most 365
    days before it. *)
Definition qualifies (team : string) (reference : Z) (m : MatchRow) : bool :=
  match date m with
  | None => false
  | Some d =>
      (str_eqb (home_team m) (Some team) || str_eqb (away_team m) (Some team))
      && (d <? reference)%Z
      && match windowStart reference with
         | Some start => (start <=? d)%Z
         | None => false
         end
  end.

(** The statistics over a kept set, as the specification words them. *)
Definition statsOver (team : string) (kept : list MatchRow) : TeamStats :=
  match kept with
  | [] => noStats
  | _ =>
      {| form := Fin (inject_Z (winsOf team kept) / inject_Z (Z.max (games kept) 1));
         avgGoalsFor := Fin (round2 (scoreSum team kept / inject_Z (games kept))) |}
  end.

(** The algorithm in the order the specification gives: window, known scores,
    then the ten most recent. *)
Definition calcTeamStats_spec (matches : list MatchRow) (team : string)
    (reference : Z) : TeamStats :=
  statsOver team
    (slice_last 10 (sortBy byDate (filter scored (filter (qualifies team reference) matches)))).

(** The kept set of the code: the ten most recent matches of the window, and
    of those the ones with known scores. *)
Definition keptByCode (matches : list MatchRow) (team : string) (reference : Z)
    : list MatchRow :=
  filter scored
    (slice_last 10 (sortBy byDate (filter (qualifies team reference) matches))).

End Window.

Definition stats_eq (a b : TeamStats) : Prop :=
  form a =n= form b /\ avgGoalsFor a =n= avgGoalsFor b.

End FeatureEngine.

(* ================================================================== *)
(** ** Effects: the store, the environment and the outside world *)
(* ================================================================== *)

Module Effects.

(** The environment variables the two modules read. *)
Record Config : Type := {
  LLAMA_SERVER_URL : option string;
  OLLAMA_MODEL : option string;
  API_FOOTBALL_KEY : option string;
  API_BASKETBALL_KEY : option string
}.

(** A fixture as the sports-data provider returns it: the fields the two
    mapping functions of [apiHandler.js] read off it.  The id is any JSON
    value; the other fields are of the type of their column (the date one
    the mapping function renders, a time value here), so that the
    conversion of the id is the one step of the mapping that can throw. *)
Record ProviderMatch : Type := {
  pm_id : JsValue;
  pm_date : option Z;
  pm_status : option string;
  pm_home_team_id : option Z;
  pm_away_team_id : option Z;
  pm_home_team : option string;
  pm_away_team : option string;
  pm_home_goals : option Q;
  pm_away_goals : option Q
}.

(** What an HTTP request to the sports-data provider comes back with. *)
Inductive SportsReply : Type :=
| SportsFailure
| SportsResponse (httpStatus : Z) (response : list ProviderMatch).

(** What an HTTP request to a text generator comes back with: [response.data]. *)
Inductive GeneratorReply : Type :=
| GeneratorFailure
| GeneratorData (data : JsValue).

(** The outside world of one run: the reply to the n-th outbound request and
    the n-th draw of [Math.random], whatever is asked. *)
Record Outside : Type := {
  sportsApi : nat -> SportsReply;
  generator : nat -> GeneratorReply;
  random : nat -> Q
}.

(** The calls made to the collaborators, recorded for the proofs. *)
Inductive Event : Type :=
| TeamHistoryRequested (teamId : Z) (last : Z) (sportName : string)
| HeadToHeadRequested (teamAId teamBId : Z) (last : Z) (sportName : string)
| RemoteGeneratorCalled
| LocalGeneratorCalled.

(** The state of the process: the two tables, the module-level set
    [fetchedHistoryTeams], the number of interactions with the outside so far,
    and the calls made so far, oldest first. *)
Record World : Type := {
  db_matches : list MatchRow;
  db_stats : list StatsRow;
  fetchedHistoryTeams : list string;
  clock : nat;
  trace : list Event
}.

(** A computation that reads and writes the state and may throw. *)
Definition M (A : Type) : Type := World -> World * Outcome A.

Definition ret {A : Type} (a : A) : M A := fun w => (w, Returned a).

Definition throw {A : Type} (message : string) : M A := fun w => (w, Thrown message).

(** A call that does not touch the state. *)
Definition lift {A : Type} (o : Outcome A) : M A := fun w => (w, o).

Definition bind {A B : Type} (m : M A) (k : A -> M B) : M B :=
  fun w =>
    match m w with
    | (w', Returned a) => k a w'
    | (w', Thrown message) => (w', Thrown message)
    end.

(** [try { body } catch (error) { handler }]. *)
Definition tryCatch {A : Type} (body : M A) (handler : string -> M A) : M A :=
  fun w =>
    match body w with
    | (w', Returned a) => (w', Returned a)
    | (w', Thrown message) => handler message w'
    end.

Definition get : M World := fun w => (w, Returned w).

Definition record (e : Event) : M unit :=
  fun w =>
    ({| db_matches := db_matches w; db_stats := db_stats w;
        fetchedHistoryTeams := fetchedHistoryTeams w;
        clock := clock w; trace := trace w ++ [e] |}, Returned tt).

(** One interaction with the outside: its index is handed out and the clock
    moves on. *)
Definition tick : M nat :=
  fun w =>
    ({| db_matches := db_matches w; db_stats := db_stats w;
        fetchedHistoryTeams := fetchedHistoryTeams w;
        clock := S (clock w); trace := trace w |}, Returned (clock w)).

Definition setMatches (rows : list MatchRow) : M unit :=
  fun w =>
    ({| db_matches := rows; db_stats := db_stats w;
        fetchedHistoryTeams := fetchedHistoryTeams w;
        clock := clock w; trace := trace w |}, Returned tt).

(** [fetchedHistoryTeams.add(key)]. *)
Definition memoAdd (key : string) : M unit :=
  fun w =>
    ({| db_matches := db_matches w; db_stats := db_stats w;
        fetchedHistoryTeams :=
          if existsb (String.eqb key) (fetchedHistoryTeams w)
          then fetchedHistoryTeams w else fetchedHistoryTeams w ++ [key];
        clock := clock w; trace := trace w |}, Returned tt).

(** [!id] for a nullable integer. *)
Definition id_falsy (id : option Z) : bool :=
  match id with
  | None => true
  | Some z => (z =? 0)%Z
  end.

Definition idOr0 (id : option Z) : Z :=
  match id with Some z => z | None => 0%Z end.

Definition setStats (rows : list StatsRow) : M unit :=
  fun w =>
    ({| db_matches := db_matches w; db_stats := rows;
        fetchedHistoryTeams := fetchedHistoryTeams w;
        clock := clock w; trace := trace w |}, Returned tt).

(** The state after one call to a collaborator that was recorded: one more
    interaction with the outside, and one more event. *)
Definition afterCall (e : Event) (w : World) : World :=
  {| db_matches := db_matches w; db_stats := db_stats w;
     fetchedHistoryTeams := fetchedHistoryTeams w;
     clock := S (clock w); trace := trace w ++ [e] |}.

(** A computation whose exceptions all satisfy [P]: it returns, or throws
    an exception whose message satisfies [P]. *)
Definition throwsOnly {A : Type} (P : string -> Prop) (m : M A) : Prop :=
  forall w w' message, m w = (w', Thrown message) -> P message.

(** A computation that records no call, whatever its outcome. *)
Definition keepsTrace {A : Type} (m : M A) : Prop :=
  forall w, trace (fst (m w)) = trace w.

(** From one state to a later one the table [stats] is left as it is, and
    the set of remembered teams and the number of interactions only grow. *)
Definition advances (w w' : World) : Prop :=
  db_stats w' = db_stats w
  /\ incl (fetchedHistoryTeams w) (fetchedHistoryTeams w')
  /\ (clock w <= clock w')%nat.

(** A computation that only advances the state, whatever its outcome. *)
Definition advancing {A : Type} (m : M A) : Prop :=
  forall w, advances w (fst (m w)).

End Effects.

Export Effects.

Declare Scope monad_scope.
Delimit Scope monad_scope with monad.
Notation "x <- m ;; k" := (bind m (fun x => k))
  (at level 61, m at next level, right associativity) : monad_scope.
Notation "m ;;; k" := (bind m (fun _ => k))
  (at level 61, right associativity) : monad_scope.

(* ================================================================== *)
(** ** features/featureEngine.js: the job that fills the table [stats] *)
(* ================================================================== *)

Module FeatureJob.

Import FeatureEngine.

Local Open Scope string_scope.
Local Open Scope monad_scope.

(** A row as [calculateFeatures] builds and returns it. *)
Record FeatureRow : Type := {
  row_match_id : Z;
  row_sport : string;
  row_home_form : JsNum;
  row_away_form : JsNum;
  row_home_goals_avg : JsNum;
  row_away_goals_avg : JsNum
}.

(** The comparator of [ORDER BY datetime(date) ASC]: NULL sorts first. *)
Definition byDateAsc (a b : MatchRow) : Z :=
  match date a, date b with
  | None, None => 0
  | None, Some _ => -1
  | Some _, None => 1
  | Some x, Some y => x - y
  end%Z.

(** [COALESCE(sport, 'football') AS sport] on one row. *)
Definition coalesceSport (r : MatchRow) : MatchRow :=
  {| match_id := match_id r;
     sport := Some (match sport r with Some s => s | None => "football" end);
     date := date r; status := status r;
     home_team_id := home_team_id r; away_team_id := away_team_id r;
     home_team := home_team r; away_team := away_team r;
     home_goals := home_goals r; away_goals := away_goals r |}.

(** The rows of the query of [calculateFeatures]: every match, its sport
    coalesced to football, by date.  Rows of the same date are kept in the
    order of the table; SQLite leaves their order open, and no property
    below depends on it. *)
Definition selectMatches (w : World) : list MatchRow :=
  sortBy byDateAsc (map coalesceSport (db_matches w)).

(** [match.sport ?? 'football']. *)
Definition sportOf (m : MatchRow) : string :=
  match sport m with Some s => s | None => "football" end.

(** The names every object literal inherits from [Object.prototype]:
    [acc[sport]] is truthy for them although [acc] has no such key. *)
Definition inheritedKeys : list string :=
  [ "constructor"; "hasOwnProperty"; "isPrototypeOf"; "propertyIsEnumerable";
    "toLocaleString"; "toString"; "valueOf"; "__proto__";
    "__defineGetter__"; "__defineSetter__"; "__lookupGetter__"; "__lookupSetter__" ].

Definition inherited (key : string) : bool := existsb (String.eqb key) inheritedKeys.

(** [acc[sport].push(match)] on an object that holds arrays, the array
    created when the key is new. *)
Fixpoint pushTo (key : string) (m : MatchRow) (acc : list (string * list MatchRow))
    : list (string * list MatchRow) :=
  match acc with
  | [] => [(key, [m])]
  | (k, ms) :: rest =>
      if k =? key then (k, (ms ++ [m])%list) :: rest else (k, ms) :: pushTo key m rest
  end.

(** One step of the reduction.  For an inherited name [!acc[sport]] is false
    and the value found has no [push]: the call throws a [TypeError]. *)
Definition groupStep (acc : Outcome (list (string * list MatchRow))) (m : MatchRow)
    : Outcome (list (string * list MatchRow)) :=
  match acc with
  | Returned groups =>
      if inherited (sportOf m)
      then Thrown "TypeError: acc[sport].push is not a function"
      else Returned (pushTo (sportOf m) m groups)
  | Thrown message => Thrown message
  end.

(** [matches.reduce(...)]: the matches by sport, the keys in the order they
    were added. *)
Definition matchesBySport (matches : list MatchRow)
    : Outcome (list (string * list MatchRow)) :=
  fold_left groupStep matches (Returned []).

(** The array index a key denotes, if it is one: a canonical decimal numeral
    below [2^32 - 1]. *)
Definition arrayIndex (key : string) : option N :=
  match NilEmpty.uint_of_string key with
  | Some u =>
      let n := N.of_uint u in
      if (NilZero.string_of_uint (N.to_uint n) =? key) && (n <? 4294967295)%N
      then Some n
      else None
  | None => None
  end.

Definition isIndex {A : Type} (entry : string * A) : bool :=
  match arrayIndex (fst entry) with Some _ => true | None => false end.

Definition byIndex {A : Type} (a b : string * A) : Z :=
  match arrayIndex (fst a), arrayIndex (fst b) with
  | Some x, Some y => Z.of_N x - Z.of_N y
  | _, _ => 0
  end%Z.

(** [Object.entries(o)]: the keys that are array indices first, in ascending
    order, then the other keys in the order they were added. *)
Definition Object_entries {A : Type} (o : list (string * A)) : list (string * A) :=
  (sortBy byIndex (filter isIndex o) ++ filter (fun entry => negb (isIndex entry)) o)%list.

(** A number bound to a REAL column: a finite number is stored, [NaN] is
    stored as NULL (the rows of [calculateFeatures] hold finite numbers). *)
Definition toColumn (n : JsNum) : option Q :=
  match n with
  | Fin q => Some q
  | _ => None
  end.

(** The row of [stats] an insert writes. *)
Definition storedRow (row : FeatureRow) : StatsRow :=
  {| stats_match_id := row_match_id row;
     stats_sport := Some (row_sport row);
     stats_home_form := toColumn (row_home_form row);
     stats_away_form := toColumn (row_away_form row);
     stats_home_goals_avg := toColumn (row_home_goals_avg row);
     stats_away_goals_avg := toColumn (row_away_goals_avg row) |}.

(** [INSERT OR REPLACE INTO stats]: [match_id] is the primary key. *)
Definition insertStats (table : list StatsRow) (row : FeatureRow) : list StatsRow :=
  (filter (fun s => negb (stats_match_id s =? row_match_id row)%Z) table
   ++ [storedRow row])%list.

Section WithZone.

Context {zone : Zone}.

(** The row pushed for one match of a sport. *)
Definition featureRow (sportName : string) (sportMatches : list MatchRow) (m : MatchRow)
    : FeatureRow :=
  let homeStats := calcTeamStats sportMatches (home_team m) (date m) WINDOW_SIZE in
  let awayStats := calcTeamStats sportMatches (away_team m) (date m) WINDOW_SIZE in
  {| row_match_id := match_id m;
     row_sport := sportName;
     row_home_form := form homeStats;
     row_away_form := form awayStats;
     row_home_goals_avg := avgGoalsFor homeStats;
     row_away_goals_avg := avgGoalsFor awayStats |}.

(** The two nested loops over [Object.entries(matchesBySport)]. *)
Definition featureRows (groups : list (string * list MatchRow)) : list FeatureRow :=
  flat_map (fun group => map (featureRow (fst group) (snd group)) (snd group)) groups.

(** [calculateFeatures]: the rows are built first, then written in one
    transaction, and returned. *)
Definition calculateFeatures : M (list FeatureRow) :=
  w <- get ;;
  let matches := selectMatches w in
  match matches with
  | [] => ret []
  | _ =>
      match matchesBySport matches with
      | Thrown message => throw message
      | Returned groups =>
          let rows := featureRows (Object_entries groups) in
          setStats (fold_left insertStats rows (db_stats w)) ;;;
          ret rows
      end
  end.

End WithZone.

(** *** The quantities the properties speak of *)

(** The matches of a sport among the rows selected. *)
Definition groupOf (sportName : string) (matches : list MatchRow) : list MatchRow :=
  filter (fun r => sportOf r =? sportName) matches.

(** The groups the reduction builds when no sport bears an inherited name. *)
Definition grouped (matches : list MatchRow) : list (string * list MatchRow) :=
  fold_left (fun acc m => pushTo (sportOf m) m acc) matches [].

End FeatureJob.

(* ================================================================== *)
(** ** api/apiHandler.js *)
(* ================================================================== *)

Module Api.

Local Open Scope string_scope.
Local Open Scope monad_scope.

(** The keys of [MATCH_ID_OFFSETS].  [composeMatchId] is private to the
    module and called with the literals ['football'] and ['basketball'] only
    (by [mapFootballMatch] and [mapBasketballMatch]), so its parameter
    [sport] ranges over the two keys, and the default of
    [MATCH_ID_OFFSETS[sport] ?? 0] is never taken. *)
Inductive SportKey : Type :=
| Football
| Basketball.

(** [MATCH_ID_OFFSETS[sport]]. *)
Definition MATCH_ID_OFFSETS (sport : SportKey) : JsNum :=
  match sport with
  | Football => Fin 0
  | Basketball => Fin 5000000000
  end.

(** The name of a key. *)
Definition sportNameOf (sport : SportKey) : string :=
  match sport with
  | Football => "football"
  | Basketball => "basketball"
  end.

(** [Array.prototype.map] with a callback that may throw: the first
    exception ends the loop. *)
Fixpoint mapArray {A B : Type} (f : A -> Outcome B) (l : list A) : Outcome (list B) :=
  match l with
  | [] => Returned []
  | x :: rest =>
      andThen (f x) (fun y =>
      andThen (mapArray f rest) (fun ys => Returned (y :: ys)))
  end.

Section WithEnvironment.

Context {rt : Runtime} (cfg : Config) (out : Outside).

Definition composeMatchId (rawId : JsValue) (sport : SportKey) : Outcome (option JsNum) :=
  andThen (Number rawId) (fun numeric =>
  if negb (isFinite numeric) then Returned None
  else Returned (Some (add (MATCH_ID_OFFSETS sport) numeric))).

(** A mapped row: the composed id, and the columns copied from the fixture. *)
Record MappedRow : Type := {
  mapped_match_id : option JsNum;
  mapped_from : ProviderMatch
}.

Definition mapFootballMatch (m : ProviderMatch) : Outcome MappedRow :=
  andThen (composeMatchId (pm_id m) Football) (fun matchId =>
  Returned {| mapped_match_id := matchId; mapped_from := m |}).

Definition mapBasketballMatch (m : ProviderMatch) : Outcome MappedRow :=
  andThen (composeMatchId (pm_id m) Basketball) (fun matchId =>
  Returned {| mapped_match_id := matchId; mapped_from := m |}).

(** [INSERT OR REPLACE INTO matches]: [match_id] is the primary key. *)
Definition upsert (row : MatchRow) (table : list MatchRow) : list MatchRow :=
  filter (fun r => negb (match_id r =? match_id row)%Z) table ++ [row].

(** One turn of the loop of [saveMatches]: a row without a truthy [match_id]
    is skipped.  The key is the integer the composed id denotes. *)
Definition insertRow (sportName : string) (table : list MatchRow) (row : MappedRow)
    : list MatchRow :=
  match mapped_match_id row with
  | Some (Fin q) =>
      if Qeq_bool q 0 then table
      else
        let m := mapped_from row in
        upsert {| match_id := Qfloor q;
                  sport := Some sportName;
                  date := pm_date m;
                  status := pm_status m;
                  home_team_id := pm_home_team_id m;
                  away_team_id := pm_away_team_id m;
                  home_team := pm_home_team m;
                  away_team := pm_away_team m;
                  home_goals := pm_home_goals m;
                  away_goals := pm_away_goals m |} table
  | _ => table
  end.

(** [saveMatches]: the rows are mapped first; an exception of the mapping
    leaves the table as it is. *)
Definition saveMatches (matches : list ProviderMatch) (sportName : string) : M unit :=
  match matches with
  | [] => ret tt
  | _ =>
      let mapRow :=
        if sportName =? "basketball" then mapBasketballMatch else mapFootballMatch in
      rows <- lift (mapArray mapRow matches) ;;
      w <- get ;;
      setMatches (fold_left (insertRow sportName) rows (db_matches w))
  end.

(** [!apiKey] for an environment variable. *)
Definition unset (key : option string) : bool := str_falsy key.

(** [axios.get] against the provider: it throws when the request fails. *)
Definition axios_get : M (Z * list ProviderMatch) :=
  n <- tick ;;
  match sportsApi out n with
  | SportsFailure => throw "Network Error"
  | SportsResponse httpStatus response => ret (httpStatus, response)
  end.

(** The body shared by [fetchFootballTeamHistory] and
    [fetchFootballHeadToHead]: they differ in the query only. *)
Definition fetchFootball : M (list ProviderMatch) :=
  if unset (API_FOOTBALL_KEY cfg)
  then throw "API_FOOTBALL_KEY not set in environment (.env)"
  else
    tryCatch
      (reply <- axios_get ;;
       let '(httpStatus, matches) := reply in
       if negb (httpStatus =? 200)%Z then throw "HTTP"
       else saveMatches matches "football" ;;; ret matches)
      (fun _ => ret []).

Definition fetchFootballTeamHistory (teamId last : Z) : M (list ProviderMatch) :=
  fetchFootball.

Definition fetchFootballHeadToHead (teamAId teamBId last : Z) : M (list ProviderMatch) :=
  fetchFootball.

(** The body shared by [fetchBasketballTeamHistory] and
    [fetchBasketballHeadToHead]: the key is tested before the [try], the
    request, the test of the status and [saveMatches] are inside it. *)
Definition fetchBasketball : M (list ProviderMatch) :=
  let apiKey :=
    match API_BASKETBALL_KEY cfg with
    | Some k => Some k
    | None => API_FOOTBALL_KEY cfg
    end in
  if unset apiKey
  then throw "API_BASKETBALL_KEY not set in environment (.env)"
  else
    tryCatch
      (reply <- axios_get ;;
       let '(httpStatus, matches) := reply in
       if negb (httpStatus =? 200)%Z then throw "HTTP"
       else saveMatches matches "basketball" ;;; ret matches)
      (fun _ => ret []).

Definition fetchBasketballTeamHistory (teamId last : Z) : M (list ProviderMatch) :=
  fetchBasketball.

Definition fetchBasketballHeadToHead (teamAId teamBId last : Z)
    : M (list ProviderMatch) :=
  fetchBasketball.

Definition fetchTeamHistory (teamId : option Z) (last : Z) (sportName : string)
    : M (list ProviderMatch) :=
  record (TeamHistoryRequested (idOr0 teamId) last sportName) ;;;
  if id_falsy teamId then ret []
  else if sportName =? "basketball"
  then fetchBasketballTeamHistory (idOr0 teamId) last
  else fetchFootballTeamHistory (idOr0 teamId) last.

Definition fetchHeadToHeadHistory (teamAId teamBId : option Z) (last : Z)
    (sportName : string) : M (list ProviderMatch) :=
  record (HeadToHeadRequested (idOr0 teamAId) (idOr0 teamBId) last sportName) ;;;
  if id_falsy teamAId || id_falsy teamBId then ret []
  else if sportName =? "basketball"
  then fetchBasketballHeadToHead (idOr0 teamAId) (idOr0 teamBId) last
  else fetchFootballHeadToHead (idOr0 teamAId) (idOr0 teamBId) last.

End WithEnvironment.

(** *** The quantities the properties speak of *)

(** The message of the exception the fetchers of a sport throw when their
    key is not set. *)
Definition missingKey (sportName : string) : string :=
  if sportName =? "basketball"
  then "API_BASKETBALL_KEY not set in environment (.env)"
  else "API_FOOTBALL_KEY not set in environment (.env)".

(** The key the fetchers of a sport read. *)
Definition apiKeyOf (cfg : Config) (sportName : string) : option string :=
  if sportName =? "basketball" then
    match API_BASKETBALL_KEY cfg with
    | Some k => Some k
    | None => API_FOOTBALL_KEY cfg
    end
  else API_FOOTBALL_KEY cfg.

(** The exception of a history request of a sport whose key is not set. *)
Definition keyMissing (cfg : Config) (sportName : string) (message : string) : Prop :=
  str_falsy (apiKeyOf cfg sportName) = true /\ message = missingKey sportName.

(** The table holds a row under the key, and every row under the key is of
    the sport. *)
Definition holds (k : Z) (sportName : string) (table : list MatchRow) : Prop :=
  (exists r, In r table /\ match_id r = k)
  /\ (forall r, In r table -> match_id r = k -> sport r = Some sportName).

End Api.

(* ================================================================== *)
(** ** The predictor module *)
(* ================================================================== *)

Module Predictor.

Local Open Scope string_scope.
Local Open Scope monad_scope.

Definition TEAM_HISTORY_SIZE : nat := 12.
Definition H2H_HISTORY_SIZE : nat := 10.

(** [Object.values(SPORT_OFFSETS)], in the order of the keys. *)
Definition SPORT_OFFSETS : list (string * JsNum) :=
  [("football", Fin 0); ("basketball", Fin 5000000000)].

(** An entry of [SPORT_PROMPT_META], or what is read in its place: a
    property that is not there reads as [undefined] ([None]). *)
Record PromptMeta : Type := {
  analystLabel : option string;
  scoringLabel : option string;
  scoringLong : option string;
  drawLabel : option string
}.

Definition META_FOOTBALL : PromptMeta :=
  {| analystLabel := Some "Fussball-Analyst"; scoringLabel := Some "Tore";
     scoringLong := Some "Torproduktion"; drawLabel := Some "Unentschieden" |}.

Definition META_BASKETBALL : PromptMeta :=
  {| analystLabel := Some "Basketball-Analyst"; scoringLabel := Some "Punkte";
     scoringLong := Some "Punktproduktion"; drawLabel := Some "Unentschieden" |}.

(** What [SPORT_PROMPT_META[sport]] yields for a name every object inherits
    ([toString], [constructor], [__proto__], ...): a member of
    [Object.prototype], which is not nullish and has none of the four
    properties. *)
Definition PROTOTYPE_MEMBER : PromptMeta :=
  {| analystLabel := None; scoringLabel := None;
     scoringLong := None; drawLabel := None |}.

(** [SPORT_PROMPT_META[sport] ?? SPORT_PROMPT_META.football]. *)
Definition metaOf (sportName : string) : PromptMeta :=
  if sportName =? "football" then META_FOOTBALL
  else if sportName =? "basketball" then META_BASKETBALL
  else if FeatureJob.inherited sportName then PROTOTYPE_MEMBER
  else META_FOOTBALL.

(** A property that may be [undefined], as a value. *)
Definition valueOf (property : option string) : JsValue :=
  match property with
  | Some text => VStr text
  | None => VUndefined
  end.

(** A property that may be [undefined], as a template literal renders it. *)
Definition rendered (property : option string) : string :=
  match property with
  | Some text => text
  | None => "undefined"
  end.

(** The feature record [getFeatures] returns. *)
Record Features : Type := {
  feature_sport : option string;
  home_form : JsNum;
  away_form : JsNum;
  home_goals_avg : JsNum;
  away_goals_avg : JsNum
}.

Record Probabilities : Type := {
  home : JsNum;
  draw : JsNum;
  away : JsNum
}.

Record BettingAdvice : Type := {
  recommendation : JsValue;
  confidence : JsNum;
  reasoning : JsValue
}.

(** The prediction object; [engine] is absent from what
    [normalizePrediction] returns and added by [predictMatch]. *)
Record Prediction : Type := {
  prediction_match_id : JsValue;
  prediction : JsValue;
  probabilities : Probabilities;
  explanation : JsValue;
  betting_advice : BettingAdvice;
  engine : option string
}.

(** What [predictMatch] resolves to. *)
Inductive PredictResult : Type :=
| ErrorObject (error : string)
| Predicted (p : Prediction).

(** [v.key]: a [TypeError] on [null] and [undefined]. *)
Definition getProp (v : JsValue) (key : string) : Outcome JsValue :=
  match v with
  | VUndefined | VNull => Thrown "TypeError"
  | _ => Returned (prop v key)
  end.

(** [typeof v === 'object'], [null] included. *)
Definition typeofObject (v : JsValue) : bool :=
  match v with
  | VNull | VArr _ | VObj _ => true
  | _ => false
  end.

Definition round (value : JsNum) : JsNum :=
  div (Math_round (mul value (Fin 100))) (Fin 100).

Definition clamp (min max value : JsNum) : JsNum :=
  Math_max min (Math_min max value).

(** [SameValueZero], the equality of a [Set]. *)
Definition sameValueZero (a b : JsNum) : bool :=
  match a, b with
  | Fin x, Fin y => Qeq_bool x y
  | PInf, PInf | NInf, NInf | NaN, NaN => true
  | _, _ => false
  end.

(** [set.add(x)], the set kept in insertion order. *)
Definition setAdd (set : list JsNum) (x : JsNum) : list JsNum :=
  if existsb (sameValueZero x) set then set else set ++ [x].

(** The quotation mark, as a string. *)
Definition quote : string := String (ascii_of_nat 34) EmptyString.

Definition sportOr (s : option string) (default : string) : string :=
  match s with Some x => x | None => default end.

(** [COALESCE] over nullable texts. *)
Fixpoint coalesce (values : list (option string)) : option string :=
  match values with
  | [] => None
  | Some v :: _ => Some v
  | None :: rest => coalesce rest
  end.

(** [a = b] in SQL: false when either side is NULL. *)
Definition sql_eqb (a b : option string) : bool :=
  match a, b with
  | Some x, Some y => x =? y
  | _, _ => false
  end.

(** A nullable REAL column as the driver hands it over. *)
Definition column (c : option Q) : JsValue :=
  match c with
  | Some q => VNum (Fin q)
  | None => VNull
  end.

Definition numberOfId (id : Z) : JsNum := Fin (inject_Z id).

(** The comparator of [ORDER BY datetime(date) DESC]. *)
Definition byDateDesc (a b : MatchRow) : Z := FeatureEngine.byDate b a.

Section WithEnvironment.

Context {rt : Runtime} (cfg : Config) (out : Outside).

Definition toNumber (value : JsValue) : Outcome (option JsNum) :=
  let converted :=
    andThen (Number value) (fun num =>
    Returned (if isNaN num then None else Some num)) in
  match value with
  | VNum n => if negb (isNaN n) then Returned (Some n) else converted
  | _ => converted
  end.

(** [toNumber] on a nullable REAL column, which holds a number or NULL: the
    number, and 0 for NULL ([Number(null)]); the conversion does not throw. *)
Definition columnToNumber (c : option Q) : option JsNum :=
  match c with
  | Some q => Some (Fin q)
  | None => Some (Fin 0)
  end.

Definition buildHistoryKey (sportName : string) (teamId : Z) : string :=
  sportName ++ ":" ++ NumberToString (numberOfId teamId).

Definition makeCandidateMatchIds (matchId : JsValue) : Outcome (list JsNum) :=
  andThen (toNumber matchId) (fun baseId =>
  match baseId with
  | None => Returned []
  | Some baseId =>
      let candidates :=
        fold_left
          (fun candidates offset =>
             if negb (isFinite offset) || sameValueZero offset (Fin 0) then candidates
             else
               let added := setAdd candidates (add baseId offset) in
               if geb baseId offset then setAdd added (sub baseId offset) else added)
          (map snd SPORT_OFFSETS) [baseId] in
      Returned (filter (fun value => isFinite value && geb value (Fin 0)) candidates)
  end).

(** [stmt.get(candidate)] of [getMatchRecord]: the row of that id, its sport
    coalesced to football. *)
Definition selectMatch (w : World) (candidate : JsNum) : option MatchRow :=
  match find (fun r => sameValueZero (numberOfId (match_id r)) candidate) (db_matches w) with
  | Some r =>
      Some {| match_id := match_id r;
              sport := Some (sportOr (sport r) "football");
              date := date r; status := status r;
              home_team_id := home_team_id r; away_team_id := away_team_id r;
              home_team := home_team r; away_team := away_team r;
              home_goals := home_goals r; away_goals := away_goals r |}
  | None => None
  end.

Fixpoint firstRow (w : World) (candidates : list JsNum) : option MatchRow :=
  match candidates with
  | [] => None
  | candidate :: rest =>
      match selectMatch w candidate with
      | Some row => Some row
      | None => firstRow w rest
      end
  end.

Definition getMatchRecord (w : World) (matchId : JsValue) : Outcome (option MatchRow) :=
  andThen (makeCandidateMatchIds matchId) (fun candidates =>
  Returned (firstRow w candidates)).

Definition orZero (n : option JsNum) : JsNum :=
  match n with Some x => x | None => Fin 0 end.

Definition getFeatures (w : World) (matchId : Z) (sportHint : option string)
    : option Features :=
  match find (fun s => (stats_match_id s =? matchId)%Z) (db_stats w) with
  | None => None
  | Some s =>
      let joined :=
        match find (fun r => (match_id r =? matchId)%Z) (db_matches w) with
        | Some r => sport r
        | None => None
        end in
      let rowSport := coalesce [stats_sport s; joined; sportHint] in
      if sql_eqb rowSport (coalesce [joined; sportHint]) then
        Some {| feature_sport := coalesce [rowSport; sportHint];
                home_form := orZero (columnToNumber (stats_home_form s));
                away_form := orZero (columnToNumber (stats_away_form s));
                home_goals_avg := orZero (columnToNumber (stats_home_goals_avg s));
                away_goals_avg := orZero (columnToNumber (stats_away_goals_avg s)) |}
      else None
  end.

(** The rows both history queries select from: another match of the sport,
    dated, with both scores, and before [beforeDate] when there is one. *)
Definition historyRow (excludeMatchId : Z) (beforeDate : option Z) (sportName : string)
    (r : MatchRow) : bool :=
  negb (match_id r =? excludeMatchId)%Z
  && (sportOr (sport r) "football" =? sportName)
  && match date r with
     | None => false
     | Some d =>
         match home_goals r, away_goals r with
         | Some _, Some _ =>
             match beforeDate with Some b => (d <? b)%Z | None => true end
         | _, _ => false
         end
     end.

Definition fetchRecentMatches (w : World) (teamName : option string)
    (excludeMatchId : Z) (beforeDate : option Z) (sportName : string) (limit : nat)
    : list MatchRow :=
  if str_falsy teamName then []
  else
    firstn limit
      (FeatureEngine.sortBy byDateDesc
         (filter
            (fun r =>
               (sql_eqb (home_team r) teamName || sql_eqb (away_team r) teamName)
               && historyRow excludeMatchId beforeDate sportName r)
            (db_matches w))).

Definition fetchHeadToHead (w : World) (homeTeam awayTeam : option string)
    (excludeMatchId : Z) (beforeDate : option Z) (sportName : string) (limit : nat)
    : list MatchRow :=
  if str_falsy homeTeam || str_falsy awayTeam then []
  else
    firstn limit
      (FeatureEngine.sortBy byDateDesc
         (filter
            (fun r =>
               historyRow excludeMatchId beforeDate sportName r
               && ((sql_eqb (home_team r) homeTeam && sql_eqb (away_team r) awayTeam)
                   || (sql_eqb (home_team r) awayTeam && sql_eqb (away_team r) homeTeam)))
            (db_matches w))).

(** Most recent first: [b] is dated no later than [a]. *)
Definition newestFirst (a b : MatchRow) : Prop := (0 <= FeatureEngine.byDate a b)%Z.

(** The tallies of [summarizeTeamHistory]. *)
Record TeamSummary : Type := {
  wins : Z;
  draws : Z;
  losses : Z;
  goalsFor : JsNum;
  goalsAgainst : JsNum
}.

(** One turn of the loop of [summarizeTeamHistory]. *)
Definition summarizeTeamRow (teamName : option string) (summary : TeamSummary)
    (row : MatchRow) : TeamSummary :=
  let isHome := str_eqb (home_team row) teamName in
  match columnToNumber (if isHome then home_goals row else away_goals row),
        columnToNumber (if isHome then away_goals row else home_goals row) with
  | Some rowGoalsFor, Some rowGoalsAgainst =>
      let scored := add (goalsFor summary) rowGoalsFor in
      let conceded := add (goalsAgainst summary) rowGoalsAgainst in
      if gtb rowGoalsFor rowGoalsAgainst then
        {| wins := wins summary + 1; draws := draws summary; losses := losses summary;
           goalsFor := scored; goalsAgainst := conceded |}
      else if ltb rowGoalsFor rowGoalsAgainst then
        {| wins := wins summary; draws := draws summary; losses := losses summary + 1;
           goalsFor := scored; goalsAgainst := conceded |}
      else
        {| wins := wins summary; draws := draws summary + 1; losses := losses summary;
           goalsFor := scored; goalsAgainst := conceded |}
  | _, _ => summary
  end%Z.

Definition summarizeTeamHistory (rows : list MatchRow) (teamName : option string)
    : TeamSummary :=
  fold_left (summarizeTeamRow teamName) rows
    {| wins := 0; draws := 0; losses := 0; goalsFor := Fin 0; goalsAgainst := Fin 0 |}.

(** The tallies of [summarizeHeadToHead]. *)
Record HeadToHeadSummary : Type := {
  homeWins : Z;
  awayWins : Z;
  drawn : Z
}.

(** One turn of the loop of [summarizeHeadToHead]; [drawn] is the counter
    [draws] of the source. *)
Definition summarizeHeadToHeadRow (summary : HeadToHeadSummary) (row : MatchRow)
    : HeadToHeadSummary :=
  match columnToNumber (home_goals row), columnToNumber (away_goals row) with
  | Some homeGoals, Some awayGoals =>
      if gtb homeGoals awayGoals then
        {| homeWins := homeWins summary + 1; awayWins := awayWins summary;
           drawn := drawn summary |}
      else if ltb homeGoals awayGoals then
        {| homeWins := homeWins summary; awayWins := awayWins summary + 1;
           drawn := drawn summary |}
      else
        {| homeWins := homeWins summary; awayWins := awayWins summary;
           drawn := drawn summary + 1 |}
  | _, _ => summary
  end%Z.

Definition summarizeHeadToHead (rows : list MatchRow) : HeadToHeadSummary :=
  fold_left summarizeHeadToHeadRow rows {| homeWins := 0; awayWins := 0; drawn := 0 |}.

(** The first block of [hydrateMatchHistory] for one team: a fetch unless the
    set remembers the team, remembered when it returned something. *)
Definition prefetchTeam (sportName : string) (teamId : option Z) : M unit :=
  if id_falsy teamId then ret tt
  else
    let key := buildHistoryKey sportName (idOr0 teamId) in
    w <- get ;;
    if existsb (String.eqb key) (fetchedHistoryTeams w) then ret tt
    else
      fetched <- Api.fetchTeamHistory cfg out teamId (Z.of_nat TEAM_HISTORY_SIZE) sportName ;;
      match fetched with
      | [] => ret tt
      | _ => memoAdd key
      end.

(** The second block for one team: the recent matches are read, and fetched
    once more and read again when fewer than three are found. *)
Definition refillTeam (m : MatchRow) (sportName : string) (teamName : option string)
    (teamId : option Z) : M (list MatchRow) :=
  w <- get ;;
  let recent :=
    fetchRecentMatches w teamName (match_id m) (date m) sportName TEAM_HISTORY_SIZE in
  if (List.length recent <? 3)%nat && negb (id_falsy teamId) then
    Api.fetchTeamHistory cfg out teamId (Z.of_nat TEAM_HISTORY_SIZE) sportName ;;;
    w' <- get ;;
    ret (fetchRecentMatches w' teamName (match_id m) (date m) sportName TEAM_HISTORY_SIZE)
  else ret recent.

Definition refillHeadToHead (m : MatchRow) (sportName : string) : M (list MatchRow) :=
  w <- get ;;
  let headToHead :=
    fetchHeadToHead w (home_team m) (away_team m) (match_id m) (date m) sportName
      H2H_HISTORY_SIZE in
  if (List.length headToHead <? 3)%nat
     && negb (id_falsy (home_team_id m)) && negb (id_falsy (away_team_id m)) then
    Api.fetchHeadToHeadHistory cfg out (home_team_id m) (away_team_id m)
      (Z.of_nat H2H_HISTORY_SIZE) sportName ;;;
    w' <- get ;;
    ret (fetchHeadToHead w' (home_team m) (away_team m) (match_id m) (date m) sportName
           H2H_HISTORY_SIZE)
  else ret headToHead.

Definition hydrateMatchHistory (m : MatchRow) : M unit :=
  let sportName := sportOr (sport m) "football" in
  prefetchTeam sportName (home_team_id m) ;;;
  prefetchTeam sportName (away_team_id m) ;;;
  homeRecent <- refillTeam m sportName (home_team m) (home_team_id m) ;;
  awayRecent <- refillTeam m sportName (away_team m) (away_team_id m) ;;
  headToHead <- refillHeadToHead m sportName ;;
  ret tt.

(** What [getMatchContext] returns. *)
Record MatchContext : Type := {
  context_sport : string;
  homeTeam : option string;
  awayTeam : option string;
  homeTeamRecent : list MatchRow;
  awayTeamRecent : list MatchRow;
  headToHead : list MatchRow
}.

Definition getMatchContext (w : World) (m : MatchRow) : MatchContext :=
  let sportName := sportOr (sport m) "football" in
  let referenceDate := date m in
  {| context_sport := sportName;
     homeTeam := home_team m;
     awayTeam := away_team m;
     homeTeamRecent :=
       fetchRecentMatches w (home_team m) (match_id m) referenceDate sportName
         TEAM_HISTORY_SIZE;
     awayTeamRecent :=
       fetchRecentMatches w (away_team m) (match_id m) referenceDate sportName
         TEAM_HISTORY_SIZE;
     headToHead :=
       fetchHeadToHead w (home_team m) (away_team m) (match_id m) referenceDate sportName
         H2H_HISTORY_SIZE |}.

(** The prompt.  Its text is put together from the labels of the sport, the
    match, the features and the histories; it only reaches the generator,
    whose reply is left arbitrary, so the parts are kept as they are and
    the text is not rendered. *)
Record Prompt : Type := {
  prompt_analystLabel : option string;
  prompt_scoringShort : string;
  prompt_scoringLong : option string;
  prompt_match : MatchRow;
  prompt_features : Features;
  prompt_context : MatchContext
}.

(** [String.prototype.toLowerCase], on the letters A to Z. *)
Definition lowerCase (a : ascii) : ascii :=
  let code := nat_of_ascii a in
  if (65 <=? code)%nat && (code <=? 90)%nat then ascii_of_nat (code + 32) else a.

Fixpoint toLowerCase (text : string) : string :=
  match text with
  | EmptyString => EmptyString
  | String a rest => String (lowerCase a) (toLowerCase rest)
  end.

Definition promptError : string :=
  "TypeError: Cannot read properties of undefined (reading 'toLowerCase')".

(** [buildPrompt].  [meta.scoringLabel.toLowerCase()] throws a [TypeError]
    when [meta.scoringLabel] is [undefined]; nothing else in the function
    throws. *)
Definition buildPrompt (m : MatchRow) (features : Features) (context : MatchContext)
    : Outcome Prompt :=
  let sportName := sportOr (sport m) "football" in
  let meta := metaOf sportName in
  match scoringLabel meta with
  | None => Thrown promptError
  | Some label =>
      Returned {| prompt_analystLabel := analystLabel meta;
                  prompt_scoringShort := toLowerCase label;
                  prompt_scoringLong := scoringLong meta;
                  prompt_match := m;
                  prompt_features := features;
                  prompt_context := context |}
  end.

(** [callRemoteLlama]: the request is made, and any failure is caught. *)
Definition callRemoteLlama (prompt : Prompt) : M JsValue :=
  record RemoteGeneratorCalled ;;;
  tryCatch
    (n <- tick ;;
     match generator out n with
     | GeneratorFailure => throw "Network Error"
     | GeneratorData data => ret (nullish data VNull)
     end)
    (fun _ => ret VNull).

(** [callOllama]. *)
Definition callOllama (prompt : Prompt) : M JsValue :=
  record LocalGeneratorCalled ;;;
  tryCatch
    (n <- tick ;;
     match generator out n with
     | GeneratorFailure => throw "Network Error"
     | GeneratorData data => ret (nullish data VNull)
     end)
    (fun _ => ret VNull).

(** What a call to a generator returns in a state, by the reply to the
    request: [null] when the request fails, and otherwise the data of the
    reply, with [null] in place of [undefined]. *)
Definition replyOf (w : World) : JsValue :=
  match generator out (clock w) with
  | GeneratorFailure => VNull
  | GeneratorData data => nullish data VNull
  end.

Definition parseJsonSafe (value : string) : JsValue :=
  match JSON_parse value with
  | Some v => v
  | None => VNull
  end.

Definition extractJson (text : JsValue) : JsValue :=
  match text with
  | VStr t =>
      if falsy text then VNull
      else
        match regex_match "\{[\s\S]*\}" t with
        | None => VNull
        | Some matched =>
            match JSON_parse matched with
            | Some v => v
            | None =>
                let sanitized :=
                  regex_replace_all ",\s*]" "]"
                    (regex_replace_all ",\s*}" "}"
                       (regex_replace_all "'" quote matched)) in
                match JSON_parse sanitized with
                | Some v => v
                | None => VNull
                end
            end
        end
  | _ => VNull
  end.

(** [normalizeIncomingPayload] on a string. *)
Definition normalizeText (raw : string) : JsValue :=
  if falsy (VStr raw) then VNull
  else nullish (extractJson (VStr raw)) (parseJsonSafe raw).

(** The loop over [textualKeys]: the first string-valued key whose text
    normalizes to a truthy value. *)
Fixpoint firstTextual (raw : JsValue) (keys : list string) : option JsValue :=
  match keys with
  | [] => None
  | key :: rest =>
      match prop raw key with
      | VStr value =>
          let parsed := normalizeText value in
          if truthy parsed then Some parsed else firstTextual raw rest
      | _ => firstTextual raw rest
      end
  end.

(** [normalizeIncomingPayload].  The recursion is on the entries of the
    arrays found under [arrayKeys]; [entriesOf key] walks the fields of the
    object to the one named [key] and, when it holds an array, tries its
    entries in order. *)
Fixpoint normalizeIncomingPayload (raw : JsValue) : JsValue :=
  match raw with
  | VStr s => normalizeText s
  | VObj fields =>
      if truthy (prop raw "prediction") && truthy (prop raw "probabilities") then raw
      else
        match firstTextual raw ["response"; "completion"; "output"; "text"] with
        | Some parsed => parsed
        | None =>
            let entriesOf :=
              fix entriesOf (key : string) (fs : list (string * JsValue))
                  : option JsValue :=
                match fs with
                | [] => None
                | (k, v) :: rest =>
                    if k =? key then
                      match v with
                      | VArr entries =>
                          (fix each (es : list JsValue) : option JsValue :=
                             match es with
                             | [] => None
                             | entry :: more =>
                                 let parsed := normalizeIncomingPayload entry in
                                 if truthy parsed then Some parsed else each more
                             end) entries
                      | _ => None
                      end
                    else entriesOf key rest
                end in
            match entriesOf "results" fields with
            | Some parsed => parsed
            | None =>
                match entriesOf "generations" fields with
                | Some parsed => parsed
                | None =>
                    match entriesOf "choices" fields with
                    | Some parsed => parsed
                    | None =>
                        if truthy (prop raw "match_id") || truthy (prop raw "probabilities")
                        then raw else VNull
                    end
                end
            end
        end
  | _ => VNull
  end.

(** [normalizePrediction].  Every property access goes through [getProp]
    and every conversion through [toNumber], so that a [TypeError] shows in
    the result. *)
Definition normalizePrediction (payload : JsValue) (matchId : JsValue)
    : Outcome (option Prediction) :=
  if falsy payload || negb (typeofObject payload) then Returned None
  else
    andThen (getProp payload "probabilities") (fun p =>
    let probs := nullish p (VObj []) in
    andThen (getProp probs "home") (fun h =>
    andThen (toNumber h) (fun probHome =>
    andThen (getProp probs "draw") (fun d =>
    andThen (toNumber d) (fun probDraw =>
    andThen (getProp probs "away") (fun a =>
    andThen (toNumber a) (fun probAway =>
    match probHome, probDraw, probAway with
    | Some probHome, Some probDraw, Some probAway =>
        let total := add (add probHome probDraw) probAway in
        if falsyNum total || leb total (Fin 0) then Returned None
        else
          let normalized :=
            {| home := round (div probHome total);
               draw := round (div probDraw total);
               away := round (div probAway total) |} in
          andThen (getProp payload "betting_advice") (fun b =>
          let bettingAdvice := nullish b (VObj []) in
          andThen (getProp bettingAdvice "confidence") (fun c =>
          andThen (toNumber c) (fun confidenceValue =>
          let safeConfidence :=
            match confidenceValue with
            | None => Fin 0
            | Some value => round value
            end in
          andThen (getProp payload "match_id") (fun id =>
          andThen (getProp payload "prediction") (fun label =>
          andThen (getProp payload "explanation") (fun text =>
          andThen (getProp bettingAdvice "recommendation") (fun advice =>
          andThen (getProp bettingAdvice "reasoning") (fun why =>
          Returned (Some
            {| prediction_match_id := nullish id matchId;
               prediction := nullish label (VStr "Unentschieden");
               probabilities := normalized;
               explanation := nullish text (VStr "Keine Erklaerung vorhanden.");
               betting_advice :=
                 {| recommendation := nullish advice (VStr "Keine Empfehlung");
                    confidence := safeConfidence;
                    reasoning := nullish why (VStr "Keine Begruendung vorhanden.") |};
               engine := None |})))))))))
    | _, _, _ => Returned None
    end))))))).

(** [randomSpread]: [(Math.random() - 0.5) * scale * 2]. *)
Definition randomSpread (scale : JsNum) : M JsNum :=
  n <- tick ;;
  ret (mul (mul (sub (Fin (random out n)) (Fin 0.5)) scale) (Fin 2)).

Definition simpleRulePredict (m : MatchRow) (features : Features) : M Prediction :=
  let score :=
    add (sub (home_form features) (away_form features))
        (sub (home_goals_avg features) (away_goals_avg features)) in
  let sportName := sportOr (sport m) "football" in
  let meta := metaOf sportName in
  let '(prediction, recommendation, confidence) :=
    if gtb score (Fin 0.3) then
      (VStr "Heimsieg", "Heimsieg", Math_min (Fin 0.85) (add (Fin 0.5) (Math_abs score)))
    else if ltb score (neg (Fin 0.3)) then
      (VStr "Auswaertssieg", "Auswaertssieg",
       Math_min (Fin 0.85) (add (Fin 0.5) (Math_abs score)))
    else
      (valueOf (drawLabel meta),
       if sportName =? "basketball" then "Spread meiden" else "Unter 2.5 Tore",
       Fin 0.6) in
  spreadHome <- randomSpread (Fin 0.1) ;;
  let probHome := clamp (Fin 0.1) (Fin 0.8) (add (add (Fin 0.5) score) spreadHome) in
  spreadAway <- randomSpread (Fin 0.1) ;;
  let probAway := clamp (Fin 0.1) (Fin 0.8) (add (sub (Fin 0.5) score) spreadAway) in
  spreadDraw <- randomSpread (Fin 0.1) ;;
  let probDraw := clamp (Fin 0.05) (Fin 0.6) (add (Fin 0.2) spreadDraw) in
  let total := add (add probHome probAway) probDraw in
  let probHome := div probHome total in
  let probAway := div probAway total in
  let probDraw := div probDraw total in
  ret {| prediction_match_id := VNum (numberOfId (match_id m));
         prediction := prediction;
         probabilities :=
           {| home := round probHome; draw := round probDraw; away := round probAway |};
         explanation :=
           VStr (("Regelbasiertes Modell Score=" ++ NumberToString (round score))
                 ++ " | "
                 ++ ("Formdifferenz "
                     ++ NumberToString
                          (round (sub (home_form features) (away_form features))))
                 ++ " | "
                 ++ (rendered (scoringLabel meta) ++ "-Differenz "
                     ++ NumberToString
                          (round (sub (home_goals_avg features)
                                      (away_goals_avg features)))));
         betting_advice :=
           {| recommendation := VStr recommendation;
              confidence := round confidence;
              reasoning :=
                VStr ("Basierend auf Form- und " ++ rendered (scoringLabel meta)
                      ++ "-Differenz der Teams.") |};
         engine := Some "rule-based" |}.

(** [{ ...validated, engine }]. *)
Definition withEngine (validated : Prediction) (source : string) : Prediction :=
  {| prediction_match_id := prediction_match_id validated;
     prediction := prediction validated;
     probabilities := probabilities validated;
     explanation := explanation validated;
     betting_advice := betting_advice validated;
     engine := Some source |}.

(** One generator tier of [predictMatch]: the raw reply is normalized and
    validated; [None] lets the next tier run. *)
Definition tier (call : M JsValue) (matchId : Z) (engineOf : JsValue -> Outcome string)
    : M (option Prediction) :=
  raw <- call ;;
  let parsed := normalizeIncomingPayload raw in
  if truthy parsed then
    validated <- lift (normalizePrediction parsed (VNum (numberOfId matchId))) ;;
    match validated with
    | Some v =>
        (source <- lift (engineOf parsed) ;;
         ret (Some (withEngine v source)))
    | None => ret None
    end
  else ret None.

(** [typeof parsed.engine === 'string' ? parsed.engine : 'llama']. *)
Definition remoteEngine (parsed : JsValue) : Outcome string :=
  andThen (getProp parsed "engine") (fun e =>
  match e with
  | VStr s => Returned s
  | _ => Returned "llama"
  end).

(** The part of [predictMatch] that follows the building of the prompt: the
    two generator tiers and the rules. *)
Definition generatorTiers (prompt : Prompt) (m : MatchRow) (features : Features)
    : M PredictResult :=
  remote <-
    (if str_falsy (LLAMA_SERVER_URL cfg) then ret None
     else tier (callRemoteLlama prompt) (match_id m) remoteEngine) ;;
  match remote with
  | Some p => ret (Predicted p)
  | None =>
      (local <-
         (if str_falsy (OLLAMA_MODEL cfg) then ret None
          else tier (callOllama prompt) (match_id m) (fun _ => Returned "ollama")) ;;
       match local with
       | Some p => ret (Predicted p)
       | None =>
           (p <- simpleRulePredict m features ;;
            ret (Predicted p))
       end)
  end.

Definition predictMatch (matchId : JsValue) : M PredictResult :=
  numericId <- lift (toNumber matchId) ;;
  match numericId with
  | None => ret (ErrorObject "Ungueltige Match-ID")
  | Some numericId =>
      w <- get ;;
      found <- lift (getMatchRecord w (VNum numericId)) ;;
      match found with
      | None => ret (ErrorObject "Match nicht gefunden")
      | Some m =>
          (hydrateMatchHistory m ;;;
           w' <- get ;;
           match getFeatures w' (match_id m) (sport m) with
           | None => ret (ErrorObject "Keine Features gefunden")
           | Some features =>
               let context := getMatchContext w' m in
               prompt <- lift (buildPrompt m features context) ;;
               generatorTiers prompt m features
           end)
      end
  end.

(** [fetchedHistoryTeams.has(key)] for the key of a team. *)
Definition remembered (w : World) (sportName : string) (teamId : option Z) : bool :=
  existsb (String.eqb (buildHistoryKey sportName (idOr0 teamId))) (fetchedHistoryTeams w).

End WithEnvironment.

(** *** The quantities the specification speaks of *)

(** The number of backfill requests for the history of a team in a trace. *)
Definition teamRequests (teamId : Z) (events : list Event) : nat :=
  List.length
    (filter (fun e => match e with
                      | TeamHistoryRequested id _ _ => (id =? teamId)%Z
                      | _ => false
                      end) events).

(** The calls to a generator in a trace. *)
Definition generatorCalls (events : list Event) : list Event :=
  filter (fun e => match e with
                   | RemoteGeneratorCalled | LocalGeneratorCalled => true
                   | _ => false
                   end) events.

(** A computation that calls no generator, whatever its outcome. *)
Definition callsNoGenerator {A : Type} (m : M A) : Prop :=
  forall w, generatorCalls (trace (fst (m w))) = generatorCalls (trace w).

(** The request [hydrateMatchHistory] makes for the history of a team. *)
Definition request (sportName : string) (teamId : option Z) : Event :=
  TeamHistoryRequested (idOr0 teamId) (Z.of_nat TEAM_HISTORY_SIZE) sportName.



End Predictor.

(* ================================================================== *)
(** ** [bot/bot.js]: what the bot shows *)
(* ================================================================== *)

Module Bot.

Local Open Scope string_scope.

Section WithRuntime.

Context {rt : Runtime}.

(** The value of [number] in [formatPercent] when it is rounded and printed;
    [None] where ['0%'] is returned at once. *)
Definition percentage (value : JsValue) : Outcome (option JsNum) :=
  match value with
  | VUndefined | VNull => Returned None
  | _ =>
      andThen (match value with VNum n => Returned n | _ => Number value end)
        (fun number =>
           if negb (isFinite number) then Returned None
           else
             let number :=
               if leb number (Fin 1) && geb number (Fin (-1)) then mul number (Fin 100)
               else number in
             Returned (Some (Math_max (Fin 0) (Math_min number (Fin 100)))))
  end.

Definition formatPercent (value : JsValue) : Outcome string :=
  andThen (percentage value) (fun number =>
  Returned
    match number with
    | None => "0%"
    | Some number => NumberToString (Math_round number) ++ "%"
    end).

End WithRuntime.

(** [s.replace(/c/g, replacement)] for a pattern of one character.  A string
    is the sequence of its bytes in UTF-8; the five characters replaced are
    ASCII, so the bytes of the other characters are left alone, as their code
    units are. *)
Fixpoint replaceAll (c : ascii) (replacement : string) (s : string) : string :=
  match s with
  | EmptyString => EmptyString
  | String a rest =>
      if Ascii.eqb a c then replacement ++ replaceAll c replacement rest
      else String a (replaceAll c replacement rest)
  end.

Definition ampersand : ascii := ascii_of_nat 38.
Definition lessThan : ascii := ascii_of_nat 60.
Definition greaterThan : ascii := ascii_of_nat 62.
Definition doubleQuote : ascii := ascii_of_nat 34.
Definition apostrophe : ascii := ascii_of_nat 39.

(** [escapeHtml] on a string, [null] or [undefined]: [String(value ?? '')],
    then the five replacements in the order of the source. *)
Definition escapeHtml (value : option string) : string :=
  let text := match value with Some s => s | None => EmptyString end in
  replaceAll apostrophe "&#39;"
    (replaceAll doubleQuote "&quot;"
       (replaceAll greaterThan "&gt;"
          (replaceAll lessThan "&lt;"
             (replaceAll ampersand "&amp;" text)))).

(** *** The quantities the properties speak of *)

(** The entity of a character, or the character itself. *)
Definition entity (a : ascii) : string :=
  if Ascii.eqb a ampersand then "&amp;"
  else if Ascii.eqb a lessThan then "&lt;"
  else if Ascii.eqb a greaterThan then "&gt;"
  else if Ascii.eqb a doubleQuote then "&quot;"
  else if Ascii.eqb a apostrophe then "&#39;"
  else String a EmptyString.

(** Every character replaced by its entity, in one pass. *)
Fixpoint escaped (s : string) : string :=
  match s with
  | EmptyString => EmptyString
  | String a rest => entity a ++ escaped rest
  end.

(** A character that opens or closes a tag or an attribute value. *)
Definition markup (a : ascii) : bool :=
  Ascii.eqb a lessThan || Ascii.eqb a greaterThan
  || Ascii.eqb a doubleQuote || Ascii.eqb a apostrophe.

Fixpoint occurs (p : ascii -> bool) (s : string) : bool :=
  match s with
  | EmptyString => false
  | String a rest => p a || occurs p rest
  end.

End Bot.

(* ================================================================== *)
(** ** The predictor module on binary64 numbers *)
(* ================================================================== *)

Module Binary64.

Import PrimFloat.

Local Open Scope string_scope.
Local Open Scope bool_scope.
Local Open Scope float_scope.

Set Warnings "-inexact-float".

(** A decimal literal denotes the nearest binary64 number, as it does in the
    source. *)

Definition isNaN (x : float) : bool := negb (x =? x).

(** [-0], which compares equal to [0]. *)
Definition negativeZero (x : float) : bool := (x =? 0) && (1 / x <? 0).

(** [!x] for a number. *)
Definition falsyNum (x : float) : bool := (x =? 0) || isNaN x.

Definition Math_abs (x : float) : float := abs x.

Definition Math_min (a b : float) : float :=
  if isNaN a || isNaN b then nan
  else if b <? a then b
  else if a <? b then a
  else if negativeZero b then b else a.

Definition Math_max (a b : float) : float :=
  if isNaN a || isNaN b then nan
  else if a <? b then b
  else if b <? a then a
  else if negativeZero a then b else a.

(** The binary64 number of an integer of magnitude at most 2^53. *)
Definition ofInteger (k : Z) : float :=
  let magnitude := of_uint63 (Uint63.of_Z (Z.abs k)) in
  if (k <? 0)%Z then - magnitude else magnitude.

(** [Math.round]: the nearest integer, ties towards plus infinity, computed
    without rounding error on the mantissa and the exponent of the number: a
    finite number is [mantissa * 2^exponent], negated when [negative]; with
    an exponent of 0 or more it is an integer, and otherwise the result is
    the floor of [(2 * number + 1) / 2].  A result of zero has the sign of
    the number. *)
Definition Math_round (x : float) : float :=
  match FloatOps.Prim2SF x with
  | SpecFloat.S754_finite negative mantissa exponent =>
      if (0 <=? exponent)%Z then x
      else
        let twice :=
          if negative then (- 2 * Z.pos mantissa)%Z else (2 * Z.pos mantissa)%Z in
        let nearest := ((twice + 2 ^ (- exponent)) / 2 ^ (1 - exponent))%Z in
        if (nearest =? 0)%Z then (if negative then -0 else 0)
        else ofInteger nearest
  | _ => x
  end.

Definition round (value : float) : float := Math_round (value * 100) / 100.

Definition clamp (min max value : float) : float :=
  Math_max min (Math_min max value).

Record Features : Type := {
  feature_sport : option string;
  home_form : float;
  away_form : float;
  home_goals_avg : float;
  away_goals_avg : float
}.

Record Probabilities : Type := {
  home : float;
  draw : float;
  away : float
}.

Record BettingAdvice : Type := {
  recommendation : string;
  confidence : float;
  reasoning : string
}.

(** The prediction object of [simpleRulePredict]; [prediction] is a string,
    or [undefined] (see [Predictor.metaOf]). *)
Record Prediction : Type := {
  prediction_match_id : Z;
  prediction : JsValue;
  probabilities : Probabilities;
  explanation : string;
  betting_advice : BettingAdvice;
  engine : string
}.

(** The arithmetic of [normalizePrediction] on the three numbers [toNumber]
    returned; [None] is [null]. *)
Definition normalized (probHome probDraw probAway : float) : option Probabilities :=
  let total := probHome + probDraw + probAway in
  if falsyNum total || (total <=? 0) then None
  else
    Some {| home := round (probHome / total);
            draw := round (probDraw / total);
            away := round (probAway / total) |}.

(** [safeConfidence] of [normalizePrediction]. *)
Definition safeConfidence (confidenceValue : option float) : float :=
  match confidenceValue with
  | None => 0
  | Some value => round value
  end.

Section WithOutside.

(** The n-th draw of [Math.random], and [String(n)] for a number. *)
Variable random : nat -> float.
Variable NumberToString : float -> string.

(** [randomSpread], on the n-th draw. *)
Definition randomSpread (scale : float) (n : nat) : float :=
  (random n - 0.5) * scale * 2.

(** [simpleRulePredict]; [clock] is the number of draws made before. *)
Definition simpleRulePredict (m : MatchRow) (features : Features) (clock : nat)
    : Prediction :=
  let score :=
    (home_form features - away_form features)
    + (home_goals_avg features - away_goals_avg features) in
  let sportName := Predictor.sportOr (sport m) "football" in
  let meta := Predictor.metaOf sportName in
  let '(prediction, recommendation, confidence) :=
    if 0.3 <? score then
      (VStr "Heimsieg", "Heimsieg"%string, Math_min 0.85 (0.5 + Math_abs score))
    else if score <? -0.3 then
      (VStr "Auswaertssieg", "Auswaertssieg"%string,
       Math_min 0.85 (0.5 + Math_abs score))
    else
      (Predictor.valueOf (Predictor.drawLabel meta),
       if (sportName =? "basketball")%string then "Spread meiden"%string
       else "Unter 2.5 Tore"%string,
       0.6) in
  let probHome := clamp 0.1 0.8 (0.5 + score + randomSpread 0.1 clock) in
  let probAway := clamp 0.1 0.8 (0.5 - score + randomSpread 0.1 (S clock)) in
  let probDraw := clamp 0.05 0.6 (0.2 + randomSpread 0.1 (S (S clock))) in
  let total := probHome + probAway + probDraw in
  let probHome := probHome / total in
  let probAway := probAway / total in
  let probDraw := probDraw / total in
  {| prediction_match_id := match_id m;
     prediction := prediction;
     probabilities :=
       {| home := round probHome; draw := round probDraw; away := round probAway |};
     explanation :=
       (("Regelbasiertes Modell Score=" ++ NumberToString (round score))
        ++ " | "
        ++ ("Formdifferenz "
            ++ NumberToString (round (home_form features - away_form features)))
        ++ " | "
        ++ (Predictor.rendered (Predictor.scoringLabel meta) ++ "-Differenz "
            ++ NumberToString
                 (round (home_goals_avg features - away_goals_avg features))))%string;
     betting_advice :=
       {| recommendation := recommendation;
          confidence := round confidence;
          reasoning :=
            ("Basierend auf Form- und " ++ Predictor.rendered (Predictor.scoringLabel meta)
             ++ "-Differenz der Teams.")%string |};
     engine := "rule-based" |}.

End WithOutside.

(** [formatPercent] of [bot.js] on a number. *)
Definition formatPercent (NumberToString : float -> string) (value : float) : string :=
  if negb (abs value <? infinity) then "0%"%string
  else
    let number := if (value <=? 1) && (-1 <=? value) then value * 100 else value in
    let number := Math_max 0 (Math_min number 100) in
    (NumberToString (Math_round number) ++ "%")%string.

End Binary64.

(* ================================================================== *)
(** ** Concrete inputs *)
(* ================================================================== *)

Module Examples.

Import FeatureEngine.

Local Open Scope string_scope.

(** 2024-05-01T00:00:00Z and 2024-06-01T00:00:00Z. *)
Definition may_1st : Z := 1714521600000.
Definition june_1st : Z := 1717200000000.

(** A football match of team A at home against B, [day] days after 1 May 2024. *)
Definition fixture (id day : Z) (score : option (Q * Q)) : MatchRow :=
  {| match_id := id;
     sport := Some "football";
     date := Some (may_1st + day * DAY_MS)%Z;
     status := Some (match score with Some _ => "FT" | None => "PST" end);
     home_team_id := Some 1%Z;
     away_team_id := Some 2%Z;
     home_team := Some "A";
     away_team := Some "B";
     home_goals := option_map fst score;
     away_goals := option_map snd score |}.

(** Eleven matches of A in May 2024: a 0-1 defeat, nine 1-0 wins, and a most
    recent fixture that was postponed and has no score. *)
Definition season : list MatchRow :=
  [ fixture 1 0 (Some (0, 1));
    fixture 2 1 (Some (1, 0)); fixture 3 2 (Some (1, 0)); fixture 4 3 (Some (1, 0));
    fixture 5 4 (Some (1, 0)); fixture 6 5 (Some (1, 0)); fixture 7 6 (Some (1, 0));
    fixture 8 7 (Some (1, 0)); fixture 9 8 (Some (1, 0)); fixture 10 9 (Some (1, 0));
    fixture 11 10 None ].


(** A runtime for the examples: it reads integers written in decimal digits
    and nothing else, and writes a number as an integer or a fraction; no
    example depends on what a string converts to or parses as. *)
Definition integerRuntime : Runtime :=
  {| StringToNumber :=
       fun s => match DecimalString.NilZero.int_of_string s with
                | Some i => Fin (inject_Z (Z.of_int i))
                | None => NaN
                end;
     NumberToString :=
       fun n => match n with
                | Fin q =>
                    let digits z := DecimalString.NilZero.string_of_int (Z.to_int z) in
                    if (Qden (Qred q) =? 1)%positive then digits (Qnum (Qred q))
                    else digits (Qnum (Qred q)) ++ "/" ++ digits (Zpos (Qden (Qred q)))
                | PInf => "Infinity"
                | NInf => "-Infinity"
                | NaN => "NaN"
                end;
     JSON_parse := fun _ => None;
     regex_match := fun _ _ => None;
     regex_replace_all := fun _ _ s => s |}.

(** The time zone UTC. *)
Definition utc : Zone := {| LocalTZA := fun _ _ => 0%Z |}.

(** Central European time in 2024 and 2025: one hour ahead of UTC, and two
    hours from the last Sunday of March, 01:00 UTC, to the last Sunday of
    October, 01:00 UTC.  A local time that the clocks skip or show twice is
    read with the offset in force before the change. *)
Definition central : Zone :=
  {| LocalTZA :=
       fun t isUTC =>
         let shift := if isUTC then 0%Z else 7200000%Z in
         if ((1711846800000 + shift <=? t) && (t <? 1729990800000 + shift)
             || (1743296400000 + shift <=? t) && (t <? 1761440400000 + shift))%Z
         then 7200000%Z else 3600000%Z |}.

(** 2025-10-26T11:00:00Z, noon in central European time, the day the clocks
    were set back. *)
Definition october_26th : Z := 1761476400000.

(** An outside world in which every request fails and every draw of
    [Math.random] is one half. *)
Definition offline : Outside :=
  {| sportsApi := fun _ => SportsFailure;
     generator := fun _ => GeneratorFailure;
     random := fun _ => 1 # 2 |}.

(** No generator is configured; the key of the sports-data provider is set. *)
Definition ruleBasedOnly : Config :=
  {| LLAMA_SERVER_URL := None; OLLAMA_MODEL := None;
     API_FOOTBALL_KEY := Some "key"; API_BASKETBALL_KEY := None |}.

(** Nothing is configured. *)
Definition nothingSet : Config :=
  {| LLAMA_SERVER_URL := None; OLLAMA_MODEL := None;
     API_FOOTBALL_KEY := None; API_BASKETBALL_KEY := None |}.

(** Only the key of the basketball provider is set. *)
Definition basketballOnly : Config :=
  {| LLAMA_SERVER_URL := None; OLLAMA_MODEL := None;
     API_FOOTBALL_KEY := None; API_BASKETBALL_KEY := Some "key" |}.

(** A basketball game between teams 140 and 150, its id past the offset. *)
Definition game : MatchRow :=
  {| match_id := 5000000042;
     sport := Some "basketball";
     date := Some june_1st;
     status := Some "NS";
     home_team_id := Some 140%Z;
     away_team_id := Some 150%Z;
     home_team := Some "E";
     away_team := Some "F";
     home_goals := None;
     away_goals := None |}.

(** The game 42 as the basketball provider returns it. *)
Definition fetched : ProviderMatch :=
  {| pm_id := VNum (Fin 42);
     pm_date := Some june_1st;
     pm_status := Some "NS";
     pm_home_team_id := Some 140%Z;
     pm_away_team_id := Some 150%Z;
     pm_home_team := Some "E";
     pm_away_team := Some "F";
     pm_home_goals := None;
     pm_away_goals := None |}.

(** The contest to predict: A (team 33) at home against B, whose id the
    provider did not give, on 1 June 2024. *)
Definition contest : MatchRow :=
  {| match_id := 7;
     sport := Some "football";
     date := Some june_1st;
     status := Some "NS";
     home_team_id := Some 33%Z;
     away_team_id := None;
     home_team := Some "A";
     away_team := Some "B";
     home_goals := None;
     away_goals := None |}.

(** A store that knows one earlier match of A, and the features of the
    contest; nothing was fetched in this process yet. *)
Definition sparse : World :=
  {| db_matches := [contest; fixture 1 0 (Some (2, 1))];
     db_stats :=
       [{| stats_match_id := 7; stats_sport := Some "football";
           stats_home_form := Some 1; stats_away_form := Some 0;
           stats_home_goals_avg := Some 2; stats_away_goals_avg := Some 1 |}];
     fetchedHistoryTeams := [];
     clock := 0;
     trace := [] |}.

(** A store with one match, recorded under the sport [toString]. *)
Definition misnamed : World :=
  {| db_matches :=
       [{| match_id := 1; sport := Some "toString"; date := Some may_1st;
           status := Some "FT"; home_team_id := Some 1%Z; away_team_id := Some 2%Z;
           home_team := Some "A"; away_team := Some "B";
           home_goals := Some 1; away_goals := Some 0 |}];
     db_stats := [];
     fetchedHistoryTeams := [];
     clock := 0;
     trace := [] |}.

(** The store [misnamed], with features recorded for its match. *)
Definition misnamedWithStats : World :=
  {| db_matches := db_matches misnamed;
     db_stats :=
       [{| stats_match_id := 1; stats_sport := Some "toString";
           stats_home_form := Some 1; stats_away_form := Some 0;
           stats_home_goals_avg := Some 2; stats_away_goals_avg := Some 1 |}];
     fetchedHistoryTeams := [];
     clock := 0;
     trace := [] |}.

Definition number (q : Q) : JsValue := VNum (Fin q).

(** An object that does not convert to a primitive: its property [toString]
    is not a function.  [JSON.parse] reads it off the text [{"toString":1}]. *)
Definition unconvertible : JsValue := VObj [("toString", number 1)].

(** Payloads of a generator. *)
Definition payloadWith (probabilityFields adviceFields : list (string * JsValue))
    : JsValue :=
  VObj [("prediction", VStr "Heimsieg");
        ("probabilities", VObj probabilityFields);
        ("betting_advice", VObj adviceFields)].


Definition infinitePayload : JsValue :=
  payloadWith [("home", VNum PInf); ("draw", number 0); ("away", number 0)] [].


Definition homelessPayload : JsValue :=
  payloadWith [("draw", number 1); ("away", number 1)] [].

Definition zeroPayload : JsValue :=
  payloadWith [("home", number 0); ("draw", number 0); ("away", number 0)] [].

Definition unconvertiblePayload : JsValue :=
  payloadWith [("home", number 1); ("draw", unconvertible); ("away", number 1)] [].

(** The home probability is absent and the draw does not convert. *)
Definition homelessUnconvertiblePayload : JsValue :=
  payloadWith [("draw", unconvertible); ("away", number 1)] [].

Definition fairPayload : JsValue :=
  payloadWith [("home", number 2); ("draw", number 1); ("away", number 1)]
              [("confidence", number 0.7)].


Import PrimFloat.

(** Feature records of binary64 numbers. *)
Definition binary64Features (hf af hg ag : PrimFloat.float) : Binary64.Features :=
  {| Binary64.feature_sport := Some "football";
     Binary64.home_form := hf;
     Binary64.away_form := af;
     Binary64.home_goals_avg := hg;
     Binary64.away_goals_avg := ag |}.

(** Every draw of [Math.random] is one half. *)
Definition evenDraws : nat -> PrimFloat.float := fun _ => 0.5%float.

(** Numbers are not printed. *)
Definition unprinted : PrimFloat.float -> string := fun _ => EmptyString.

End Examples.

(* ================================================================== *)
(** * Properties *)
(* ================================================================== *)

(** ** Numbers *)

Lemma Qltb_lt (a b : Q) : Qltb a b = true <-> a < b.
Proof.
  unfold Qltb. rewrite negb_true_iff.
  split; intro H.
  - apply Qnot_le_lt. intro Hle. apply Qle_bool_iff in Hle. congruence.
  - destruct (Qle_bool b a) eqn:E; [|reflexivity].
    apply Qle_bool_iff in E. apply Qle_not_lt in E. contradiction.
Qed.

Lemma Qltb_ge (a b : Q) : Qltb a b = false <-> b <= a.
Proof.
  unfold Qltb. rewrite negb_false_iff. apply Qle_bool_iff.
Qed.

Lemma Qeq_bool_false (a b : Q) : ~ a == b -> Qeq_bool a b = false.
Proof.
  intro H. destruct (Qeq_bool a b) eqn:E; [|reflexivity].
  apply Qeq_bool_eq in E. contradiction.
Qed.

Lemma num_eq_refl (a : JsNum) : a =n= a.
Proof. destruct a; simpl; auto. reflexivity. Qed.

Lemma num_eq_trans (a b c : JsNum) : a =n= b -> b =n= c -> a =n= c.
Proof.
  destruct a, b, c; simpl; try tauto. intros H1 H2. rewrite H1. exact H2.
Qed.


Lemma round2_floor (x : Q) :
  let f := Qfloor (x * 100 + (1 # 2)) in
  round2 x == inject_Z f / 100
  /\ inject_Z f <= x * 100 + (1 # 2) /\ x * 100 + (1 # 2) < inject_Z f + 1.
Proof.
  intro f. split; [reflexivity|]. split.
  - apply Qfloor_le.
  - pose proof (Qlt_floor (x * 100 + (1 # 2))) as H.
    rewrite inject_Z_plus in H. exact H.
Qed.


Lemma round2_unit (x : Q) : 0 <= x <= 1 -> 0 <= round2 x <= 1.
Proof.
  intros [H0 H1]. unfold round2.
  assert (Hlo : (0 <= Qfloor (x * 100 + (1 # 2)))%Z).
  { change 0%Z with (Qfloor 0). apply Qfloor_resp_le. lra. }
  assert (Hhi : (Qfloor (x * 100 + (1 # 2)) <= 100)%Z).
  { exact (Qfloor_resp_le (x * 100 + (1 # 2)) (100 + (1 # 2)) ltac:(lra)). }
  rewrite Zle_Qle in Hlo, Hhi.
  set (f := inject_Z (Qfloor (x * 100 + (1 # 2)))) in *.
  change (inject_Z 0) with 0 in Hlo. change (inject_Z 100) with 100 in Hhi.
  split.
  - apply Qle_shift_div_l; lra.
  - apply Qle_shift_div_r; lra.
Qed.

Lemma round2_sum (x y z : Q) :
  x + y + z == 1 -> Qabs (round2 x + round2 y + round2 z - 1) <= 1 # 100.
Proof.
  intro Hsum.
  destruct (round2_floor x) as (_ & Hxl & Hxu).
  destruct (round2_floor y) as (_ & Hyl & Hyu).
  destruct (round2_floor z) as (_ & Hzl & Hzu).
  unfold round2.
  set (fx := Qfloor (x * 100 + (1 # 2))) in *.
  set (fy := Qfloor (y * 100 + (1 # 2))) in *.
  set (fz := Qfloor (z * 100 + (1 # 2))) in *.
  assert (Hlo : inject_Z 98 < inject_Z (fx + fy + fz)).
  { rewrite !inject_Z_plus. change (inject_Z 98) with 98. lra. }
  assert (Hhi : inject_Z (fx + fy + fz) < inject_Z 102).
  { rewrite !inject_Z_plus. change (inject_Z 102) with 102. lra. }
  rewrite <- Zlt_Qlt in Hlo, Hhi.
  assert (H99 : inject_Z 99 <= inject_Z (fx + fy + fz)) by (rewrite <- Zle_Qle; lia).
  assert (H101 : inject_Z (fx + fy + fz) <= inject_Z 101) by (rewrite <- Zle_Qle; lia).
  rewrite !inject_Z_plus in H99, H101.
  change (inject_Z 99) with 99 in H99. change (inject_Z 101) with 101 in H101.
  apply Qabs_Qle_condition. split.
  - assert (E : inject_Z fx / 100 + inject_Z fy / 100 + inject_Z fz / 100 - 1
                == (inject_Z fx + inject_Z fy + inject_Z fz - 100) / 100) by field.
    rewrite E. apply Qle_shift_div_l; lra.
  - assert (E : inject_Z fx / 100 + inject_Z fy / 100 + inject_Z fz / 100 - 1
                == (inject_Z fx + inject_Z fy + inject_Z fz - 100) / 100) by field.
    rewrite E. apply Qle_shift_div_r; lra.
Qed.

Lemma round2_comp (x y : Q) : x == y -> round2 x == round2 y.
Proof. intro H. unfold round2. rewrite H. reflexivity. Qed.

(** ** The feature engine *)

Module FeatureEngineFacts.

Import FeatureEngine.

(** The loop never counts more wins than games, and every game it counts is
    one of the list. *)
Lemma counters_bounded (teamName : option string) (l : list MatchRow) (acc : Counters) :
  (0 <= wins acc <= gamesCount acc)%Z ->
  let r := fold_left (countMatch teamName) l acc in
  (0 <= wins r <= gamesCount r)%Z /\
  (gamesCount r <= gamesCount acc + Z.of_nat (List.length l))%Z.
Proof.
  revert acc. induction l as [|m l IH]; intros acc Hacc; simpl.
  - lia.
  - assert (Hstep : (0 <= wins (countMatch teamName acc m)
                        <= gamesCount (countMatch teamName acc m))%Z
                    /\ (gamesCount (countMatch teamName acc m) <= gamesCount acc + 1)%Z).
    { unfold countMatch, toNumber.
      destruct (home_goals m), (away_goals m); simpl; try lia.
      destruct (str_eqb (home_team m) teamName); simpl;
        match goal with |- context [if ?c then _ else _] => destruct c end; lia. }
    destruct (IH _ (proj1 Hstep)) as [H1 H2]. split; [exact H1|]. lia.
Qed.

Lemma countMatch_unscored (teamName : option string) (acc : Counters) (m : MatchRow) :
  scored m = false -> countMatch teamName acc m = acc.
Proof.
  unfold scored, countMatch, toNumber.
  destruct (home_goals m), (away_goals m); intro H; try discriminate; reflexivity.
Qed.

Lemma countMatch_scored (team : string) (acc : Counters) (m : MatchRow) (q : Q) :
  goalsForTotal acc = Fin q ->
  scored m = true ->
  let acc' := countMatch (Some team) acc m in
  wins acc' = (wins acc + if won team m then 1 else 0)%Z /\
  gamesCount acc' = (gamesCount acc + 1)%Z /\
  goalsForTotal acc' = Fin (q + teamScore team m).
Proof.
  unfold scored, countMatch, toNumber, won, teamScore, opponentScore.
  intros Hq. destruct (home_goals m) as [h|], (away_goals m) as [a|];
    intro H; try discriminate.
  destruct (str_eqb (home_team m) (Some team)); simpl; rewrite Hq; simpl;
    unfold gtb, ltb; match goal with |- context [Qltb ?x ?y] => destruct (Qltb x y) end;
    repeat split; lia.
Qed.

(** The loop computes the counts over the matches with known scores. *)
Lemma counters_spec (team : string) (l : list MatchRow) (acc : Counters) (q : Q) :
  goalsForTotal acc = Fin q ->
  let r := fold_left (countMatch (Some team)) l acc in
  wins r = (wins acc + winsOf team (filter scored l))%Z /\
  gamesCount r = (gamesCount acc + games (filter scored l))%Z /\
  exists q', goalsForTotal r = Fin q' /\ q' == q + scoreSum team (filter scored l).
Proof.
  revert acc q. induction l as [|m l IH]; intros acc q Hq; simpl.
  - unfold winsOf, games, scoreSum; simpl. repeat split; try lia.
    exists q. split; [exact Hq|]. ring.
  - destruct (scored m) eqn:Es.
    + destruct (countMatch_scored team acc m q Hq Es) as (Hw & Hg & Ht).
      destruct (IH _ _ Ht) as (Hw' & Hg' & q' & Hq' & Hsum).
      rewrite Hw', Hg', Hw, Hg.
      unfold winsOf, games, scoreSum in *. simpl.
      repeat split.
      * destruct (won team m); simpl List.length; lia.
      * lia.
      * exists q'. split; [exact Hq'|]. rewrite Hsum. ring.
    + rewrite (countMatch_unscored _ acc m Es). apply (IH acc q Hq).
Qed.

Lemma Math_max_games (g : Z) :
  Math_max (Fin (inject_Z g)) (Fin 1) = Fin (inject_Z (Z.max g 1)).
Proof.
  unfold Math_max, ltb. destruct (Qltb (inject_Z g) 1) eqn:E.
  - apply Qltb_lt in E. change 1 with (inject_Z 1) in E. rewrite <- Zlt_Qlt in E.
    rewrite Z.max_r by lia. reflexivity.
  - apply Qltb_ge in E. change 1 with (inject_Z 1) in E. rewrite <- Zle_Qle in E.
    rewrite Z.max_l by lia. reflexivity.
Qed.

Lemma div_by_positive (x : Q) (d : Z) :
  (1 <= d)%Z -> div (Fin x) (Fin (inject_Z d)) = Fin (x / inject_Z d).
Proof.
  intro Hd. unfold div. rewrite Qeq_bool_false; [reflexivity|].
  intro H. unfold Qeq in H. simpl in H. lia.
Qed.

Lemma round_Fin (x : Q) : round (Fin x) = Fin (round2 x).
Proof. reflexivity. Qed.

Lemma ratio_in_unit_interval (w g : Z) :
  (0 <= w <= g)%Z -> (1 <= g)%Z -> 0 <= inject_Z w / inject_Z g <= 1.
Proof.
  intros Hw Hg.
  assert (Hpos : 0 < inject_Z g).
  { change 0 with (inject_Z 0). rewrite <- Zlt_Qlt. lia. }
  split.
  - apply Qle_shift_div_l; [exact Hpos|]. rewrite Qmult_0_l.
    change 0 with (inject_Z 0). rewrite <- Zle_Qle. lia.
  - apply Qle_shift_div_r; [exact Hpos|]. rewrite Qmult_1_l. rewrite <- Zle_Qle. lia.
Qed.

Section WithZone.

Context {zone : Zone}.

(** The cutoff of the code is the start of the window: [shiftDate] by -365
    days gives the instant 365 calendar days earlier. *)
Lemma shiftDate_windowStart (reference : Z) :
  shiftDate reference (-365) = windowStart reference.
Proof.
  unfold shiftDate, windowStart, TimeClip. cbv zeta.
  replace (reference + LocalTZA reference true + -365 * DAY_MS)%Z
    with (reference + LocalTZA reference true - 365 * DAY_MS)%Z by lia.
  set (start := (_ - LocalTZA _ false)%Z).
  destruct (Z.abs start <=? MAX_TIME)%Z eqn:E.
  - apply Z.leb_le in E.
    rewrite (proj2 (Z.leb_le (- MAX_TIME) start)) by lia.
    rewrite (proj2 (Z.leb_le start MAX_TIME)) by lia. reflexivity.
  - apply Z.leb_gt in E.
    destruct (- MAX_TIME <=? start)%Z eqn:E1; [|reflexivity].
    destruct (start <=? MAX_TIME)%Z eqn:E2; [|reflexivity].
    apply Z.leb_le in E1, E2. lia.
Qed.

(** Where the offset from UTC never changes, as in UTC itself, a day of the
    calendar is 24 hours and the window starts 365 times 24 hours before the
    reference date. *)
Lemma windowStart_fixed_offset (offset reference : Z) :
  (forall t isUTC, LocalTZA t isUTC = offset) ->
  (- MAX_TIME <= reference - 365 * DAY_MS)%Z ->
  (reference <= MAX_TIME)%Z ->
  windowStart reference = Some (reference - 365 * DAY_MS)%Z.
Proof.
  intros Hzone Hlow Hhigh. unfold windowStart. cbv zeta. rewrite !Hzone.
  replace (reference + offset - 365 * DAY_MS - offset)%Z
    with (reference - 365 * DAY_MS)%Z by lia.
  rewrite (proj2 (Z.leb_le _ _) Hlow).
  rewrite (proj2 (Z.leb_le (reference - 365 * DAY_MS) MAX_TIME))
    by (unfold DAY_MS in *; lia).
  reflexivity.
Qed.

Lemma relevantMatch_qualifies (team : string) (reference : Z) (m : MatchRow) :
  relevantMatch (Some team) (Some reference) (Some (shiftDate reference (-365))) m
  = qualifies team reference m.
Proof.
  rewrite shiftDate_windowStart.
  unfold relevantMatch, qualifies. destruct (date m) as [d|]; [|reflexivity].
  destruct (windowStart reference) as [start|]; [|reflexivity].
  rewrite Z.geb_leb. reflexivity.
Qed.

(** C10: the form computed by [calcTeamStats] is a number between 0 and 1,
    for every match list, team name, reference date and window size: the loop
    never counts more wins than games with known scores (second part, for
    every list the loop runs over), and the divisor is [max(games, 1)]. *)
Theorem form_in_unit_interval (matches : list MatchRow) (teamName : option string)
    (currentDate : option Z) (windowSize : nat) :
  (exists q : Q,
      form (calcTeamStats matches teamName currentDate windowSize) = Fin q
      /\ 0 <= q <= 1)
  /\ forall relevant : list MatchRow,
      let acc := fold_left (countMatch teamName) relevant
                   {| wins := 0; gamesCount := 0; goalsForTotal := Fin 0 |} in
      (0 <= wins acc <= gamesCount acc)%Z
      /\ (gamesCount acc <= Z.of_nat (List.length relevant))%Z.
Proof.
  split.
  - unfold calcTeamStats.
    destruct (str_falsy teamName); [exists 0; simpl; split; [reflexivity|lra]|].
    match goal with |- context [slice_last ?n ?l] => generalize (slice_last n l) end.
    intros [|m relevant]; [exists 0; simpl; split; [reflexivity|lra]|].
    cbv zeta.
    match goal with |- context [fold_left ?f ?l ?a] =>
      destruct (counters_bounded teamName l a ltac:(simpl; lia)) as [Hw _];
      set (acc := fold_left f l a) in *
    end.
    rewrite Math_max_games.
    rewrite div_by_positive by lia. cbn [isFinite form].
    eexists; split; [reflexivity|].
    apply ratio_in_unit_interval; lia.
  - intros relevant acc.
    destruct (counters_bounded teamName relevant
                {| wins := 0; gamesCount := 0; goalsForTotal := Fin 0 |}
                ltac:(simpl; lia)) as [H1 H2].
    split; [exact H1|]. simpl in H2. exact H2.
Qed.

(** C4, as the code has it: of the matches of the team dated strictly before
    the reference date and not before the start of the window (365 days
    earlier, the days counted on the calendar of the local time zone), the
    ten most recent are taken first, whatever their scores, and the matches
    without known scores are dropped from those ten; over the matches kept,
    [form = wins / max(games, 1)], where a win is a match with the team's score
    strictly greater than the opponent's, and the scoring average is the sum
    of the team's scores over [games], rounded to 2 decimals (0 for no game). *)
Theorem calcTeamStats_recent_ten_then_known_scores (matches : list MatchRow)
    (team : string) (reference : Z) :
  team <> EmptyString ->
  let kept := keptByCode matches team reference in
  let result := calcTeamStats matches (Some team) (Some reference) WINDOW_SIZE in
  form result =n= Fin (inject_Z (winsOf team kept) / inject_Z (Z.max (games kept) 1))
  /\ avgGoalsFor result =n=
       (if (games kept =? 0)%Z then Fin 0
        else Fin (round2 (scoreSum team kept / inject_Z (games kept)))).
Proof.
  intros Hteam kept result. subst kept result.
  unfold calcTeamStats, keptByCode, WINDOW_SIZE.
  assert (Hf : str_falsy (Some team) = false) by (destruct team; [congruence|reflexivity]).
  rewrite Hf. cbn [option_map].
  rewrite (filter_ext _ _ (relevantMatch_qualifies team reference)).
  generalize (slice_last 10 (sortBy byDate (filter (qualifies team reference) matches))).
  intros [|m relevant].
  - simpl. split; reflexivity.
  - cbv zeta.
    destruct (counters_spec team (m :: relevant)
                {| wins := 0; gamesCount := 0; goalsForTotal := Fin 0 |} 0 eq_refl)
      as (Hw & Hg & q' & Hq' & Hsum).
    set (acc := fold_left (countMatch (Some team)) (m :: relevant) _) in *.
    set (kept := filter scored (m :: relevant)) in *.
    simpl wins in Hw. simpl gamesCount in Hg.
    assert (Hg0 : (0 <= games kept)%Z) by (unfold games; lia).
    rewrite Math_max_games, div_by_positive by lia.
    cbn [isFinite form avgGoalsFor]. rewrite Hw, Hg, Z.add_0_l, Z.add_0_l.
    split; [simpl; reflexivity|].
    destruct (games kept =? 0)%Z eqn:E; [simpl; reflexivity|].
    apply Z.eqb_neq in E. rewrite Hq', div_by_positive by lia.
    cbn [isFinite]. rewrite round_Fin. simpl. apply round2_comp.
    rewrite Hsum. field.
    intro H. unfold Qeq in H. simpl in H. lia.
Qed.


End WithZone.

(** In UTC the window of 1 June 2024 starts on 2 June 2023, 365 times 24
    hours earlier. *)
Lemma windowStart_in_utc :
  @windowStart Examples.utc Examples.june_1st
  = Some (Examples.june_1st - 365 * DAY_MS)%Z.
Proof. reflexivity. Qed.

(** In central European time the window of noon on 26 October 2025, the day
    the clocks were set back, starts at noon on 26 October 2024, in
    daylight saving time: 365 times 24 hours and one hour earlier. *)
Lemma windowStart_across_daylight_saving :
  @windowStart Examples.central Examples.october_26th
  = Some (Examples.october_26th - 365 * DAY_MS - 3600000)%Z.
Proof. reflexivity. Qed.

(** The hypothesis of the theorem on the ten most recent matches holds of
    team A. *)
Lemma calcTeamStats_recent_ten_then_known_scores_witness :
  let kept := @keptByCode Examples.utc Examples.season "A" Examples.june_1st in
  let result :=
    @calcTeamStats Examples.utc Examples.season (Some "A"%string)
      (Some Examples.june_1st) WINDOW_SIZE in
  form result =n= Fin (inject_Z (winsOf "A" kept) / inject_Z (Z.max (games kept) 1))
  /\ avgGoalsFor result =n=
       (if (games kept =? 0)%Z then Fin 0
        else Fin (round2 (scoreSum "A" kept / inject_Z (games kept)))).
Proof.
  apply (@calcTeamStats_recent_ten_then_known_scores Examples.utc
           Examples.season "A" Examples.june_1st).
  discriminate.
Defined.

(** C4, as stated, fails: with eleven matches in the window of which the most
    recent has no score, the code keeps nine games (form 9/9), whereas keeping
    the known scores first and then the ten most recent keeps ten (form 9/10). *)
Lemma calcTeamStats_differs_from_known_scores_first :
  let code :=
    @calcTeamStats Examples.utc Examples.season (Some "A"%string)
      (Some Examples.june_1st) WINDOW_SIZE in
  let spec := @calcTeamStats_spec Examples.utc Examples.season "A" Examples.june_1st in
  form code =n= Fin 1 /\ avgGoalsFor code =n= Fin 1
  /\ form spec =n= Fin 0.9 /\ avgGoalsFor spec =n= Fin 0.9
  /\ ~ stats_eq code spec.
Proof.
  cbv zeta. repeat split; try (vm_compute; reflexivity).
  intros [H _]. vm_compute in H. discriminate.
Qed.


End FeatureEngineFacts.

(** ** The identifiers of the two sports *)

Module ApiFacts.

Import Api.

Local Open Scope string_scope.

(** C9: the composed id of a basketball fixture is its raw id plus
    5,000,000,000, that of a football fixture is its raw id; so the composed
    id of a basketball fixture with a non-negative raw id differs from that of
    every football fixture whose raw id is below the offset. *)
Theorem composeMatchId_sports_disjoint {rt : Runtime} (basketballId footballId : Q) :
  0 <= basketballId ->
  footballId < 5000000000 ->
  exists composedB composedF : Q,
    composeMatchId (VNum (Fin basketballId)) Basketball = Returned (Some (Fin composedB))
    /\ composedB == basketballId + 5000000000
    /\ composeMatchId (VNum (Fin footballId)) Football = Returned (Some (Fin composedF))
    /\ composedF == footballId
    /\ ~ composedB == composedF.
Proof.
  intros HB HF.
  exists (5000000000 + basketballId), (0 + footballId).
  repeat split; try reflexivity; try ring.
  intro H. lra.
Qed.

(** The raw id 100 of both sports. *)
Lemma composeMatchId_sports_disjoint_witness :
  exists composedB composedF : Q,
    @composeMatchId Examples.integerRuntime (VNum (Fin 100)) Basketball
    = Returned (Some (Fin composedB))
    /\ composedB == 100 + 5000000000
    /\ @composeMatchId Examples.integerRuntime (VNum (Fin 100)) Football
       = Returned (Some (Fin composedF))
    /\ composedF == 100
    /\ ~ composedB == composedF.
Proof.
  apply (@composeMatchId_sports_disjoint Examples.integerRuntime 100 100); lra.
Defined.

End ApiFacts.

(** ** The response normalizer *)

Module NormalizerFacts.

Import Predictor.

Local Open Scope string_scope.

Lemma round_finite (x : Q) : round (Fin x) = Fin (round2 x).
Proof. reflexivity. Qed.

Lemma getProp_object (fields : list (string * JsValue)) (key : string) :
  getProp (VObj fields) key = Returned (prop (VObj fields) key).
Proof. reflexivity. Qed.

Lemma getProp_nullish (v : JsValue) (fields : list (string * JsValue)) (key : string) :
  getProp (nullish v (VObj fields)) key = Returned (prop (nullish v (VObj fields)) key).
Proof. destruct v; reflexivity. Qed.

Lemma getProp_truthy (payload : JsValue) (key : string) :
  falsy payload || negb (typeofObject payload) = false ->
  getProp payload key = Returned (prop payload key).
Proof. destruct payload; intro E; try discriminate E; reflexivity. Qed.

(** The only exception of [String(v)] is the [TypeError] of a conversion. *)
Lemma ToString_throws {rt : Runtime} (v : JsValue) :
  forall message, ToString v = Thrown message -> message = conversionError.
Proof.
  induction v as [v Hv|items IH] using JsValue_entries_ind.
  - destruct v as [| |[|]|n|s|items|fields]; cbn [ToString]; try discriminate;
      [destruct Hv|].
    intro message. destruct (hasOwn "toString" fields); [|discriminate].
    intro H. injection H as <-. reflexivity.
  - cbn [ToString].
    induction IH as [|entry rest Hentry Hrest IHrest]; [discriminate|].
    intro message.
    assert (Hfirst : forall text,
               match entry with
               | VUndefined | VNull => Returned EmptyString
               | _ => ToString entry
               end = Thrown text -> text = conversionError).
    { intros text. destruct entry; try discriminate; apply Hentry. }
    destruct (match entry with
              | VUndefined | VNull => Returned EmptyString
              | _ => ToString entry
              end) as [first|text] eqn:E; cbn [andThen].
    + destruct rest as [|next rest']; [discriminate|].
      match goal with |- andThen ?j _ = _ -> _ => destruct j as [others|text] eqn:Ej end;
        cbn [andThen]; [discriminate|].
      intro H. injection H as <-. apply IHrest. reflexivity.
    + intro H. injection H as <-. apply Hfirst. reflexivity.
Qed.

(** The only exception of [Number(v)] is the [TypeError] of a conversion. *)
Lemma Number_throws {rt : Runtime} (v : JsValue) (message : string) :
  Number v = Thrown message -> message = conversionError.
Proof.
  destruct v as [| |[|]|n|s|items|fields]; cbn [Number]; try discriminate;
    match goal with |- andThen ?t _ = _ -> _ => destruct t as [text|text] eqn:E end;
    cbn [andThen]; try discriminate; intro H; injection H as <-;
    apply (ToString_throws _ _ E).
Qed.

Lemma toNumber_throws {rt : Runtime} (v : JsValue) (message : string) :
  toNumber v = Thrown message -> message = conversionError.
Proof.
  unfold toNumber.
  assert (H : andThen (Number v)
                (fun num => Returned (if isNaN num then None else Some num))
              = Thrown message -> message = conversionError).
  { destruct (Number v) as [num|text] eqn:E; cbn [andThen]; [discriminate|].
    intro H. injection H as <-. apply (Number_throws _ _ E). }
  destruct v as [| |[|]|n|s|items|fields]; try exact H.
  destruct (negb (isNaN n)); [discriminate|exact H].
Qed.

(** A value that is neither an array nor an object converts without an
    exception. *)
Lemma toNumber_primitive {rt : Runtime} (v : JsValue) :
  typeofObject v = false \/ v = VNull ->
  exists n : option JsNum, toNumber v = Returned n.
Proof.
  intros [H| ->]; [|eexists; reflexivity].
  destruct v as [| |[|]|n|s|items|fields]; try discriminate H;
    try (eexists; reflexivity).
  unfold toNumber. destruct (negb (isNaN n)); eexists; reflexivity.
Qed.

Lemma toNumber_number {rt : Runtime} (n : JsNum) :
  isNaN n = false -> toNumber (VNum n) = Returned (Some n).
Proof. intro H. unfold toNumber. rewrite H. reflexivity. Qed.

Lemma div_finite (x t : Q) : ~ t == 0 -> div (Fin x) (Fin t) = Fin (x / t).
Proof. intro H. unfold div. rewrite Qeq_bool_false by exact H. reflexivity. Qed.

Lemma ratio_unit (x t : Q) : 0 <= x -> x <= t -> 0 < t -> 0 <= x / t <= 1.
Proof.
  intros H0 H1 Ht. split.
  - apply Qle_shift_div_l; [exact Ht|]. lra.
  - apply Qle_shift_div_r; [exact Ht|]. lra.
Qed.

(** What [normalizePrediction] returns for an object whose three probability
    fields convert to numbers of a total that is neither falsy nor negative,
    and whose confidence converts. *)
Lemma normalizePrediction_valid {rt : Runtime} (fields : list (string * JsValue))
    (matchId : JsValue) (probHome probDraw probAway : JsNum)
    (confidenceValue : option JsNum) :
  let payload := VObj fields in
  let probs := nullish (prop payload "probabilities") (VObj []) in
  let bettingAdvice := nullish (prop payload "betting_advice") (VObj []) in
  let total := add (add probHome probDraw) probAway in
  toNumber (prop probs "home") = Returned (Some probHome) ->
  toNumber (prop probs "draw") = Returned (Some probDraw) ->
  toNumber (prop probs "away") = Returned (Some probAway) ->
  falsyNum total || leb total (Fin 0) = false ->
  toNumber (prop bettingAdvice "confidence") = Returned confidenceValue ->
  normalizePrediction payload matchId =
  Returned (Some
    {| prediction_match_id := nullish (prop payload "match_id") matchId;
       prediction := nullish (prop payload "prediction") (VStr "Unentschieden");
       probabilities :=
         {| home := round (div probHome total);
            draw := round (div probDraw total);
            away := round (div probAway total) |};
       explanation :=
         nullish (prop payload "explanation") (VStr "Keine Erklaerung vorhanden.");
       betting_advice :=
         {| recommendation :=
              nullish (prop bettingAdvice "recommendation") (VStr "Keine Empfehlung");
            confidence :=
              match confidenceValue with
              | None => Fin 0
              | Some value => round value
              end;
            reasoning :=
              nullish (prop bettingAdvice "reasoning")
                      (VStr "Keine Begruendung vorhanden.") |};
       engine := None |}).
Proof.
  intros payload probs bettingAdvice total Hh Hd Ha Ht Hc.
  subst payload probs bettingAdvice total.
  unfold normalizePrediction.
  cbn [falsy typeofObject negb orb].
  repeat (cbn [andThen];
          first [ rewrite getProp_nullish | rewrite getProp_object
                | rewrite Hh | rewrite Hd | rewrite Ha | rewrite Hc | rewrite Ht ]).
  reflexivity.
Qed.


(** C3 at a payload the code accepts although a probability field is not a
    finite number: the field [home] is [Infinity] (as [JSON.parse] reads
    [1e999]); [normalizePrediction] does not return [null] but a prediction
    whose home probability is [NaN]. *)
Lemma normalizePrediction_accepts_infinite_probability :
  @toNumber Examples.integerRuntime (VNum PInf) = Returned (Some PInf)
  /\ isFinite PInf = false
  /\ @normalizeIncomingPayload Examples.integerRuntime Examples.infinitePayload
     = Examples.infinitePayload
  /\ match @normalizePrediction Examples.integerRuntime Examples.infinitePayload
             (Examples.number 7) with
     | Returned (Some p) =>
         home (probabilities p) = NaN
         /\ draw (probabilities p) =n= Fin 0
         /\ away (probabilities p) =n= Fin 0
     | _ => False
     end.
Proof. repeat split; reflexivity. Qed.

(** The only exception of [normalizePrediction] is the [TypeError] of the
    conversion of a probability or of the confidence. *)
Lemma normalizePrediction_throws {rt : Runtime} (payload matchId : JsValue)
    (message : string) :
  normalizePrediction payload matchId = Thrown message -> message = conversionError.
Proof.
  unfold normalizePrediction.
  destruct (falsy payload || negb (typeofObject payload)) eqn:E; [discriminate|].
  repeat first
    [ rewrite (getProp_truthy payload) by exact E; cbn [andThen]
    | rewrite getProp_nullish; cbn [andThen]
    | match goal with
      | |- andThen (toNumber ?v) _ = Thrown _ -> _ =>
          let Ev := fresh "Ev" in
          destruct (toNumber v) as [?|?] eqn:Ev; cbn [andThen];
          [|intro H; injection H as <-; exact (toNumber_throws _ _ Ev)]
      | |- match ?o with Some _ => _ | None => _ end = Thrown _ -> _ =>
          destruct o; [|discriminate]
      | |- (if ?c then _ else _) = Thrown _ -> _ => destruct c; [discriminate|]
      end ].
  discriminate.
Qed.

(** [normalizePrediction] does throw: on a payload whose draw probability is
    an object with a property [toString] of its own, [Number] throws a
    [TypeError], although the home probability is absent. *)
Lemma normalizePrediction_throws_on_unconvertible :
  @normalizePrediction Examples.integerRuntime Examples.unconvertiblePayload
    (Examples.number 7) = Thrown conversionError
  /\ @normalizePrediction Examples.integerRuntime Examples.homelessUnconvertiblePayload
       (Examples.number 7) = Thrown conversionError.
Proof. split; reflexivity. Qed.

(** [normalizePrediction] returns [null] when the three probability fields
    convert without an exception and one of them does not convert to a
    number. *)
Lemma normalizePrediction_rejects_non_numbers {rt : Runtime}
    (fields : list (string * JsValue)) (matchId : JsValue)
    (probHome probDraw probAway : option JsNum) :
  let probs := nullish (prop (VObj fields) "probabilities") (VObj []) in
  toNumber (prop probs "home") = Returned probHome ->
  toNumber (prop probs "draw") = Returned probDraw ->
  toNumber (prop probs "away") = Returned probAway ->
  probHome = None \/ probDraw = None \/ probAway = None ->
  normalizePrediction (VObj fields) matchId = Returned None.
Proof.
  intros probs Hh Hd Ha H. subst probs. unfold normalizePrediction.
  cbn [falsy typeofObject negb orb].
  repeat (cbn [andThen];
          first [ rewrite getProp_nullish | rewrite getProp_object
                | rewrite Hh | rewrite Hd | rewrite Ha ]).
  cbn [andThen].
  destruct H as [ H | [ H | H ] ]; rewrite H; destruct probHome, probDraw, probAway; reflexivity.
Qed.

(** [normalizePrediction] returns [null] when the three numbers sum to zero,
    to a negative number or to [NaN]. *)
Lemma normalizePrediction_rejects_non_positive_sum {rt : Runtime}
    (fields : list (string * JsValue)) (matchId : JsValue)
    (probHome probDraw probAway : JsNum) :
  let probs := nullish (prop (VObj fields) "probabilities") (VObj []) in
  let total := add (add probHome probDraw) probAway in
  toNumber (prop probs "home") = Returned (Some probHome) ->
  toNumber (prop probs "draw") = Returned (Some probDraw) ->
  toNumber (prop probs "away") = Returned (Some probAway) ->
  total = NaN \/ leb total (Fin 0) = true ->
  normalizePrediction (VObj fields) matchId = Returned None.
Proof.
  intros probs total Hh Hd Ha H. subst probs total. unfold normalizePrediction.
  cbn [falsy typeofObject negb orb].
  repeat (cbn [andThen];
          first [ rewrite getProp_nullish | rewrite getProp_object
                | rewrite Hh | rewrite Hd | rewrite Ha ]).
  cbn [andThen].
  destruct H as [H|H]; rewrite H; [reflexivity|]. rewrite orb_true_r. reflexivity.
Qed.

(** A payload without the field [home], whose other two probabilities are
    numbers. *)
Lemma normalizePrediction_rejects_non_numbers_witness :
  @normalizePrediction Examples.integerRuntime Examples.homelessPayload
    (Examples.number 7) = Returned None.
Proof.
  apply (@normalizePrediction_rejects_non_numbers Examples.integerRuntime _ _
           None (Some (Fin 1)) (Some (Fin 1))); try reflexivity.
  left. reflexivity.
Defined.

(** A payload with three probabilities 0. *)
Lemma normalizePrediction_rejects_non_positive_sum_witness :
  @normalizePrediction Examples.integerRuntime Examples.zeroPayload
    (Examples.number 7) = Returned None.
Proof.
  apply (@normalizePrediction_rejects_non_positive_sum Examples.integerRuntime _ _
           (Fin 0) (Fin 0) (Fin 0)); try reflexivity.
  right. reflexivity.
Defined.

End NormalizerFacts.

(** ** The rule-based predictor *)

Module RuleFacts.

Import Predictor.

Local Open Scope string_scope.

Lemma Math_min_finite (a b : Q) :
  exists c : Q, Math_min (Fin a) (Fin b) = Fin c /\ c == Qmin a b.
Proof.
  unfold Math_min, ltb. destruct (Qltb b a) eqn:E.
  - apply Qltb_lt in E. exists b. split; [reflexivity|].
    symmetry. apply Q.min_r. lra.
  - apply Qltb_ge in E. exists a. split; [reflexivity|].
    symmetry. apply Q.min_l. exact E.
Qed.

Lemma Math_max_finite (a b : Q) :
  exists c : Q, Math_max (Fin a) (Fin b) = Fin c /\ c == Qmax a b.
Proof.
  unfold Math_max, ltb. destruct (Qltb a b) eqn:E.
  - apply Qltb_lt in E. exists b. split; [reflexivity|].
    symmetry. apply Q.max_r. lra.
  - apply Qltb_ge in E. exists a. split; [reflexivity|].
    symmetry. apply Q.max_l. exact E.
Qed.

(** [clamp] of a finite number lies between the two bounds. *)
Lemma clamp_finite (lo hi x : Q) :
  lo <= hi ->
  exists y : Q, clamp (Fin lo) (Fin hi) (Fin x) = Fin y /\ lo <= y <= hi.
Proof.
  intro H. unfold clamp.
  destruct (Math_min_finite hi x) as (c & -> & Hc).
  destruct (Math_max_finite lo c) as (y & -> & Hy).
  exists y. split; [reflexivity|]. rewrite Hy, Hc. split.
  - apply Q.le_max_l.
  - apply Q.max_lub; [exact H|]. apply Q.le_min_l.
Qed.


(** The label, the recommendation and the confidence [simpleRulePredict]
    returns, by the branch taken. *)
Lemma simpleRulePredict_decision {rt : Runtime} (out : Outside) (m : MatchRow)
    (features : Features) (w : World) :
  let score :=
    add (sub (home_form features) (away_form features))
        (sub (home_goals_avg features) (away_goals_avg features)) in
  let sportName := sportOr (sport m) "football" in
  exists (w' : World) (p : Prediction),
    simpleRulePredict out m features w = (w', Returned p)
    /\ trace w' = trace w
    /\ engine p = Some "rule-based"
    /\ prediction_match_id p = VNum (numberOfId (match_id m))
    /\ (exists text, explanation p = VStr text)
    /\ (exists text, reasoning (betting_advice p) = VStr text)
    /\ (let spread n := mul (mul (sub (Fin (random out n)) (Fin 0.5)) (Fin 0.1)) (Fin 2) in
        let probHome :=
          clamp (Fin 0.1) (Fin 0.8) (add (add (Fin 0.5) score) (spread (clock w))) in
        let probAway :=
          clamp (Fin 0.1) (Fin 0.8) (add (sub (Fin 0.5) score) (spread (S (clock w)))) in
        let probDraw :=
          clamp (Fin 0.05) (Fin 0.6) (add (Fin 0.2) (spread (S (S (clock w))))) in
        let total := add (add probHome probAway) probDraw in
        probabilities p =
        {| home := round (div probHome total);
           draw := round (div probDraw total);
           away := round (div probAway total) |})
    /\ (gtb score (Fin 0.3) = true ->
        prediction p = VStr "Heimsieg"
        /\ recommendation (betting_advice p) = VStr "Heimsieg"
        /\ confidence (betting_advice p)
           = round (Math_min (Fin 0.85) (add (Fin 0.5) (Math_abs score))))
    /\ (gtb score (Fin 0.3) = false -> ltb score (neg (Fin 0.3)) = true ->
        prediction p = VStr "Auswaertssieg"
        /\ recommendation (betting_advice p) = VStr "Auswaertssieg"
        /\ confidence (betting_advice p)
           = round (Math_min (Fin 0.85) (add (Fin 0.5) (Math_abs score))))
    /\ (gtb score (Fin 0.3) = false -> ltb score (neg (Fin 0.3)) = false ->
        prediction p = valueOf (drawLabel (metaOf sportName))
        /\ recommendation (betting_advice p)
           = VStr (if sportName =? "basketball" then "Spread meiden"
                   else "Unter 2.5 Tore")
        /\ confidence (betting_advice p) = round (Fin 0.6)).
Proof.
  intros score sportName. unfold simpleRulePredict. fold score. fold sportName.
  destruct (gtb score (Fin 0.3)) eqn:E1;
    [|destruct (ltb score (neg (Fin 0.3))) eqn:E2];
    cbv [bind randomSpread tick ret];
    (eexists; eexists; split; [reflexivity|]);
    cbn [trace engine prediction_match_id explanation betting_advice reasoning
         prediction recommendation confidence probabilities clock];
    repeat split; try (eexists; reflexivity); intros; try discriminate; reflexivity.
Qed.



(** The probabilities of the rule-based predictor, for finite features and
    whatever [Math.random] draws: each lies between 0 and 1, and the three sum
    to 1 within 0.01. *)
Theorem simpleRulePredict_probabilities {rt : Runtime} (out : Outside) (m : MatchRow)
    (w : World) (sportHint : option string) (hf af hg ag : Q) :
  let features :=
    {| feature_sport := sportHint; home_form := Fin hf; away_form := Fin af;
       home_goals_avg := Fin hg; away_goals_avg := Fin ag |} in
  exists (w' : World) (p : Prediction) (x y z : Q),
    simpleRulePredict out m features w = (w', Returned p)
    /\ probabilities p = {| home := Fin x; draw := Fin y; away := Fin z |}
    /\ 0 <= x <= 1 /\ 0 <= y <= 1 /\ 0 <= z <= 1
    /\ Qabs (x + y + z - 1) <= 1 # 100.
Proof.
  intro features.
  destruct (simpleRulePredict_decision out m features w)
    as (w' & p & Hrun & _ & _ & _ & _ & _ & Hprobs & _).
  cbv zeta in Hprobs. cbn [features home_form away_form home_goals_avg away_goals_avg
                           add sub neg mul] in Hprobs.
  repeat match type of Hprobs with
         | context [clamp (Fin ?lo) (Fin ?hi) (Fin ?v)] =>
             let y := fresh "c" in
             let E := fresh "E" in
             let B := fresh "B" in
             destruct (clamp_finite lo hi v ltac:(lra)) as (y & E & B);
             rewrite E in Hprobs
         end.
  cbn [add] in Hprobs.
  rewrite !NormalizerFacts.div_finite in Hprobs by (intro Z0; lra).
  rewrite !NormalizerFacts.round_finite in Hprobs.
  match type of Hprobs with
  | _ = {| home := Fin (round2 (?a / ?t)); draw := Fin (round2 (?b / ?t));
           away := Fin (round2 (?c / ?t)) |} =>
      exists w', p, (round2 (a / t)), (round2 (b / t)), (round2 (c / t));
      assert (Ht : 0 < t) by lra;
      split; [exact Hrun|]; split; [exact Hprobs|];
      repeat split;
      try (apply round2_unit; apply NormalizerFacts.ratio_unit; lra);
      try (apply (proj2 (round2_unit _ (NormalizerFacts.ratio_unit _ t ltac:(lra)
                                          ltac:(lra) Ht))))
  end.
  apply round2_sum. field. lra.
Qed.

(** The ids [getMatchRecord] tries for a bare id below the offset: the id
    itself, as a football id, then the id plus the offset, as a basketball id. *)
Theorem makeCandidateMatchIds_below_offset {rt : Runtime} (id : Q) :
  0 <= id -> id < 5000000000 ->
  makeCandidateMatchIds (VNum (Fin id)) = Returned [Fin id; Fin (id + 5000000000)].
Proof.
  intros H0 H1. unfold makeCandidateMatchIds, toNumber. cbn [isNaN negb andThen].
  cbn [SPORT_OFFSETS map snd fold_left isFinite negb orb sameValueZero add].
  assert (E0 : Qeq_bool 0 0 = true) by reflexivity. rewrite E0.
  assert (E1 : Qeq_bool 5000000000 0 = false) by reflexivity. rewrite E1.
  assert (E2 : geb (Fin id) (Fin 5000000000) = false).
  { unfold geb, leb. destruct (Qle_bool 5000000000 id) eqn:E; [|reflexivity].
    apply Qle_bool_iff in E. lra. }
  rewrite E2. unfold setAdd. cbn [existsb sameValueZero orb].
  rewrite (Qeq_bool_false (id + 5000000000) id) by lra.
  cbn [orb app filter isFinite andb geb leb].
  rewrite (proj2 (Qle_bool_iff 0 id) H0).
  rewrite (proj2 (Qle_bool_iff 0 (id + 5000000000))) by lra.
  reflexivity.
Qed.

(** The raw id 100. *)
Lemma makeCandidateMatchIds_below_offset_witness :
  @makeCandidateMatchIds Examples.integerRuntime (VNum (Fin 100))
  = Returned [Fin 100; Fin (100 + 5000000000)].
Proof.
  apply (@makeCandidateMatchIds_below_offset Examples.integerRuntime 100); lra.
Defined.

End RuleFacts.

(** ** Effects *)

Module EffectFacts.

Local Open Scope monad_scope.

Create HintDb effects.

Lemma keepsTrace_ret {A : Type} (a : A) : keepsTrace (ret a).
Proof. intro w. reflexivity. Qed.

Lemma keepsTrace_throw {A : Type} (message : string) : keepsTrace (@throw A message).
Proof. intro w. reflexivity. Qed.

Lemma keepsTrace_get : keepsTrace get.
Proof. intro w. reflexivity. Qed.

Lemma keepsTrace_tick : keepsTrace tick.
Proof. intro w. reflexivity. Qed.

Lemma keepsTrace_setMatches (rows : list MatchRow) : keepsTrace (setMatches rows).
Proof. intro w. reflexivity. Qed.

Lemma keepsTrace_memoAdd (key : string) : keepsTrace (memoAdd key).
Proof. intro w. reflexivity. Qed.

Lemma keepsTrace_bind {A B : Type} (m : M A) (k : A -> M B) :
  keepsTrace m -> (forall a, keepsTrace (k a)) -> keepsTrace (bind m k).
Proof.
  intros Hm Hk w. unfold bind. specialize (Hm w).
  destruct (m w) as [w1 [a|message]]; simpl in *.
  - rewrite <- Hm. apply Hk.
  - exact Hm.
Qed.

Lemma keepsTrace_tryCatch {A : Type} (body : M A) (handler : string -> M A) :
  keepsTrace body -> (forall message, keepsTrace (handler message)) ->
  keepsTrace (tryCatch body handler).
Proof.
  intros Hb Hh w. unfold tryCatch. specialize (Hb w).
  destruct (body w) as [w1 [a|message]]; simpl in *.
  - exact Hb.
  - rewrite <- Hb. apply Hh.
Qed.

#[export] Hint Resolve keepsTrace_ret keepsTrace_throw keepsTrace_get keepsTrace_tick
  keepsTrace_setMatches keepsTrace_memoAdd : effects.

(** A computation that returned ran each of its two parts to a return. *)
Lemma bind_returned {A B : Type} (m : M A) (k : A -> M B) (w w' : World) (b : B) :
  bind m k w = (w', Returned b) ->
  exists a, m w = (fst (m w), Returned a) /\ k a (fst (m w)) = (w', Returned b).
Proof.
  unfold bind. destruct (m w) as [w1 [a|message]]; simpl; intro H.
  - exists a. split; [reflexivity|exact H].
  - discriminate H.
Qed.

Section WithEnvironment.

Context {rt : Runtime} (cfg : Config) (out : Outside).

Lemma keepsTrace_lift {A : Type} (o : Outcome A) : keepsTrace (lift o).
Proof. intro w. reflexivity. Qed.

Lemma keepsTrace_saveMatches (matches : list ProviderMatch) (sportName : string) :
  keepsTrace (Api.saveMatches matches sportName).
Proof.
  unfold Api.saveMatches. destruct matches; [apply keepsTrace_ret|].
  apply keepsTrace_bind; [apply keepsTrace_lift|]. intro rows.
  apply keepsTrace_bind; auto with effects.
Qed.

Lemma keepsTrace_axios_get : keepsTrace (Api.axios_get out).
Proof.
  unfold Api.axios_get. apply keepsTrace_bind; auto with effects.
  intro n. destruct (sportsApi out n); auto with effects.
Qed.

Lemma keepsTrace_fetchFootball : keepsTrace (Api.fetchFootball cfg out).
Proof.
  unfold Api.fetchFootball. destruct (Api.unset _); auto with effects.
  apply keepsTrace_tryCatch; auto with effects.
  apply keepsTrace_bind; [apply keepsTrace_axios_get|].
  intros [httpStatus matches].
  destruct (negb _); [apply keepsTrace_throw|].
  apply keepsTrace_bind; [apply keepsTrace_saveMatches|]. auto with effects.
Qed.

Lemma keepsTrace_fetchBasketball : keepsTrace (Api.fetchBasketball cfg out).
Proof.
  unfold Api.fetchBasketball. destruct (Api.unset _); auto with effects.
  apply keepsTrace_tryCatch; auto with effects.
  apply keepsTrace_bind; [apply keepsTrace_axios_get|].
  intros [httpStatus matches].
  destruct (negb _); [apply keepsTrace_throw|].
  apply keepsTrace_bind; [apply keepsTrace_saveMatches|]. auto with effects.
Qed.

(** A call of [fetchTeamHistory] records itself and nothing else, whatever
    its outcome. *)
Lemma fetchTeamHistory_trace (teamId : option Z) (last : Z) (sportName : string)
    (w : World) :
  trace (fst (Api.fetchTeamHistory cfg out teamId last sportName w))
  = trace w ++ [TeamHistoryRequested (idOr0 teamId) last sportName].
Proof.
  unfold Api.fetchTeamHistory, bind, record. cbn [fst snd].
  match goal with |- trace (fst (?m ?w1)) = _ =>
    assert (H : keepsTrace m); [|rewrite (H w1); reflexivity]
  end.
  destruct (id_falsy teamId); auto with effects.
  destruct (String.eqb sportName "basketball").
  - apply keepsTrace_fetchBasketball.
  - apply keepsTrace_fetchFootball.
Qed.

Lemma fetchHeadToHeadHistory_trace (teamAId teamBId : option Z) (last : Z)
    (sportName : string) (w : World) :
  trace (fst (Api.fetchHeadToHeadHistory cfg out teamAId teamBId last sportName w))
  = trace w ++ [HeadToHeadRequested (idOr0 teamAId) (idOr0 teamBId) last sportName].
Proof.
  unfold Api.fetchHeadToHeadHistory, bind, record. cbn [fst snd].
  match goal with |- trace (fst (?m ?w1)) = _ =>
    assert (H : keepsTrace m); [|rewrite (H w1); reflexivity]
  end.
  destruct (id_falsy teamAId || id_falsy teamBId); auto with effects.
  destruct (String.eqb sportName "basketball").
  - apply keepsTrace_fetchBasketball.
  - apply keepsTrace_fetchFootball.
Qed.

End WithEnvironment.

End EffectFacts.

(** ** The history context builder *)

Module HistoryFacts.

Import Predictor EffectFacts.

Local Open Scope monad_scope.

Section WithEnvironment.

Context {rt : Runtime} (cfg : Config) (out : Outside).

Lemma bind_trace {A B : Type} (m : M A) (k : A -> M B) (w : World) :
  (forall a, keepsTrace (k a)) ->
  trace (fst (bind m k w)) = trace (fst (m w)).
Proof.
  intro Hk. unfold bind. destruct (m w) as [w1 [a|message]]; simpl.
  - apply Hk.
  - reflexivity.
Qed.

(** The first block: one request for a team with an id that the set does not
    remember. *)
Lemma prefetchTeam_trace (sportName : string) (teamId : option Z) (w : World) :
  trace (fst (prefetchTeam cfg out sportName teamId w))
  = trace w
    ++ (if negb (id_falsy teamId) && negb (remembered w sportName teamId)
        then [request sportName teamId] else []).
Proof.
  unfold prefetchTeam, remembered.
  destruct (id_falsy teamId); cbn [negb andb]; [symmetry; apply app_nil_r|].
  unfold bind at 1. unfold get at 1.
  destruct (existsb _ (fetchedHistoryTeams w)); cbn [negb];
    [symmetry; apply app_nil_r|].
  rewrite bind_trace.
  - apply fetchTeamHistory_trace.
  - intros [|x l]; auto with effects.
Qed.

(** The second block: one request for a team with an id of which fewer than
    three earlier matches are stored. *)
Lemma refillTeam_trace (m : MatchRow) (sportName : string) (teamName : option string)
    (teamId : option Z) (w : World) :
  trace (fst (refillTeam cfg out m sportName teamName teamId w))
  = trace w
    ++ (if (List.length
              (fetchRecentMatches w teamName (match_id m) (date m) sportName
                 TEAM_HISTORY_SIZE) <? 3)%nat
           && negb (id_falsy teamId)
        then [request sportName teamId] else []).
Proof.
  unfold refillTeam. unfold bind at 1. unfold get at 1.
  destruct (_ && _); [|symmetry; apply app_nil_r].
  rewrite bind_trace.
  - apply fetchTeamHistory_trace.
  - intros _. apply keepsTrace_bind; auto with effects.
Qed.

Lemma refillHeadToHead_trace (m : MatchRow) (sportName : string) (w : World) :
  trace (fst (refillHeadToHead cfg out m sportName w))
  = trace w
    ++ (if (List.length
              (fetchHeadToHead w (home_team m) (away_team m) (match_id m) (date m)
                 sportName H2H_HISTORY_SIZE) <? 3)%nat
           && negb (id_falsy (home_team_id m)) && negb (id_falsy (away_team_id m))
        then [HeadToHeadRequested (idOr0 (home_team_id m)) (idOr0 (away_team_id m))
                (Z.of_nat H2H_HISTORY_SIZE) sportName]
        else []).
Proof.
  unfold refillHeadToHead. unfold bind at 1. unfold get at 1.
  destruct (_ && _ && _); [|symmetry; apply app_nil_r].
  rewrite bind_trace.
  - apply fetchHeadToHeadHistory_trace.
  - intros _. apply keepsTrace_bind; auto with effects.
Qed.

(** C7, as the code has it.  When [hydrateMatchHistory] completes, the
    requests it has made are, in order: one for the home team, then one for
    the away team, if the team has an id that the per-process set does not
    remember, whatever is stored of it; one more for the home team, then one
    more for the away team, if the team has an id and fewer than three of its
    earlier matches are stored when its turn comes; and one head-to-head
    request under the same condition on both teams.  So a team without an id
    is never asked for, and a team with fewer than three stored matches is
    asked for once when the set remembers it and twice when it does not. *)
Theorem hydrateMatchHistory_requests (m : MatchRow) (w w' : World) :
  hydrateMatchHistory cfg out m w = (w', Returned tt) ->
  let sportName := sportOr (sport m) "football" in
  let w1 := fst (prefetchTeam cfg out sportName (home_team_id m) w) in
  let w2 := fst (prefetchTeam cfg out sportName (away_team_id m) w1) in
  let w3 := fst (refillTeam cfg out m sportName (home_team m) (home_team_id m) w2) in
  let w4 := fst (refillTeam cfg out m sportName (away_team m) (away_team_id m) w3) in
  let stored (v : World) (teamName : option string) :=
    List.length
      (fetchRecentMatches v teamName (match_id m) (date m) sportName TEAM_HISTORY_SIZE) in
  let storedHeadToHead (v : World) :=
    List.length
      (fetchHeadToHead v (home_team m) (away_team m) (match_id m) (date m) sportName
         H2H_HISTORY_SIZE) in
  trace w'
  = trace w
    ++ (if negb (id_falsy (home_team_id m))
           && negb (remembered w sportName (home_team_id m))
        then [request sportName (home_team_id m)] else [])
    ++ (if negb (id_falsy (away_team_id m))
           && negb (remembered w1 sportName (away_team_id m))
        then [request sportName (away_team_id m)] else [])
    ++ (if (stored w2 (home_team m) <? 3)%nat && negb (id_falsy (home_team_id m))
        then [request sportName (home_team_id m)] else [])
    ++ (if (stored w3 (away_team m) <? 3)%nat && negb (id_falsy (away_team_id m))
        then [request sportName (away_team_id m)] else [])
    ++ (if (storedHeadToHead w4 <? 3)%nat
           && negb (id_falsy (home_team_id m)) && negb (id_falsy (away_team_id m))
        then [HeadToHeadRequested (idOr0 (home_team_id m)) (idOr0 (away_team_id m))
                (Z.of_nat H2H_HISTORY_SIZE) sportName]
        else []).
Proof.
  intros H sportName w1 w2 w3 w4 stored storedHeadToHead.
  unfold hydrateMatchHistory in H. fold sportName in H.
  apply bind_returned in H. destruct H as (_ & _ & H). fold w1 in H.
  apply bind_returned in H. destruct H as (_ & _ & H). fold w2 in H.
  apply bind_returned in H. destruct H as (_ & _ & H). fold w3 in H.
  apply bind_returned in H. destruct H as (_ & _ & H). fold w4 in H.
  apply bind_returned in H. destruct H as (_ & _ & H).
  unfold ret in H. injection H as <-.
  rewrite refillHeadToHead_trace. unfold w4 at 1. rewrite refillTeam_trace.
  unfold w3 at 1. rewrite refillTeam_trace.
  unfold w2 at 1. rewrite prefetchTeam_trace.
  unfold w1 at 1. rewrite prefetchTeam_trace.
  rewrite <- !app_assoc. reflexivity.
Qed.

End WithEnvironment.

(** The store of the example takes no row while the provider is out of
    reach: the run completes with two requests for team 33. *)
Lemma hydrateMatchHistory_requests_witness :
  match @hydrateMatchHistory Examples.integerRuntime Examples.ruleBasedOnly
          Examples.offline Examples.contest Examples.sparse with
  | (w', Returned tt) =>
      trace w' = [TeamHistoryRequested 33 12 "football";
                  TeamHistoryRequested 33 12 "football"]
  | _ => False
  end.
Proof.
  pose proof (@hydrateMatchHistory_requests Examples.integerRuntime
                Examples.ruleBasedOnly Examples.offline Examples.contest
                Examples.sparse) as H.
  destruct (@hydrateMatchHistory Examples.integerRuntime Examples.ruleBasedOnly
              Examples.offline Examples.contest Examples.sparse) as [w' [[]|message]] eqn:E.
  - rewrite (H w' eq_refl). reflexivity.
  - vm_compute in E. discriminate E.
Defined.

(** C7, as stated, fails: one earlier match of team A (id 33) is stored, fewer
    than three, and two requests for its history are made, not one; team B,
    which has no id, has one stored match as well and is not asked for. *)
Lemma hydrateMatchHistory_two_requests :
  List.length
    (@fetchRecentMatches Examples.sparse (home_team Examples.contest)
       (match_id Examples.contest) (date Examples.contest) "football" TEAM_HISTORY_SIZE)
  = 1%nat
  /\ List.length
       (@fetchRecentMatches Examples.sparse (away_team Examples.contest)
          (match_id Examples.contest) (date Examples.contest) "football"
          TEAM_HISTORY_SIZE)
     = 1%nat
  /\ match @hydrateMatchHistory Examples.integerRuntime Examples.ruleBasedOnly
             Examples.offline Examples.contest Examples.sparse with
     | (w', Returned tt) =>
         teamRequests 33 (trace w') = 2%nat
         /\ List.length (trace w') = 2%nat
     | _ => False
     end.
Proof. repeat split; reflexivity. Qed.

End HistoryFacts.

(** ** The tiered orchestrator *)

Module PipelineFacts.

Import Predictor EffectFacts HistoryFacts.

Local Open Scope monad_scope.

Lemma callsNoGenerator_bind {A B : Type} (m : M A) (k : A -> M B) :
  callsNoGenerator m -> (forall a, callsNoGenerator (k a)) ->
  callsNoGenerator (bind m k).
Proof.
  intros Hm Hk w. unfold bind. specialize (Hm w).
  destruct (m w) as [w1 [a|message]]; simpl in *.
  - rewrite <- Hm. apply Hk.
  - exact Hm.
Qed.

Lemma callsNoGenerator_ret {A : Type} (a : A) : callsNoGenerator (ret a).
Proof. intro w. reflexivity. Qed.

Lemma callsNoGenerator_lift {A : Type} (o : Outcome A) : callsNoGenerator (lift o).
Proof. intro w. reflexivity. Qed.

Lemma generatorCalls_app (a b : list Event) :
  generatorCalls (a ++ b) = generatorCalls a ++ generatorCalls b.
Proof. apply filter_app. Qed.

(** The labels of a sport that is not named like a property every object
    inherits are strings. *)
Lemma metaOf_own (sportName : string) :
  FeatureJob.inherited sportName = false ->
  exists scoring label : string,
    scoringLabel (metaOf sportName) = Some scoring
    /\ drawLabel (metaOf sportName) = Some label.
Proof.
  intro H. unfold metaOf.
  destruct (String.eqb sportName "football"); [eexists; eexists; split; reflexivity|].
  destruct (String.eqb sportName "basketball"); [eexists; eexists; split; reflexivity|].
  rewrite H. eexists; eexists; split; reflexivity.
Qed.

(** The labels of a sport named like a property every object inherits are
    undefined. *)
Lemma metaOf_inherited (sportName : string) :
  FeatureJob.inherited sportName = true -> metaOf sportName = PROTOTYPE_MEMBER.
Proof.
  intro H. unfold metaOf.
  destruct (String.eqb sportName "football") eqn:E1.
  { apply String.eqb_eq in E1. subst. discriminate H. }
  destruct (String.eqb sportName "basketball") eqn:E2.
  { apply String.eqb_eq in E2. subst. discriminate H. }
  rewrite H. reflexivity.
Qed.

(** [buildPrompt] throws exactly for a sport named like a property every
    object inherits. *)
Lemma buildPrompt_returns (m : MatchRow) (features : Features) (context : MatchContext) :
  FeatureJob.inherited (sportOr (sport m) "football") = false ->
  exists prompt : Prompt, buildPrompt m features context = Returned prompt.
Proof.
  intro H. unfold buildPrompt. cbv zeta.
  destruct (metaOf_own _ H) as (scoring & label & -> & _).
  eexists. reflexivity.
Qed.

Lemma buildPrompt_throws (m : MatchRow) (features : Features) (context : MatchContext) :
  FeatureJob.inherited (sportOr (sport m) "football") = true ->
  buildPrompt m features context = Thrown promptError.
Proof.
  intro H. unfold buildPrompt. cbv zeta. rewrite (metaOf_inherited _ H). reflexivity.
Qed.

Section WithEnvironment.

Context {rt : Runtime} (cfg : Config) (out : Outside).

Lemma callsNoGenerator_prefetchTeam (sportName : string) (teamId : option Z) :
  callsNoGenerator (prefetchTeam cfg out sportName teamId).
Proof.
  intro w. rewrite prefetchTeam_trace, generatorCalls_app.
  destruct (_ && _); simpl; apply app_nil_r.
Qed.

Lemma callsNoGenerator_refillTeam (m : MatchRow) (sportName : string)
    (teamName : option string) (teamId : option Z) :
  callsNoGenerator (refillTeam cfg out m sportName teamName teamId).
Proof.
  intro w. rewrite refillTeam_trace, generatorCalls_app.
  destruct (_ && _); simpl; apply app_nil_r.
Qed.

Lemma callsNoGenerator_refillHeadToHead (m : MatchRow) (sportName : string) :
  callsNoGenerator (refillHeadToHead cfg out m sportName).
Proof.
  intro w. rewrite refillHeadToHead_trace, generatorCalls_app.
  destruct (_ && _ && _); simpl; apply app_nil_r.
Qed.

(** [hydrateMatchHistory] calls no generator, whether it returns or throws. *)
Lemma callsNoGenerator_hydrateMatchHistory (m : MatchRow) :
  callsNoGenerator (hydrateMatchHistory cfg out m).
Proof.
  unfold hydrateMatchHistory.
  apply callsNoGenerator_bind; [apply callsNoGenerator_prefetchTeam|]. intros _.
  apply callsNoGenerator_bind; [apply callsNoGenerator_prefetchTeam|]. intros _.
  apply callsNoGenerator_bind; [apply callsNoGenerator_refillTeam|]. intros _.
  apply callsNoGenerator_bind; [apply callsNoGenerator_refillTeam|]. intros _.
  apply callsNoGenerator_bind; [apply callsNoGenerator_refillHeadToHead|]. intros _.
  apply callsNoGenerator_ret.
Qed.

(** [columnToNumber] is [toNumber] on the value the driver hands over for a
    REAL column. *)
Lemma toNumber_column (c : option Q) :
  toNumber (column c) = Returned (columnToNumber c).
Proof. destruct c as [q|]; reflexivity. Qed.

Lemma columnToNumber_finite (c : option Q) :
  exists q : Q, orZero (columnToNumber c) = Fin q.
Proof. destruct c as [q|]; eexists; reflexivity. Qed.

(** The features read from the store are finite numbers. *)
Lemma getFeatures_finite (w : World) (matchId : Z) (sportHint : option string)
    (features : Features) :
  getFeatures w matchId sportHint = Some features ->
  exists hf af hg ag : Q,
    home_form features = Fin hf /\ away_form features = Fin af
    /\ home_goals_avg features = Fin hg /\ away_goals_avg features = Fin ag.
Proof.
  unfold getFeatures. destruct (find _ (db_stats w)) as [s|]; [|discriminate].
  destruct (sql_eqb _ _); [|discriminate]. intro H. injection H as <-.
  cbn [home_form away_form home_goals_avg away_goals_avg].
  destruct (columnToNumber_finite (stats_home_form s)) as (hf & ->).
  destruct (columnToNumber_finite (stats_away_form s)) as (af & ->).
  destruct (columnToNumber_finite (stats_home_goals_avg s)) as (hg & ->).
  destruct (columnToNumber_finite (stats_away_goals_avg s)) as (ag & ->).
  exists hf, af, hg, ag. repeat split; reflexivity.
Qed.



Lemma callRemoteLlama_runs (prompt : Prompt) (w : World) :
  callRemoteLlama out prompt w
  = (afterCall RemoteGeneratorCalled w, Returned (replyOf out w)).
Proof.
  unfold callRemoteLlama, replyOf, bind, record, tryCatch, tick, throw, ret, afterCall.
  cbn [clock trace db_matches db_stats fetchedHistoryTeams].
  destruct (generator out (clock w)); reflexivity.
Qed.

Lemma callOllama_runs (prompt : Prompt) (w : World) :
  callOllama out prompt w
  = (afterCall LocalGeneratorCalled w, Returned (replyOf out w)).
Proof.
  unfold callOllama, replyOf, bind, record, tryCatch, tick, throw, ret, afterCall.
  cbn [clock trace db_matches db_stats fetchedHistoryTeams].
  destruct (generator out (clock w)); reflexivity.
Qed.

Lemma remoteEngine_returns (parsed : JsValue) :
  truthy parsed = true -> exists source, remoteEngine parsed = Returned source.
Proof.
  intro Ht. unfold remoteEngine.
  destruct parsed; try discriminate Ht; cbn [getProp andThen prop];
    try (destruct (lookup "engine" fields));
    eexists; reflexivity.
Qed.

(** A tier whose call returned [raw] in the state [w1]: no prediction unless
    the reply is understood and valid, and no exception but that of
    [normalizePrediction]. *)
Lemma tier_outcome (call : M JsValue) (matchId : Z)
    (engineOf : JsValue -> Outcome string) (w w1 : World) (raw : JsValue) :
  call w = (w1, Returned raw) ->
  (forall parsed, truthy parsed = true -> exists s, engineOf parsed = Returned s) ->
  let parsed := normalizeIncomingPayload raw in
  let validated := normalizePrediction parsed (VNum (numberOfId matchId)) in
  exists outcome : Outcome (option Prediction),
    tier call matchId engineOf w = (w1, outcome)
    /\ (truthy parsed = false -> outcome = Returned None)
    /\ (validated = Returned None -> outcome = Returned None)
    /\ (forall v, truthy parsed = true -> validated = Returned (Some v) ->
        exists source,
          engineOf parsed = Returned source
          /\ outcome = Returned (Some (withEngine v source)))
    /\ (forall message, outcome = Thrown message -> message = conversionError).
Proof.
  intros Hcall Hengine parsed validated. unfold tier, bind. rewrite Hcall.
  fold parsed. destruct (truthy parsed) eqn:Et.
  - unfold lift at 1. fold validated.
    destruct validated as [[v|]|message] eqn:Ev.
    + destruct (Hengine _ Et) as (source & Hs). unfold lift. rewrite Hs.
      eexists. split; [reflexivity|]. repeat split; try discriminate.
      intros v' _ H. injection H as <-. exists source. split; reflexivity.
    + eexists. split; [reflexivity|]. repeat split; try discriminate.
    + eexists. split; [reflexivity|]. repeat split; try discriminate.
      intros text H. injection H as <-.
      exact (NormalizerFacts.normalizePrediction_throws _ _ _ Ev).
  - eexists. split; [reflexivity|]. repeat split; try discriminate.
Qed.


End WithEnvironment.



(** The match record and the features exist, no generator is configured and
    the key is set, but the sport of the match is recorded as [toString]:
    [buildPrompt] throws a [TypeError] and [predictMatch] passes it on. *)
Lemma predictMatch_propagates_prompt_error :
  @getMatchRecord Examples.integerRuntime Examples.misnamedWithStats (Examples.number 1)
  = Returned (Some (hd Examples.contest (db_matches Examples.misnamedWithStats)))
  /\ (exists features : Features,
        getFeatures Examples.misnamedWithStats 1 (Some "toString"%string) = Some features)
  /\ snd (@predictMatch Examples.integerRuntime Examples.ruleBasedOnly Examples.offline
            (Examples.number 1) Examples.misnamedWithStats)
     = Thrown promptError.
Proof.
  repeat split; try reflexivity. eexists. reflexivity.
Qed.

End PipelineFacts.

(** ** The orchestrator: exceptions and generator calls *)

Module OrchestratorFacts.

Import Predictor EffectFacts HistoryFacts PipelineFacts.

Local Open Scope monad_scope.
Local Open Scope string_scope.

Create HintDb throws.

Lemma throwsOnly_ret {A : Type} (P : string -> Prop) (a : A) : throwsOnly P (ret a).
Proof. intros w w' message H. discriminate H. Qed.

Lemma throwsOnly_throw {A : Type} (P : string -> Prop) (message : string) :
  P message -> throwsOnly P (@throw A message).
Proof. intros HP w w' text H. injection H as _ <-. exact HP. Qed.

Lemma throwsOnly_get (P : string -> Prop) : throwsOnly P get.
Proof. intros w w' message H. discriminate H. Qed.

Lemma throwsOnly_tick (P : string -> Prop) : throwsOnly P tick.
Proof. intros w w' message H. discriminate H. Qed.

Lemma throwsOnly_record (P : string -> Prop) (e : Event) : throwsOnly P (record e).
Proof. intros w w' message H. discriminate H. Qed.

Lemma throwsOnly_memoAdd (P : string -> Prop) (key : string) : throwsOnly P (memoAdd key).
Proof. intros w w' message H. discriminate H. Qed.

Lemma throwsOnly_bind {A B : Type} (P : string -> Prop) (m : M A) (k : A -> M B) :
  throwsOnly P m -> (forall a, throwsOnly P (k a)) -> throwsOnly P (bind m k).
Proof.
  intros Hm Hk w w' message. unfold bind.
  destruct (m w) as [w1 [a|text]] eqn:E.
  - apply Hk.
  - intro H. injection H as _ <-. exact (Hm _ _ _ E).
Qed.

(** What is caught is not thrown. *)
Lemma throwsOnly_tryCatch {A : Type} (P : string -> Prop) (body : M A)
    (handler : string -> M A) :
  (forall message, throwsOnly P (handler message)) -> throwsOnly P (tryCatch body handler).
Proof.
  intros Hh w w' message. unfold tryCatch.
  destruct (body w) as [w1 [a|text]]; [discriminate|]. apply Hh.
Qed.

Lemma throwsOnly_weaken {A : Type} (P Q : string -> Prop) (m : M A) :
  (forall message, P message -> Q message) -> throwsOnly P m -> throwsOnly Q m.
Proof. intros HPQ Hm w w' message H. apply HPQ. exact (Hm _ _ _ H). Qed.

#[local] Hint Resolve throwsOnly_ret throwsOnly_get throwsOnly_tick throwsOnly_record
  throwsOnly_memoAdd : throws.

(** A computation that throws nothing returns. *)
Lemma throwsOnly_returns {A : Type} (m : M A) (w : World) :
  throwsOnly (fun _ => False) m -> exists w' a, m w = (w', Returned a).
Proof.
  intro H. destruct (m w) as [w' [a|message]] eqn:E.
  - exists w', a. reflexivity.
  - destruct (H _ _ _ E).
Qed.

Section WithEnvironment.

Context {rt : Runtime} (cfg : Config) (out : Outside).

(** A generator tier makes one call, whatever its outcome. *)
Lemma remote_tier_runs (prompt : Prompt) (matchId : Z) (w : World) :
  exists w' outcome,
    tier (callRemoteLlama out prompt) matchId remoteEngine w = (w', outcome)
    /\ trace w' = (trace w ++ [RemoteGeneratorCalled])%list
    /\ forall message, outcome = Thrown message -> message = conversionError.
Proof.
  destruct (tier_outcome (callRemoteLlama out prompt) matchId remoteEngine w _ _
              (callRemoteLlama_runs out prompt w) remoteEngine_returns)
    as (outcome & Hrun & _ & _ & _ & Hthrown).
  exists (afterCall RemoteGeneratorCalled w), outcome.
  split; [exact Hrun|]. split; [reflexivity|exact Hthrown].
Qed.

Lemma local_tier_runs (prompt : Prompt) (matchId : Z) (w : World) :
  exists w' outcome,
    tier (callOllama out prompt) matchId (fun _ => Returned "ollama") w = (w', outcome)
    /\ trace w' = (trace w ++ [LocalGeneratorCalled])%list
    /\ forall message, outcome = Thrown message -> message = conversionError.
Proof.
  destruct (tier_outcome (callOllama out prompt) matchId (fun _ => Returned "ollama")
              w _ _ (callOllama_runs out prompt w) (fun _ _ => ex_intro _ _ eq_refl))
    as (outcome & Hrun & _ & _ & _ & Hthrown).
  exists (afterCall LocalGeneratorCalled w), outcome.
  split; [exact Hrun|]. split; [reflexivity|exact Hthrown].
Qed.

Lemma rules_run (m : MatchRow) (features : Features) (w : World) :
  exists w' p, simpleRulePredict out m features w = (w', Returned p)
               /\ trace w' = trace w.
Proof.
  destruct (RuleFacts.simpleRulePredict_decision out m features w)
    as (w' & p & Hrun & Htrace & _).
  exists w', p. split; assumption.
Qed.

(** The tiers return a prediction or throw the [TypeError] of a conversion,
    and call each configured generator at most once, the remote one first;
    they throw only when a generator is configured. *)
Lemma generatorTiers_run (prompt : Prompt) (m : MatchRow) (features : Features)
    (w : World) :
  exists w' outcome calls,
    generatorTiers cfg out prompt m features w = (w', outcome)
    /\ trace w' = (trace w ++ calls)%list
    /\ (calls = [] \/ calls = [RemoteGeneratorCalled] \/ calls = [LocalGeneratorCalled]
        \/ calls = [RemoteGeneratorCalled; LocalGeneratorCalled])
    /\ (In RemoteGeneratorCalled calls -> str_falsy (LLAMA_SERVER_URL cfg) = false)
    /\ (In LocalGeneratorCalled calls -> str_falsy (OLLAMA_MODEL cfg) = false)
    /\ ((exists p, outcome = Returned (Predicted p))
        \/ (outcome = Thrown conversionError
            /\ (str_falsy (LLAMA_SERVER_URL cfg) = false
                \/ str_falsy (OLLAMA_MODEL cfg) = false))).
Proof.
  unfold generatorTiers.
  assert (Hremote : exists w1 remote calls1,
             (if str_falsy (LLAMA_SERVER_URL cfg) then ret None
              else tier (callRemoteLlama out prompt) (match_id m) remoteEngine) w
             = (w1, remote)
             /\ trace w1 = (trace w ++ calls1)%list
             /\ ((calls1 = [] /\ remote = Returned None)
                 \/ (calls1 = [RemoteGeneratorCalled]
                     /\ str_falsy (LLAMA_SERVER_URL cfg) = false))
             /\ forall message, remote = Thrown message -> message = conversionError).
  { destruct (str_falsy (LLAMA_SERVER_URL cfg)).
    - exists w, (Returned None), []. rewrite app_nil_r. repeat split.
      + left. split; reflexivity.
      + discriminate.
    - destruct (remote_tier_runs prompt (match_id m) w) as (w1 & r & Hrun & Ht & Hthrown).
      exists w1, r, [RemoteGeneratorCalled]. repeat split; try assumption.
      right. split; reflexivity. }
  destruct Hremote as (w1 & remote & calls1 & Hrun1 & Ht1 & Hc1 & Hthrown1).
  unfold bind at 1. rewrite Hrun1.
  destruct remote as [[p|]|message].
  { exists w1, (Returned (Predicted p)), calls1. split; [reflexivity|].
    split; [exact Ht1|].
    destruct Hc1 as [[-> H]|[-> H]]; [discriminate H|].
    split; [tauto|]. split; [intros _; exact H|].
    split; [intros [F|[]]; discriminate F|]. left. exists p. reflexivity. }
  2:{ exists w1, (Thrown message), calls1. split; [reflexivity|].
      split; [exact Ht1|].
      destruct Hc1 as [[-> H]|[-> H]]; [discriminate H|].
      split; [tauto|]. split; [intros _; exact H|].
      split; [intros [F|[]]; discriminate F|]. right.
      rewrite (Hthrown1 message eq_refl). split; [reflexivity|left; exact H]. }
  assert (Hlocal : exists w2 local calls2,
             (if str_falsy (OLLAMA_MODEL cfg) then ret None
              else tier (callOllama out prompt) (match_id m)
                     (fun _ => Returned "ollama")) w1
             = (w2, local)
             /\ trace w2 = (trace w1 ++ calls2)%list
             /\ ((calls2 = [] /\ local = Returned None)
                 \/ (calls2 = [LocalGeneratorCalled]
                     /\ str_falsy (OLLAMA_MODEL cfg) = false))
             /\ forall message, local = Thrown message -> message = conversionError).
  { destruct (str_falsy (OLLAMA_MODEL cfg)).
    - exists w1, (Returned None), []. rewrite app_nil_r. repeat split.
      + left. split; reflexivity.
      + discriminate.
    - destruct (local_tier_runs prompt (match_id m) w1) as (w2 & r & Hrun & Ht & Hthrown).
      exists w2, r, [LocalGeneratorCalled]. repeat split; try assumption.
      right. split; reflexivity. }
  destruct Hlocal as (w2 & local & calls2 & Hrun2 & Ht2 & Hc2 & Hthrown2).
  unfold bind at 1. rewrite Hrun2.
  assert (Hshape :
            ((calls1 ++ calls2)%list = []
             \/ (calls1 ++ calls2)%list = [RemoteGeneratorCalled]
             \/ (calls1 ++ calls2)%list = [LocalGeneratorCalled]
             \/ (calls1 ++ calls2)%list = [RemoteGeneratorCalled; LocalGeneratorCalled])
            /\ (In RemoteGeneratorCalled (calls1 ++ calls2) ->
                str_falsy (LLAMA_SERVER_URL cfg) = false)
            /\ (In LocalGeneratorCalled (calls1 ++ calls2) ->
                str_falsy (OLLAMA_MODEL cfg) = false)).
  { destruct Hc1 as [[-> _]|[-> H1]], Hc2 as [[-> _]|[-> H2]]; simpl;
      (split; [tauto|]); split; intro H; try exact H1; try exact H2;
      repeat (destruct H as [H|H]; try discriminate H); try contradiction. }
  destruct Hshape as (Hs1 & Hs2 & Hs3).
  assert (Htrace : trace w2 = (trace w ++ calls1 ++ calls2)%list).
  { rewrite Ht2, Ht1, app_assoc. reflexivity. }
  destruct local as [[p|]|message].
  - exists w2, (Returned (Predicted p)), (calls1 ++ calls2)%list. split; [reflexivity|].
    split; [exact Htrace|]. repeat split; try assumption. left. exists p. reflexivity.
  - destruct (rules_run m features w2) as (w3 & p & Hrun3 & Ht3).
    unfold bind. rewrite Hrun3.
    exists w3, (Returned (Predicted p)), (calls1 ++ calls2)%list. split; [reflexivity|].
    split; [rewrite Ht3; exact Htrace|]. repeat split; try assumption.
    left. exists p. reflexivity.
  - exists w2, (Thrown message), (calls1 ++ calls2)%list. split; [reflexivity|].
    split; [exact Htrace|]. repeat split; try assumption. right.
    rewrite (Hthrown2 message eq_refl). split; [reflexivity|].
    destruct Hc2 as [[_ H]|[_ H]]; [discriminate H|]. right. exact H.
Qed.

(** [getMatchRecord] does not throw on a number. *)
Lemma getMatchRecord_number (w : World) (n : JsNum) :
  exists found, getMatchRecord w (VNum n) = Returned found.
Proof.
  unfold getMatchRecord, makeCandidateMatchIds, toNumber.
  destruct (negb (isNaN n)); cbn [Number andThen].
  - eexists. reflexivity.
  - destruct (isNaN n); eexists; reflexivity.
Qed.

(** [predictMatch], step by step. *)
Lemma predictMatch_steps (matchId : JsValue) (w : World) :
  predictMatch cfg out matchId w
  = match toNumber matchId with
    | Thrown message => (w, Thrown message)
    | Returned None => (w, Returned (ErrorObject "Ungueltige Match-ID"))
    | Returned (Some numericId) =>
        match getMatchRecord w (VNum numericId) with
        | Thrown message => (w, Thrown message)
        | Returned None => (w, Returned (ErrorObject "Match nicht gefunden"))
        | Returned (Some m) =>
            match hydrateMatchHistory cfg out m w with
            | (w1, Thrown message) => (w1, Thrown message)
            | (w1, Returned _) =>
                match getFeatures w1 (match_id m) (sport m) with
                | None => (w1, Returned (ErrorObject "Keine Features gefunden"))
                | Some features =>
                    match buildPrompt m features (getMatchContext w1 m) with
                    | Thrown message => (w1, Thrown message)
                    | Returned prompt => generatorTiers cfg out prompt m features w1
                    end
                end
            end
        end
    end.
Proof.
  unfold predictMatch. unfold bind at 1. unfold lift at 1.
  destruct (toNumber matchId) as [[numericId|]|message]; [|reflexivity|reflexivity].
  unfold bind at 1. unfold get at 1. cbv beta iota.
  unfold bind at 1. unfold lift at 1.
  destruct (getMatchRecord w (VNum numericId)) as [[m|]|message];
    [|reflexivity|reflexivity].
  unfold bind at 1.
  destruct (hydrateMatchHistory cfg out m w) as [w1 [[]|message]]; [|reflexivity].
  unfold bind at 1. unfold get at 1. cbv beta iota.
  destruct (getFeatures w1 (match_id m) (sport m)) as [features|]; [|reflexivity].
  cbv zeta. unfold bind at 1. unfold lift at 1.
  destruct (buildPrompt m features (getMatchContext w1 m)); reflexivity.
Qed.

(** Whatever the outcome, [predictMatch] calls each generator at most once,
    the remote one before the local one, and never a generator that is not
    configured. *)
Theorem predictMatch_generator_calls (matchId : JsValue) (w : World) :
  exists calls,
    generatorCalls (trace (fst (predictMatch cfg out matchId w)))
    = (generatorCalls (trace w) ++ calls)%list
    /\ (calls = [] \/ calls = [RemoteGeneratorCalled] \/ calls = [LocalGeneratorCalled]
        \/ calls = [RemoteGeneratorCalled; LocalGeneratorCalled])
    /\ (In RemoteGeneratorCalled calls -> str_falsy (LLAMA_SERVER_URL cfg) = false)
    /\ (In LocalGeneratorCalled calls -> str_falsy (OLLAMA_MODEL cfg) = false).
Proof.
  assert (Hnone : forall v : World,
             generatorCalls (trace v) = generatorCalls (trace w) ->
             exists calls,
               generatorCalls (trace v) = (generatorCalls (trace w) ++ calls)%list
               /\ (calls = [] \/ calls = [RemoteGeneratorCalled]
                   \/ calls = [LocalGeneratorCalled]
                   \/ calls = [RemoteGeneratorCalled; LocalGeneratorCalled])
               /\ (In RemoteGeneratorCalled calls ->
                   str_falsy (LLAMA_SERVER_URL cfg) = false)
               /\ (In LocalGeneratorCalled calls ->
                   str_falsy (OLLAMA_MODEL cfg) = false)).
  { intros v Hv. exists []. rewrite app_nil_r. split; [exact Hv|].
    split; [tauto|]. split; intros []. }
  rewrite predictMatch_steps.
  destruct (toNumber matchId) as [[numericId|]|message];
    [|apply Hnone; reflexivity|apply Hnone; reflexivity].
  destruct (getMatchRecord w (VNum numericId)) as [[m|]|message];
    [|apply Hnone; reflexivity|apply Hnone; reflexivity].
  pose proof (callsNoGenerator_hydrateMatchHistory cfg out m w) as Hquiet.
  destruct (hydrateMatchHistory cfg out m w) as [w1 [[]|message]]; cbn [fst] in Hquiet;
    [|apply Hnone; exact Hquiet].
  destruct (getFeatures w1 (match_id m) (sport m)) as [features|];
    [|apply Hnone; exact Hquiet].
  destruct (buildPrompt m features (getMatchContext w1 m)) as [prompt|message];
    [|apply Hnone; exact Hquiet].
  destruct (generatorTiers_run prompt m features w1)
    as (w2 & outcome & calls & -> & Ht & Hs1 & Hs2 & Hs3 & _).
  exists calls. cbn [fst]. rewrite Ht, generatorCalls_app, Hquiet.
  split; [|split; [exact Hs1|split; [exact Hs2|exact Hs3]]]. f_equal.
  destruct Hs1 as [->|[->|[->| ->]]]; reflexivity.
Qed.

Lemma throwsOnly_lift_returned {A : Type} (P : string -> Prop) (o : Outcome A) :
  (forall message, o = Thrown message -> P message) -> throwsOnly P (lift o).
Proof.
  intros Ho w w' message H. unfold lift in H. injection H as _ H. exact (Ho _ H).
Qed.

Lemma throwsOnly_saveMatches (P : string -> Prop) (matches : list ProviderMatch)
    (sportName : string) :
  (forall message, P message) -> throwsOnly P (Api.saveMatches matches sportName).
Proof. intros HP w w' message _. apply HP. Qed.

(** The exceptions of the football fetchers: the key is not set.  A failed
    request, a status other than 200 and an exception of [saveMatches] are
    caught. *)
Lemma throwsOnly_fetchFootball :
  throwsOnly (Api.keyMissing cfg "football") (Api.fetchFootball cfg out).
Proof.
  unfold Api.fetchFootball, Api.unset.
  destruct (str_falsy (API_FOOTBALL_KEY cfg)) eqn:E.
  - apply throwsOnly_throw. split; [exact E|reflexivity].
  - apply throwsOnly_tryCatch. intro message. apply throwsOnly_ret.
Qed.

(** The exceptions of the basketball fetchers: no key is set. *)
Lemma throwsOnly_fetchBasketball :
  throwsOnly (Api.keyMissing cfg "basketball") (Api.fetchBasketball cfg out).
Proof.
  unfold Api.fetchBasketball, Api.unset.
  destruct (str_falsy _) eqn:E.
  - apply throwsOnly_throw. split; [exact E|reflexivity].
  - apply throwsOnly_tryCatch. intro message. apply throwsOnly_ret.
Qed.

Lemma keyMissing_basketball (sportName message : string) :
  (sportName =? "basketball") = true ->
  Api.keyMissing cfg "basketball" message -> Api.keyMissing cfg sportName message.
Proof. intro E. apply String.eqb_eq in E. subst. exact (fun H => H). Qed.

Lemma keyMissing_football (sportName message : string) :
  (sportName =? "basketball") = false ->
  Api.keyMissing cfg "football" message -> Api.keyMissing cfg sportName message.
Proof.
  intros E [H1 H2]. unfold Api.keyMissing, Api.apiKeyOf, Api.missingKey in *.
  rewrite E. split; assumption.
Qed.

(** The exceptions of a history request: the key of the sport is not set. *)
Lemma throwsOnly_fetchTeamHistory (teamId : option Z) (last : Z) (sportName : string) :
  throwsOnly (Api.keyMissing cfg sportName)
             (Api.fetchTeamHistory cfg out teamId last sportName).
Proof.
  unfold Api.fetchTeamHistory. apply throwsOnly_bind; [apply throwsOnly_record|].
  intros _. destruct (id_falsy teamId); [apply throwsOnly_ret|].
  destruct (sportName =? "basketball") eqn:E.
  - apply (throwsOnly_weaken (Api.keyMissing cfg "basketball"));
      [intro; apply keyMissing_basketball; exact E|apply throwsOnly_fetchBasketball].
  - apply (throwsOnly_weaken (Api.keyMissing cfg "football"));
      [intro; apply keyMissing_football; exact E|apply throwsOnly_fetchFootball].
Qed.

Lemma throwsOnly_fetchHeadToHeadHistory (teamAId teamBId : option Z) (last : Z)
    (sportName : string) :
  throwsOnly (Api.keyMissing cfg sportName)
             (Api.fetchHeadToHeadHistory cfg out teamAId teamBId last sportName).
Proof.
  unfold Api.fetchHeadToHeadHistory. apply throwsOnly_bind; [apply throwsOnly_record|].
  intros _. destruct (id_falsy teamAId || id_falsy teamBId); [apply throwsOnly_ret|].
  destruct (sportName =? "basketball") eqn:E.
  - apply (throwsOnly_weaken (Api.keyMissing cfg "basketball"));
      [intro; apply keyMissing_basketball; exact E|apply throwsOnly_fetchBasketball].
  - apply (throwsOnly_weaken (Api.keyMissing cfg "football"));
      [intro; apply keyMissing_football; exact E|apply throwsOnly_fetchFootball].
Qed.

Lemma throwsOnly_prefetchTeam (sportName : string) (teamId : option Z) :
  throwsOnly (Api.keyMissing cfg sportName) (prefetchTeam cfg out sportName teamId).
Proof.
  unfold prefetchTeam. destruct (id_falsy teamId); [apply throwsOnly_ret|].
  apply throwsOnly_bind; [apply throwsOnly_get|]. intro w.
  destruct (existsb _ _); [apply throwsOnly_ret|].
  apply throwsOnly_bind; [apply throwsOnly_fetchTeamHistory|].
  intros [|x l]; auto with throws.
Qed.

Lemma throwsOnly_refillTeam (m : MatchRow) (sportName : string)
    (teamName : option string) (teamId : option Z) :
  throwsOnly (Api.keyMissing cfg sportName)
             (refillTeam cfg out m sportName teamName teamId).
Proof.
  unfold refillTeam. apply throwsOnly_bind; [apply throwsOnly_get|]. intro w.
  cbv zeta. destruct (_ && _); [|apply throwsOnly_ret].
  apply throwsOnly_bind; [apply throwsOnly_fetchTeamHistory|]. intros _.
  apply throwsOnly_bind; [apply throwsOnly_get|]. intro w'. apply throwsOnly_ret.
Qed.

Lemma throwsOnly_refillHeadToHead (m : MatchRow) (sportName : string) :
  throwsOnly (Api.keyMissing cfg sportName) (refillHeadToHead cfg out m sportName).
Proof.
  unfold refillHeadToHead. apply throwsOnly_bind; [apply throwsOnly_get|]. intro w.
  cbv zeta. destruct (_ && _ && _); [|apply throwsOnly_ret].
  apply throwsOnly_bind; [apply throwsOnly_fetchHeadToHeadHistory|]. intros _.
  apply throwsOnly_bind; [apply throwsOnly_get|]. intro w'. apply throwsOnly_ret.
Qed.

(** The exceptions of the history backfill: the key of the sport of the
    match is not set.  Whatever the provider replies is caught. *)
Lemma throwsOnly_hydrateMatchHistory (m : MatchRow) :
  throwsOnly (Api.keyMissing cfg (sportOr (sport m) "football"))
             (hydrateMatchHistory cfg out m).
Proof.
  unfold hydrateMatchHistory. cbv zeta.
  apply throwsOnly_bind; [apply throwsOnly_prefetchTeam|]. intros _.
  apply throwsOnly_bind; [apply throwsOnly_prefetchTeam|]. intros _.
  apply throwsOnly_bind; [apply throwsOnly_refillTeam|]. intros _.
  apply throwsOnly_bind; [apply throwsOnly_refillTeam|]. intros _.
  apply throwsOnly_bind; [apply throwsOnly_refillHeadToHead|]. intros _.
  apply throwsOnly_ret.
Qed.

(** With the key of the sport set, the backfill returns. *)
Lemma hydrateMatchHistory_returns (m : MatchRow) (w : World) :
  str_falsy (Api.apiKeyOf cfg (sportOr (sport m) "football")) = false ->
  exists w', hydrateMatchHistory cfg out m w = (w', Returned tt).
Proof.
  intro Hkey.
  destruct (hydrateMatchHistory cfg out m w) as [w' [[]|message]] eqn:E.
  - exists w'. reflexivity.
  - destruct (throwsOnly_hydrateMatchHistory m _ _ _ E) as [H _]. congruence.
Qed.

(** The history backfill of a match of any sport but basketball never
    throws once the football key is set: every failure of the provider is
    caught by the football fetchers. *)
Theorem hydrateMatchHistory_football_never_throws (m : MatchRow) (w : World) :
  str_falsy (API_FOOTBALL_KEY cfg) = false ->
  sportOr (sport m) "football" <> "basketball" ->
  exists w', hydrateMatchHistory cfg out m w = (w', Returned tt).
Proof.
  intros Hkey Hsport. apply hydrateMatchHistory_returns.
  unfold Api.apiKeyOf. apply String.eqb_neq in Hsport. rewrite Hsport. exact Hkey.
Qed.

(** The basketball fetchers catch as the football fetchers do: the history
    backfill of a basketball match never throws once the basketball key, or
    in its absence the football key, is set; a failed request, a status
    other than 200 and an exception while the fixtures are saved leave an
    empty result. *)
Theorem hydrateMatchHistory_basketball_never_throws (m : MatchRow) (w : World) :
  str_falsy (match API_BASKETBALL_KEY cfg with
             | Some key => Some key
             | None => API_FOOTBALL_KEY cfg
             end) = false ->
  sport m = Some "basketball" ->
  exists w', hydrateMatchHistory cfg out m w = (w', Returned tt).
Proof.
  intros Hkey Hsport. apply hydrateMatchHistory_returns.
  rewrite Hsport. exact Hkey.
Qed.

(** The exceptions of [predictMatch], by their origin. *)
Lemma predictMatch_thrown (matchId : JsValue) (w w' : World) (message : string) :
  predictMatch cfg out matchId w = (w', Thrown message) ->
  (toNumber matchId = Thrown message /\ message = conversionError)
  \/ exists numericId m,
       toNumber matchId = Returned (Some numericId)
       /\ getMatchRecord w (VNum numericId) = Returned (Some m)
       /\ ((hydrateMatchHistory cfg out m w = (w', Thrown message)
            /\ Api.keyMissing cfg (sportOr (sport m) "football") message)
           \/ (hydrateMatchHistory cfg out m w = (w', Returned tt)
               /\ FeatureJob.inherited (sportOr (sport m) "football") = true
               /\ message = promptError)
           \/ (FeatureJob.inherited (sportOr (sport m) "football") = false
               /\ message = conversionError
               /\ (str_falsy (LLAMA_SERVER_URL cfg) = false
                   \/ str_falsy (OLLAMA_MODEL cfg) = false))).
Proof.
  rewrite predictMatch_steps.
  destruct (toNumber matchId) as [[numericId|]|text] eqn:En; [|discriminate|].
  2:{ intro H. injection H as _ <-. left. split; [reflexivity|].
      exact (NormalizerFacts.toNumber_throws _ _ En). }
  destruct (getMatchRecord_number w numericId) as (found & Em). rewrite Em.
  destruct found as [m|]; [|discriminate].
  intro H. right. exists numericId, m. split; [reflexivity|]. split; [exact Em|].
  destruct (hydrateMatchHistory cfg out m w) as [w1 [[]|text]] eqn:Eh.
  - destruct (getFeatures w1 (match_id m) (sport m)) as [features|]; [|discriminate H].
    destruct (FeatureJob.inherited (sportOr (sport m) "football")) eqn:Ei.
    + rewrite (buildPrompt_throws m features _ Ei) in H. injection H as <- <-.
      right. left. repeat split; reflexivity.
    + destruct (buildPrompt_returns m features (getMatchContext w1 m) Ei)
        as (prompt & Ep).
      rewrite Ep in H.
      destruct (generatorTiers_run prompt m features w1)
        as (w2 & outcome & calls & Hrun & _ & _ & _ & _ & Houtcome).
      rewrite Hrun in H. injection H as <- ->.
      destruct Houtcome as [(p & Hp)|[Ht Hconfigured]]; [discriminate Hp|].
      injection Ht as <-. right. right. split; [reflexivity|].
      split; [reflexivity|exact Hconfigured].
  - injection H as <- <-. left. split; [reflexivity|].
    exact (throwsOnly_hydrateMatchHistory m _ _ _ Eh).
Qed.

(** The exceptions of [predictMatch], by their origin.  An exception is
    the [TypeError] of the conversion of the id; or that of the history
    backfill, thrown because the key of the sport of the match is not set;
    or the [TypeError] of [buildPrompt] for a match whose sport is named
    like a property every object inherits; or the [TypeError] of the
    conversion of a probability or of the confidence in the reply of a
    generator that is configured.  The rules never throw. *)
Theorem predictMatch_exceptions (matchId : JsValue) (w w' : World) (message : string) :
  predictMatch cfg out matchId w = (w', Thrown message) ->
  (toNumber matchId = Thrown message /\ message = conversionError)
  \/ exists numericId m,
       toNumber matchId = Returned (Some numericId)
       /\ getMatchRecord w (VNum numericId) = Returned (Some m)
       /\ ((hydrateMatchHistory cfg out m w = (w', Thrown message)
            /\ Api.keyMissing cfg (sportOr (sport m) "football") message)
           \/ (hydrateMatchHistory cfg out m w = (w', Returned tt)
               /\ FeatureJob.inherited (sportOr (sport m) "football") = true
               /\ message = promptError)
           \/ (FeatureJob.inherited (sportOr (sport m) "football") = false
               /\ message = conversionError
               /\ (str_falsy (LLAMA_SERVER_URL cfg) = false
                   \/ str_falsy (OLLAMA_MODEL cfg) = false))).
Proof. apply predictMatch_thrown. Qed.

(** When no generator is configured, [predictMatch] returns, an error
    object or a prediction, and does not throw, whatever the provider
    replies, for an id that converts (a number or a string) and a match
    whose sport has its key set and is not named like a property every
    object inherits. *)
Theorem predictMatch_returns (matchId : JsValue) (w : World) :
  str_falsy (LLAMA_SERVER_URL cfg) = true ->
  str_falsy (OLLAMA_MODEL cfg) = true ->
  typeofObject matchId = false ->
  (forall numericId m,
      toNumber matchId = Returned (Some numericId) ->
      getMatchRecord w (VNum numericId) = Returned (Some m) ->
      str_falsy (Api.apiKeyOf cfg (sportOr (sport m) "football")) = false
      /\ FeatureJob.inherited (sportOr (sport m) "football") = false) ->
  exists w' result, predictMatch cfg out matchId w = (w', Returned result).
Proof.
  intros Hremote Hlocal Hid Hmatch.
  destruct (predictMatch cfg out matchId w) as [w' [result|message]] eqn:E.
  - exists w', result. reflexivity.
  - exfalso. destruct (predictMatch_thrown _ _ _ _ E) as [[Hn _]|H].
    + destruct (NormalizerFacts.toNumber_primitive matchId (or_introl Hid)) as (n & Hreturned).
      congruence.
    + destruct H as (numericId & m & Hn & Hm & H).
      destruct (Hmatch numericId m Hn Hm) as [Hkey Hown].
      destruct H as [[_ [Hmissing _]]|[[_ [Hinherited _]]|[_ [_ [H|H]]]]]; congruence.
Qed.

End WithEnvironment.

(** Nothing is configured: the exception of the example run is the one the
    backfill of the contest throws, for want of the key. *)
Lemma predictMatch_exceptions_witness :
  snd (@predictMatch Examples.integerRuntime Examples.nothingSet Examples.offline
         (Examples.number 7) Examples.sparse)
  = Thrown (Api.missingKey "football")
  /\ exists numericId m,
       @toNumber Examples.integerRuntime (Examples.number 7) = Returned (Some numericId)
       /\ @getMatchRecord Examples.integerRuntime Examples.sparse (VNum numericId)
          = Returned (Some m)
       /\ Api.keyMissing Examples.nothingSet (sportOr (sport m) "football")
            (Api.missingKey "football").
Proof.
  split; [reflexivity|].
  destruct (@predictMatch_exceptions Examples.integerRuntime Examples.nothingSet
              Examples.offline (Examples.number 7) Examples.sparse
              (fst (@predictMatch Examples.integerRuntime Examples.nothingSet
                      Examples.offline (Examples.number 7) Examples.sparse))
              (Api.missingKey "football") eq_refl)
    as [[H _]|(numericId & m & Hn & Hm & H)]; [discriminate H|].
  exists numericId, m. split; [exact Hn|]. split; [exact Hm|].
  vm_compute in Hn. injection Hn as <-. vm_compute in Hm. injection Hm as <-.
  split; reflexivity.
Defined.

(** The contest of the example, the provider out of reach. *)
Lemma hydrateMatchHistory_football_never_throws_witness :
  exists w',
    @hydrateMatchHistory Examples.integerRuntime Examples.ruleBasedOnly Examples.offline
      Examples.contest Examples.sparse
    = (w', Returned tt).
Proof.
  apply (@hydrateMatchHistory_football_never_throws Examples.integerRuntime
           Examples.ruleBasedOnly Examples.offline Examples.contest Examples.sparse).
  - reflexivity.
  - simpl. discriminate.
Defined.

(** A basketball game, the key set, the provider out of reach. *)
Lemma hydrateMatchHistory_basketball_never_throws_witness :
  exists w',
    @hydrateMatchHistory Examples.integerRuntime Examples.basketballOnly Examples.offline
      Examples.game Examples.sparse
    = (w', Returned tt).
Proof.
  apply (@hydrateMatchHistory_basketball_never_throws Examples.integerRuntime
           Examples.basketballOnly Examples.offline Examples.game Examples.sparse);
    reflexivity.
Defined.

(** The contest of the example is a football match, and the key is set. *)
Lemma predictMatch_returns_witness :
  exists w' result,
    @predictMatch Examples.integerRuntime Examples.ruleBasedOnly Examples.offline
      (Examples.number 7) Examples.sparse
    = (w', Returned result).
Proof.
  apply (@predictMatch_returns Examples.integerRuntime
           Examples.ruleBasedOnly Examples.offline (Examples.number 7) Examples.sparse);
    try reflexivity.
  intros numericId m Hn Hm. vm_compute in Hn. injection Hn as <-.
  vm_compute in Hm. injection Hm as <-. split; reflexivity.
Defined.

End OrchestratorFacts.

(** ** The store: a fixture saved is found again *)

Module StoreFacts.

Import Api Predictor.

Local Open Scope string_scope.

Section WithRuntime.

Context {rt : Runtime}.

(** The id asked for is the first candidate tried. *)
Lemma makeCandidateMatchIds_head (id : Q) :
  0 <= id ->
  exists rest, makeCandidateMatchIds (VNum (Fin id)) = Returned (Fin id :: rest).
Proof.
  intro H0. unfold makeCandidateMatchIds, toNumber. cbn [isNaN negb andThen].
  cbn [SPORT_OFFSETS map snd fold_left isFinite negb orb sameValueZero add].
  assert (E0 : Qeq_bool 0 0 = true) by reflexivity. rewrite E0.
  assert (E1 : Qeq_bool 5000000000 0 = false) by reflexivity. rewrite E1.
  assert (Hhead : forall (l : list JsNum) x,
             exists tail, setAdd (Fin id :: l) x = Fin id :: tail).
  { intros l x. unfold setAdd. destruct (existsb _ _); eexists; reflexivity. }
  destruct (Hhead [] (Fin (id + 5000000000))) as (t1 & ->).
  destruct (geb (Fin id) (Fin 5000000000)); [destruct (Hhead t1 (sub (Fin id) (Fin 5000000000))) as (t2 & ->)|];
    cbn [filter isFinite andb geb leb]; rewrite (proj2 (Qle_bool_iff 0 id) H0);
    eexists; reflexivity.
Qed.

Lemma upsert_holds (k : Z) (sportName : string) (table : list MatchRow) (row : MatchRow) :
  sport row = Some sportName ->
  match_id row = k \/ holds k sportName table ->
  holds k sportName (Api.upsert row table).
Proof.
  intros Hs H. unfold Api.upsert, holds.
  destruct (Z.eq_dec (match_id row) k) as [E|E].
  - split.
    + exists row. split; [apply in_or_app; right; left; reflexivity|exact E].
    + intros r Hr Hk. apply in_app_or in Hr. destruct Hr as [Hr|[<-|[]]]; [|exact Hs].
      apply filter_In in Hr. destruct Hr as [_ Hr].
      apply negb_true_iff, Z.eqb_neq in Hr. congruence.
  - destruct H as [H|[(r & Hr & Hk) Hall]]; [contradiction|]. split.
    + exists r. split; [|exact Hk]. apply in_or_app. left. apply filter_In.
      split; [exact Hr|]. apply negb_true_iff, Z.eqb_neq. congruence.
    + intros r' Hr' Hk'. apply in_app_or in Hr'. destruct Hr' as [Hr'|[<-|[]]];
        [|contradiction].
      apply filter_In in Hr'. apply Hall; tauto.
Qed.

Lemma insertRow_keeps (k : Z) (sportName : string) (table : list MatchRow)
    (row : Api.MappedRow) :
  holds k sportName table -> holds k sportName (Api.insertRow sportName table row).
Proof.
  intro H. unfold Api.insertRow.
  destruct (Api.mapped_match_id row) as [[q| | |]|]; try exact H.
  destruct (Qeq_bool q 0); [exact H|].
  apply upsert_holds; [reflexivity|right; exact H].
Qed.

Lemma insertRow_holds (k : Z) (sportName : string) (table : list MatchRow)
    (row : Api.MappedRow) (q : Q) :
  Api.mapped_match_id row = Some (Fin q) -> q == inject_Z k -> (0 < k)%Z ->
  holds k sportName (Api.insertRow sportName table row).
Proof.
  intros Hid Hq Hk. unfold Api.insertRow. rewrite Hid.
  rewrite Qeq_bool_false.
  - apply upsert_holds; [reflexivity|]. left. cbn [match_id].
    rewrite (Qfloor_comp _ _ Hq). apply Qfloor_Z.
  - rewrite Hq. intro H. unfold Qeq in H. simpl in H. lia.
Qed.

Lemma fold_insertRow_keeps (k : Z) (sportName : string) (rows : list Api.MappedRow)
    (table : list MatchRow) :
  holds k sportName table ->
  holds k sportName (fold_left (Api.insertRow sportName) rows table).
Proof.
  revert table. induction rows as [|row rows IH]; intros table H; simpl; [exact H|].
  apply IH, insertRow_keeps, H.
Qed.

Lemma holds_found (k : Z) (sportName : string) (w : World) :
  holds k sportName (db_matches w) ->
  exists row,
    selectMatch w (numberOfId k) = Some row
    /\ match_id row = k /\ sport row = Some sportName.
Proof.
  intros [(r & Hr & Hk) Hall]. unfold selectMatch.
  destruct (find _ (db_matches w)) as [r'|] eqn:Ef.
  - apply find_some in Ef. destruct Ef as [Hin Heq].
    unfold numberOfId, sameValueZero in Heq. apply Qeq_bool_iff in Heq.
    assert (Hk' : match_id r' = k).
    { unfold Qeq in Heq. simpl in Heq. lia. }
    eexists. split; [reflexivity|]. cbn [match_id sport]. split; [exact Hk'|].
    rewrite (Hall r' Hin Hk'). reflexivity.
  - exfalso. apply (find_none _ _ Ef) in Hr.
    unfold numberOfId, sameValueZero in Hr. rewrite Hk in Hr.
    rewrite (proj2 (Qeq_bool_iff _ _) (Qeq_refl _)) in Hr. discriminate Hr.
Qed.

Lemma mapArray_split {A B : Type} (f : A -> Outcome B) (l1 l2 : list A) (x : A)
    (rows : list B) :
  Api.mapArray f (l1 ++ x :: l2) = Returned rows ->
  exists r1 y r2, rows = (r1 ++ y :: r2)%list /\ f x = Returned y.
Proof.
  revert rows. induction l1 as [|a l1 IH]; intros rows; cbn [app Api.mapArray].
  - destruct (f x) as [y|message]; cbn [andThen]; [|discriminate].
    destruct (Api.mapArray f l2) as [ys|message]; cbn [andThen]; [|discriminate].
    intro H. injection H as <-. exists [], y, ys. split; reflexivity.
  - destruct (f a) as [b|message]; cbn [andThen]; [|discriminate].
    destruct (Api.mapArray f (l1 ++ x :: l2)) as [ys|message]; cbn [andThen];
      [|discriminate].
    intro H. injection H as <-.
    destruct (IH ys eq_refl) as (r1 & y & r2 & -> & Hy).
    exists (b :: r1), y, r2. split; [reflexivity|exact Hy].
Qed.

(** A fixture saved is found again: after [saveMatches] has stored the
    fixtures of a sport, [getMatchRecord] finds, under the composed id of
    each of them (a positive integer), a row of that id and of that sport. *)
Theorem getMatchRecord_after_saveMatches
    (matches : list ProviderMatch) (key : Api.SportKey) (pm : ProviderMatch)
    (q : Q) (k : Z) (w w' : World) :
  let sportName := Api.sportNameOf key in
  In pm matches ->
  Api.composeMatchId (pm_id pm) key = Returned (Some (Fin q)) ->
  q == inject_Z k ->
  (0 < k)%Z ->
  Api.saveMatches matches sportName w = (w', Returned tt) ->
  exists row,
    getMatchRecord w' (VNum (numberOfId k)) = Returned (Some row)
    /\ match_id row = k
    /\ sport row = Some sportName.
Proof.
  intros sportName Hin Hid Hq Hk Hsaved.
  assert (Hheld : holds k sportName (db_matches w')).
  { unfold Api.saveMatches in Hsaved. destruct matches as [|x l] eqn:El; [destruct Hin|].
    rewrite <- El in *. unfold bind, lift, get, setMatches in Hsaved.
    set (mapRow := if sportName =? "basketball" then Api.mapBasketballMatch
                   else Api.mapFootballMatch) in *.
    destruct (Api.mapArray mapRow matches) as [rows|message] eqn:Erows;
      [|discriminate Hsaved].
    injection Hsaved as <-. cbn [db_matches].
    destruct (in_split _ _ Hin) as (l1 & l2 & Esplit). rewrite Esplit in Erows.
    destruct (mapArray_split mapRow l1 l2 pm rows Erows) as (r1 & row & r2 & -> & Hrow).
    rewrite fold_left_app. cbn [fold_left].
    apply fold_insertRow_keeps.
    apply (insertRow_holds k sportName _ row q); [|exact Hq|exact Hk].
    unfold mapRow, sportName in Hrow.
    destruct key; cbn [Api.sportNameOf String.eqb Ascii.eqb Bool.eqb] in Hrow;
      unfold Api.mapFootballMatch, Api.mapBasketballMatch in Hrow;
      rewrite Hid in Hrow; cbn [andThen] in Hrow; injection Hrow as <-; reflexivity. }
  destruct (holds_found k sportName _ Hheld) as (row & Hsel & Hrowk & Hrows).
  exists row. split; [|split; assumption].
  unfold getMatchRecord, numberOfId. unfold numberOfId in Hsel.
  destruct (makeCandidateMatchIds_head (inject_Z k)) as (rest & ->).
  { change 0 with (inject_Z 0). rewrite <- Zle_Qle. lia. }
  cbn [andThen firstRow]. rewrite Hsel. reflexivity.
Qed.

End WithRuntime.

(** The game 42 of the basketball provider is stored under 5000000042. *)
Lemma getMatchRecord_after_saveMatches_witness :
  exists row,
    @getMatchRecord Examples.integerRuntime
      (fst (@Api.saveMatches Examples.integerRuntime [Examples.fetched] "basketball"
              Examples.sparse))
      (VNum (numberOfId 5000000042))
    = Returned (Some row)
    /\ match_id row = 5000000042%Z
    /\ sport row = Some "basketball".
Proof.
  apply (@getMatchRecord_after_saveMatches Examples.integerRuntime [Examples.fetched]
           Api.Basketball Examples.fetched (5000000000 + 42) 5000000042 Examples.sparse).
  - left. reflexivity.
  - reflexivity.
  - reflexivity.
  - lia.
  - reflexivity.
Defined.

End StoreFacts.

(** ** The rules: a predicted draw *)

Module DrawFacts.

Import Predictor RuleFacts.

Local Open Scope string_scope.




End DrawFacts.

(** ** The match record *)

Module LookupFacts.

Import Predictor.

Local Open Scope string_scope.

Section WithRuntime.

Context {rt : Runtime}.

(** The candidates for a finite id: the id, the id plus the basketball
    offset, the id minus the offset; none is negative. *)
Lemma makeCandidateMatchIds_members (id : Q) (candidates : list JsNum)
    (candidate : JsNum) :
  makeCandidateMatchIds (VNum (Fin id)) = Returned candidates ->
  In candidate candidates ->
  exists q,
    candidate = Fin q /\ 0 <= q
    /\ (q = id \/ q = id + 5000000000 \/ q = id + - (5000000000)).
Proof.
  unfold makeCandidateMatchIds, toNumber. cbn [isNaN negb andThen].
  cbn [SPORT_OFFSETS map snd fold_left isFinite negb orb sameValueZero add sub].
  assert (E0 : Qeq_bool 0 0 = true) by reflexivity. rewrite E0.
  assert (E1 : Qeq_bool 5000000000 0 = false) by reflexivity. rewrite E1.
  intro Hc. injection Hc as <-.
  intro H. apply filter_In in H. destruct H as [H Hok].
  assert (Hq : exists q, candidate = Fin q
                         /\ (q = id \/ q = id + 5000000000 \/ q = id + - (5000000000))).
  { unfold setAdd in H.
    repeat match type of H with
           | context [if ?c then _ else _] => destruct c
           end;
      cbn [app In] in H;
      repeat (destruct H as [H|H]; [eexists; split; [symmetry; exact H|tauto]|]);
      destruct H. }
  destruct Hq as (q & -> & Hq). exists q. split; [reflexivity|]. split; [|exact Hq].
  cbn [isFinite andb geb leb] in Hok. apply Qle_bool_iff. exact Hok.
Qed.

Lemma firstRow_some (w : World) (candidates : list JsNum) (m : MatchRow) :
  firstRow w candidates = Some m ->
  exists candidate, In candidate candidates /\ selectMatch w candidate = Some m.
Proof.
  induction candidates as [|c l IH]; simpl; [discriminate|].
  destruct (selectMatch w c) as [row|] eqn:E.
  - intro H. injection H as <-. exists c. split; [left; reflexivity|exact E].
  - intro H. destruct (IH H) as (c' & Hin & Hsel). exists c'. split; [right|]; assumption.
Qed.

(** The record [getMatchRecord] returns for a finite id is a stored match:
    the columns selected are those of a row of the table whose id is not
    negative and is the id asked for, or differs from it by the basketball
    offset; its sport is never NULL. *)
Theorem getMatchRecord_sound (w : World) (id : Q) (m : MatchRow) :
  getMatchRecord w (VNum (Fin id)) = Returned (Some m) ->
  exists r,
    In r (db_matches w)
    /\ match_id m = match_id r
    /\ sport m = Some (sportOr (sport r) "football")
    /\ date m = date r /\ status m = status r
    /\ home_team m = home_team r /\ away_team m = away_team r
    /\ home_team_id m = home_team_id r /\ away_team_id m = away_team_id r
    /\ (0 <= match_id r)%Z
    /\ (inject_Z (match_id r) == id
        \/ inject_Z (match_id r) == id + 5000000000
        \/ inject_Z (match_id r) == id - 5000000000).
Proof.
  unfold getMatchRecord.
  destruct (makeCandidateMatchIds (VNum (Fin id))) as [candidates|message] eqn:Ec;
    cbn [andThen]; [|discriminate].
  intro H. injection H as H.
  apply firstRow_some in H. destruct H as (candidate & Hin & Hsel).
  apply (makeCandidateMatchIds_members _ _ _ Ec) in Hin.
  destruct Hin as (q & -> & Hq0 & Hq).
  unfold selectMatch in Hsel.
  destruct (find _ (db_matches w)) as [r|] eqn:Ef; [|discriminate].
  injection Hsel as <-. apply find_some in Ef. destruct Ef as [Hr Heq].
  unfold numberOfId, sameValueZero in Heq. apply Qeq_bool_iff in Heq.
  exists r. cbn [match_id sport date status home_team away_team home_team_id away_team_id].
  repeat (split; [first [exact Hr|reflexivity]|]).
  split.
  - rewrite <- Heq in Hq0. change 0 with (inject_Z 0) in Hq0.
    rewrite <- Zle_Qle in Hq0. exact Hq0.
  - destruct Hq as [->|[->| ->]]; [left|right; left|right; right]; rewrite Heq;
      [reflexivity|reflexivity|ring].
Qed.

Lemma NoDup_key (l : list MatchRow) (x y : MatchRow) :
  NoDup (map match_id l) -> In x l -> In y l -> match_id x = match_id y -> x = y.
Proof.
  induction l as [|a l IH]; intros Hnd Hx Hy E; [destruct Hx|].
  inversion Hnd as [|? ? Ha Hl]; subst.
  destruct Hx as [->|Hx], Hy as [->|Hy].
  - reflexivity.
  - exfalso. apply Ha. rewrite E. apply in_map. exact Hy.
  - exfalso. apply Ha. rewrite <- E. apply in_map. exact Hx.
  - apply IH; assumption.
Qed.

(** A stored match is found under its own id: with distinct ids in the
    table (the primary key), [getMatchRecord] called with the id of a stored
    match, not negative, returns the columns of that very match, whatever
    other ids differ from it by the basketball offset. *)
Theorem getMatchRecord_stored_id (w : World) (r : MatchRow) :
  NoDup (map match_id (db_matches w)) ->
  In r (db_matches w) ->
  (0 <= match_id r)%Z ->
  exists m,
    getMatchRecord w (VNum (numberOfId (match_id r))) = Returned (Some m)
    /\ match_id m = match_id r
    /\ sport m = Some (sportOr (sport r) "football")
    /\ date m = date r /\ status m = status r
    /\ home_team m = home_team r /\ away_team m = away_team r
    /\ home_team_id m = home_team_id r /\ away_team_id m = away_team_id r.
Proof.
  intros Hnd Hr Hk. unfold getMatchRecord, numberOfId.
  destruct (StoreFacts.makeCandidateMatchIds_head (inject_Z (match_id r))) as (rest & ->).
  { change 0 with (inject_Z 0). rewrite <- Zle_Qle. exact Hk. }
  cbn [andThen firstRow]. unfold selectMatch.
  destruct (find _ (db_matches w)) as [x|] eqn:Ef.
  - apply find_some in Ef. destruct Ef as [Hx Heq].
    unfold numberOfId, sameValueZero in Heq. apply Qeq_bool_iff in Heq.
    assert (E : x = r).
    { apply (NoDup_key _ _ _ Hnd Hx Hr). unfold Qeq in Heq. simpl in Heq. lia. }
    subst x. eexists. split; [reflexivity|]. repeat split.
  - exfalso. apply (find_none _ _ Ef) in Hr.
    unfold numberOfId, sameValueZero in Hr.
    rewrite (proj2 (Qeq_bool_iff _ _) (Qeq_refl _)) in Hr. discriminate Hr.
Qed.

End WithRuntime.

(** The contest of the example is stored under the id 7. *)
Lemma getMatchRecord_stored_id_witness :
  exists m,
    @getMatchRecord Examples.integerRuntime Examples.sparse (VNum (numberOfId 7))
    = Returned (Some m)
    /\ match_id m = 7%Z
    /\ sport m = Some "football"
    /\ date m = Some Examples.june_1st /\ status m = Some "NS"
    /\ home_team m = Some "A" /\ away_team m = Some "B"
    /\ home_team_id m = Some 33%Z /\ away_team_id m = None.
Proof.
  apply (@getMatchRecord_stored_id Examples.integerRuntime Examples.sparse
           Examples.contest).
  - repeat (constructor; [simpl; intuition discriminate|]). constructor.
  - left. reflexivity.
  - simpl. lia.
Defined.

(** The contest of the example, asked for by its id. *)
Lemma getMatchRecord_sound_witness :
  exists r,
    In r (db_matches Examples.sparse)
    /\ match_id Examples.contest = match_id r
    /\ sport Examples.contest = Some (sportOr (sport r) "football")
    /\ date Examples.contest = date r /\ status Examples.contest = status r
    /\ home_team Examples.contest = home_team r
    /\ away_team Examples.contest = away_team r
    /\ home_team_id Examples.contest = home_team_id r
    /\ away_team_id Examples.contest = away_team_id r
    /\ (0 <= match_id r)%Z
    /\ (inject_Z (match_id r) == 7
        \/ inject_Z (match_id r) == 7 + 5000000000
        \/ inject_Z (match_id r) == 7 - 5000000000).
Proof.
  apply (@getMatchRecord_sound Examples.integerRuntime Examples.sparse 7 Examples.contest).
  reflexivity.
Defined.

End LookupFacts.

(** ** What a prediction leaves alone *)

Module InvariantFacts.

Import Predictor.

Local Open Scope monad_scope.
Local Open Scope string_scope.

Create HintDb advance.

Lemma advances_refl (w : World) : advances w w.
Proof. repeat split; [apply incl_refl|lia]. Qed.

Lemma advances_trans (w1 w2 w3 : World) :
  advances w1 w2 -> advances w2 w3 -> advances w1 w3.
Proof.
  intros (S1 & M1 & C1) (S2 & M2 & C2). repeat split.
  - congruence.
  - eapply incl_tran; eassumption.
  - lia.
Qed.

Lemma advancing_ret {A : Type} (a : A) : advancing (ret a).
Proof. intro w. apply advances_refl. Qed.

Lemma advancing_throw {A : Type} (message : string) : advancing (@throw A message).
Proof. intro w. apply advances_refl. Qed.

Lemma advancing_lift {A : Type} (o : Outcome A) : advancing (lift o).
Proof. intro w. apply advances_refl. Qed.

Lemma advancing_get : advancing get.
Proof. intro w. apply advances_refl. Qed.

Lemma advancing_tick : advancing tick.
Proof. intro w. repeat split; simpl; [apply incl_refl|lia]. Qed.

Lemma advancing_record (e : Event) : advancing (record e).
Proof. intro w. repeat split; simpl; [apply incl_refl|lia]. Qed.

Lemma advancing_setMatches (rows : list MatchRow) : advancing (setMatches rows).
Proof. intro w. repeat split; simpl; [apply incl_refl|lia]. Qed.

Lemma advancing_memoAdd (key : string) : advancing (memoAdd key).
Proof.
  intro w. repeat split; simpl; [|lia].
  destruct (existsb _ _); [apply incl_refl|apply incl_appl, incl_refl].
Qed.

Lemma advancing_bind {A B : Type} (m : M A) (k : A -> M B) :
  advancing m -> (forall a, advancing (k a)) -> advancing (bind m k).
Proof.
  intros Hm Hk w. unfold bind. specialize (Hm w).
  destruct (m w) as [w1 [a|message]]; simpl in *; [|exact Hm].
  eapply advances_trans; [exact Hm|apply Hk].
Qed.

Lemma advancing_tryCatch {A : Type} (body : M A) (handler : string -> M A) :
  advancing body -> (forall message, advancing (handler message)) ->
  advancing (tryCatch body handler).
Proof.
  intros Hb Hh w. unfold tryCatch. specialize (Hb w).
  destruct (body w) as [w1 [a|message]]; simpl in *; [exact Hb|].
  eapply advances_trans; [exact Hb|apply Hh].
Qed.

#[local] Hint Resolve advancing_ret advancing_throw advancing_lift advancing_get
  advancing_tick advancing_record advancing_setMatches advancing_memoAdd : advance.

Ltac advance :=
  repeat first
    [ solve [auto with advance]
    | progress cbv zeta
    | apply advancing_bind; [|intro]
    | apply advancing_tryCatch; [|intro]
    | match goal with
      | |- advancing (match ?x with _ => _ end) => destruct x
      | |- advancing (if ?c then _ else _) => destruct c
      | |- advancing (let '(_, _) := ?x in _) => destruct x
      end ].

Section WithEnvironment.

Context {rt : Runtime} (cfg : Config) (out : Outside).

Lemma advancing_saveMatches (matches : list ProviderMatch) (sportName : string) :
  advancing (Api.saveMatches matches sportName).
Proof. unfold Api.saveMatches. advance. Qed.

Lemma advancing_axios_get : advancing (Api.axios_get out).
Proof. unfold Api.axios_get. advance. Qed.

#[local] Hint Resolve advancing_saveMatches advancing_axios_get : advance.

Lemma advancing_fetchFootball : advancing (Api.fetchFootball cfg out).
Proof. unfold Api.fetchFootball. advance. Qed.

#[local] Hint Resolve advancing_fetchFootball : advance.

Lemma advancing_fetchBasketball : advancing (Api.fetchBasketball cfg out).
Proof. unfold Api.fetchBasketball. advance. Qed.

#[local] Hint Resolve advancing_fetchBasketball : advance.

Lemma advancing_fetchTeamHistory (teamId : option Z) (last : Z) (sportName : string) :
  advancing (Api.fetchTeamHistory cfg out teamId last sportName).
Proof.
  unfold Api.fetchTeamHistory, Api.fetchBasketballTeamHistory,
    Api.fetchFootballTeamHistory. advance.
Qed.

Lemma advancing_fetchHeadToHeadHistory (teamAId teamBId : option Z) (last : Z)
    (sportName : string) :
  advancing (Api.fetchHeadToHeadHistory cfg out teamAId teamBId last sportName).
Proof.
  unfold Api.fetchHeadToHeadHistory, Api.fetchBasketballHeadToHead,
    Api.fetchFootballHeadToHead. advance.
Qed.

#[local] Hint Resolve advancing_fetchTeamHistory advancing_fetchHeadToHeadHistory : advance.

Lemma advancing_hydrateMatchHistory (m : MatchRow) :
  advancing (hydrateMatchHistory cfg out m).
Proof.
  unfold hydrateMatchHistory, prefetchTeam, refillTeam, refillHeadToHead. advance.
Qed.

Lemma advancing_tier (call : M JsValue) (matchId : Z)
    (engineOf : JsValue -> Outcome string) :
  advancing call -> advancing (tier call matchId engineOf).
Proof. intro H. unfold tier. advance. Qed.

Lemma advancing_callRemoteLlama (prompt : Prompt) :
  advancing (callRemoteLlama out prompt).
Proof. unfold callRemoteLlama. advance. Qed.

Lemma advancing_callOllama (prompt : Prompt) : advancing (callOllama out prompt).
Proof. unfold callOllama. advance. Qed.

Lemma advancing_simpleRulePredict (m : MatchRow) (features : Features) :
  advancing (simpleRulePredict out m features).
Proof.
  unfold simpleRulePredict, randomSpread.
  destruct (gtb _ _); [|destruct (ltb _ _)]; advance.
Qed.

#[local] Hint Resolve advancing_hydrateMatchHistory advancing_callRemoteLlama
  advancing_callOllama advancing_simpleRulePredict advancing_tier : advance.

(** [hydrateMatchHistory] and [predictMatch] never write the table [stats]
    and never forget a remembered team, whatever their outcome: the stored
    features are the same after a backfill or a prediction as before it. *)
Theorem predictMatch_keeps_stats (matchId : JsValue) (m : MatchRow) (w : World) :
  let hydrated := fst (hydrateMatchHistory cfg out m w) in
  let predicted := fst (predictMatch cfg out matchId w) in
  (db_stats hydrated = db_stats w
   /\ incl (fetchedHistoryTeams w) (fetchedHistoryTeams hydrated)
   /\ (clock w <= clock hydrated)%nat)
  /\ (db_stats predicted = db_stats w
      /\ incl (fetchedHistoryTeams w) (fetchedHistoryTeams predicted)
      /\ (clock w <= clock predicted)%nat).
Proof.
  split.
  - apply (advancing_hydrateMatchHistory m w).
  - assert (H : advancing (predictMatch cfg out matchId)).
    { unfold predictMatch, generatorTiers. advance. }
    apply (H w).
Qed.

End WithEnvironment.

End InvariantFacts.

(** ** The history queries and their summaries *)

Module QueryFacts.

Import Predictor.

Local Open Scope string_scope.

Lemma firstn_In {A : Type} (n : nat) (l : list A) (x : A) :
  In x (firstn n l) -> In x l.
Proof.
  revert n. induction l as [|a l IH]; intros [|n]; simpl; try tauto.
  intros [H|H]; [left; exact H|right; apply (IH n H)].
Qed.

Lemma insertBy_newestFirst (x : MatchRow) (l : list MatchRow) :
  StronglySorted newestFirst l ->
  StronglySorted newestFirst (FeatureEngine.insertBy byDateDesc x l).
Proof.
  induction 1 as [|y ys Hys IH Hy]; simpl.
  - repeat constructor.
  - destruct (byDateDesc x y <=? 0)%Z eqn:E.
    + apply Z.leb_le in E. constructor; [constructor; assumption|].
      constructor.
      * unfold newestFirst, byDateDesc, FeatureEngine.byDate in *. lia.
      * rewrite Forall_forall in *. intros z Hz. specialize (Hy z Hz).
        unfold newestFirst, byDateDesc, FeatureEngine.byDate in *. lia.
    + apply Z.leb_gt in E. constructor; [exact IH|].
      rewrite Forall_forall in *. intros z Hz.
      assert (Hp : Permutation (FeatureEngine.insertBy byDateDesc x ys) (x :: ys)).
      { clear. induction ys as [|a ys IH]; simpl; [reflexivity|].
        destruct (byDateDesc x a <=? 0)%Z; [reflexivity|].
        rewrite IH. apply perm_swap. }
      apply (Permutation_in _ Hp) in Hz. destruct Hz as [<-|Hz].
      * unfold newestFirst, byDateDesc, FeatureEngine.byDate in *. lia.
      * apply Hy. exact Hz.
Qed.

Lemma sortBy_newestFirst (l : list MatchRow) :
  StronglySorted newestFirst (FeatureEngine.sortBy byDateDesc l).
Proof.
  induction l as [|x l IH]; simpl; [constructor|].
  apply insertBy_newestFirst. exact IH.
Qed.

Lemma sortBy_In (l : list MatchRow) (r : MatchRow) :
  In r (FeatureEngine.sortBy byDateDesc l) <-> In r l.
Proof.
  assert (Hp : Permutation (FeatureEngine.sortBy byDateDesc l) l).
  { induction l as [|x l IH]; simpl; [reflexivity|].
    transitivity (x :: FeatureEngine.sortBy byDateDesc l); [|apply perm_skip; exact IH].
    generalize (FeatureEngine.sortBy byDateDesc l). clear. intro ys.
    induction ys as [|a ys IH]; simpl; [reflexivity|].
    destruct (byDateDesc x a <=? 0)%Z; [reflexivity|].
    rewrite IH. apply perm_swap. }
  split; apply Permutation_in; [exact Hp|symmetry; exact Hp].
Qed.

Lemma firstn_sorted {A : Type} (R : A -> A -> Prop) (n : nat) (l : list A) :
  StronglySorted R l -> StronglySorted R (firstn n l).
Proof.
  intro H. revert n. induction H as [|x l Hl IH Hx]; intros [|n]; simpl;
    try constructor.
  - apply IH.
  - rewrite Forall_forall in *. intros y Hy. apply Hx.
    apply (firstn_In n l). exact Hy.
Qed.

Lemma sorted_app {A : Type} (R : A -> A -> Prop) (l1 l2 : list A) :
  StronglySorted R (l1 ++ l2) -> forall x y, In x l1 -> In y l2 -> R x y.
Proof.
  induction l1 as [|a l1 IH]; simpl; intros H x y Hx Hy; [destruct Hx|].
  inversion H as [|? ? Hs Ha]; subst. destruct Hx as [<-|Hx].
  - rewrite Forall_forall in Ha. apply Ha. apply in_or_app. right. exact Hy.
  - apply (IH Hs x y Hx Hy).
Qed.

(** A query [WHERE p ORDER BY datetime(date) DESC LIMIT limit]: at most
    [limit] rows of the table, all meeting the condition, most recent first,
    and every row left out that meets the condition is dated no later than
    every row returned. *)
Lemma query_sound (p : MatchRow -> bool) (table : list MatchRow) (limit : nat) :
  let rows := firstn limit (FeatureEngine.sortBy byDateDesc (filter p table)) in
  (List.length rows <= limit)%nat
  /\ StronglySorted newestFirst rows
  /\ (forall r, In r rows -> In r table /\ p r = true)
  /\ (forall r r', In r rows -> In r' table -> p r' = true -> ~ In r' rows ->
        newestFirst r r').
Proof.
  intro rows. subst rows. repeat split.
  - apply firstn_le_length.
  - apply firstn_sorted, sortBy_newestFirst.
  - apply firstn_In, sortBy_In, filter_In in H. tauto.
  - apply firstn_In, sortBy_In, filter_In in H. tauto.
  - intros r r' Hr Hr' Hp Hout.
    assert (Hin : In r' (FeatureEngine.sortBy byDateDesc (filter p table))).
    { apply sortBy_In, filter_In. tauto. }
    rewrite <- (firstn_skipn limit) in Hin. apply in_app_or in Hin.
    destruct Hin as [Hin|Hin]; [contradiction|].
    refine (sorted_app newestFirst _ _ _ r r' Hr Hin).
    rewrite firstn_skipn. apply sortBy_newestFirst.
Qed.

Lemma historyRow_true (exclude : Z) (beforeDate : option Z) (sportName : string)
    (r : MatchRow) :
  historyRow exclude beforeDate sportName r = true ->
  match_id r <> exclude
  /\ sportOr (sport r) "football" = sportName
  /\ exists d h a : _,
       date r = Some d /\ home_goals r = Some h /\ away_goals r = Some a
       /\ forall b, beforeDate = Some b -> (d < b)%Z.
Proof.
  unfold historyRow. intro H.
  apply andb_prop in H. destruct H as [H Hd]. apply andb_prop in H. destruct H as [Hid Hs].
  apply negb_true_iff, Z.eqb_neq in Hid. apply String.eqb_eq in Hs.
  split; [exact Hid|]. split; [exact Hs|].
  destruct (date r) as [d|]; [|discriminate].
  destruct (home_goals r) as [h|]; [|discriminate].
  destruct (away_goals r) as [a|]; [|discriminate].
  exists d, h, a. repeat split. intros b ->. apply Z.ltb_lt. exact Hd.
Qed.

Lemma sql_eqb_true (a b : option string) : sql_eqb a b = true -> a = b /\ a <> None.
Proof.
  destruct a as [x|], b as [y|]; simpl; intro H; try discriminate.
  apply String.eqb_eq in H. subst. split; [reflexivity|discriminate].
Qed.

(** The recent matches of a team handed to the prompt: at most [limit] stored
    matches of the team and the sport, other than the match to predict, with
    a date and both scores, strictly before the reference date when there is
    one, most recent first; a stored match of the team that meets all this
    and is left out is dated no later than any row returned. *)
Theorem fetchRecentMatches_sound (w : World) (teamName : option string)
    (excludeMatchId : Z) (beforeDate : option Z) (sportName : string) (limit : nat) :
  let rows := fetchRecentMatches w teamName excludeMatchId beforeDate sportName limit in
  (List.length rows <= limit)%nat
  /\ StronglySorted newestFirst rows
  /\ (forall r, In r rows ->
        In r (db_matches w)
        /\ (home_team r = teamName \/ away_team r = teamName)
        /\ match_id r <> excludeMatchId
        /\ sportOr (sport r) "football" = sportName
        /\ exists d h a : _,
             date r = Some d /\ home_goals r = Some h /\ away_goals r = Some a
             /\ forall b, beforeDate = Some b -> (d < b)%Z)
  /\ (forall r r', In r rows -> In r' (db_matches w) -> ~ In r' rows ->
        (home_team r' = teamName \/ away_team r' = teamName) ->
        historyRow excludeMatchId beforeDate sportName r' = true ->
        newestFirst r r').
Proof.
  unfold fetchRecentMatches.
  destruct (str_falsy teamName) eqn:Et.
  { simpl. repeat split; try constructor; try lia; intros; contradiction. }
  match goal with |- context [filter ?p _] =>
    destruct (query_sound p (db_matches w) limit) as (Hlen & Hsort & Hin & Hlast)
  end.
  cbv zeta. split; [exact Hlen|]. split; [exact Hsort|]. split.
  - intros r Hr. destruct (Hin r Hr) as [Hdb Hp]. split; [exact Hdb|].
    apply andb_prop in Hp. destruct Hp as [Hteam Hrow].
    split; [|apply historyRow_true; exact Hrow].
    apply orb_prop in Hteam.
    destruct Hteam as [H|H]; apply sql_eqb_true in H; tauto.
  - intros r r' Hr Hr' Hout Hteam Hrow. apply (Hlast r r' Hr Hr'); [|exact Hout].
    rewrite Hrow, andb_true_r.
    destruct teamName as [t|]; [|discriminate Et].
    destruct Hteam as [H|H]; rewrite H; simpl; rewrite String.eqb_refl;
      [reflexivity|apply orb_true_r].
Qed.

(** The direct duels handed to the prompt: at most [limit] stored matches
    between the two teams, either one at home, of the sport, other than the
    match to predict, with a date and both scores, strictly before the
    reference date when there is one, most recent first. *)
Theorem fetchHeadToHead_sound (w : World) (homeTeam awayTeam : option string)
    (excludeMatchId : Z) (beforeDate : option Z) (sportName : string) (limit : nat) :
  let rows :=
    fetchHeadToHead w homeTeam awayTeam excludeMatchId beforeDate sportName limit in
  (List.length rows <= limit)%nat
  /\ StronglySorted newestFirst rows
  /\ (forall r, In r rows ->
        In r (db_matches w)
        /\ ((home_team r = homeTeam /\ away_team r = awayTeam)
            \/ (home_team r = awayTeam /\ away_team r = homeTeam))
        /\ match_id r <> excludeMatchId
        /\ sportOr (sport r) "football" = sportName
        /\ exists d h a : _,
             date r = Some d /\ home_goals r = Some h /\ away_goals r = Some a
             /\ forall b, beforeDate = Some b -> (d < b)%Z).
Proof.
  unfold fetchHeadToHead.
  destruct (str_falsy homeTeam || str_falsy awayTeam) eqn:Et.
  { simpl. repeat split; try constructor; try lia; intros; contradiction. }
  match goal with |- context [filter ?p _] =>
    destruct (query_sound p (db_matches w) limit) as (Hlen & Hsort & Hin & _)
  end.
  cbv zeta. split; [exact Hlen|]. split; [exact Hsort|].
  intros r Hr. destruct (Hin r Hr) as [Hdb Hp]. split; [exact Hdb|].
  apply andb_prop in Hp. destruct Hp as [Hrow Hteams].
  split; [|apply historyRow_true; exact Hrow].
  apply orb_prop in Hteams.
  destruct Hteams as [H|H]; apply andb_prop in H; destruct H as [H1 H2];
    apply sql_eqb_true in H1; apply sql_eqb_true in H2; tauto.
Qed.


Section Summaries.

(** A score read from the table converts to a number: NULL converts to 0. *)
Lemma toNumber_of_column (c : option Q) :
  columnToNumber c = Some (Fin (match c with Some q => q | None => 0 end)).
Proof. destruct c; reflexivity. Qed.

Lemma summarizeTeamRow_counts (teamName : option string) (summary : TeamSummary)
    (row : MatchRow) (gf ga : Q) :
  goalsFor summary = Fin gf -> goalsAgainst summary = Fin ga ->
  let next := summarizeTeamRow teamName summary row in
  (wins summary <= wins next /\ draws summary <= draws next
   /\ losses summary <= losses next
   /\ wins next + draws next + losses next
      = wins summary + draws summary + losses summary + 1)%Z
  /\ exists gf' ga', goalsFor next = Fin gf' /\ goalsAgainst next = Fin ga'.
Proof.
  intros Hf Ha. unfold summarizeTeamRow. rewrite !toNumber_of_column.
  cbv zeta. rewrite Hf, Ha. cbn [add].
  match goal with |- context [gtb ?x ?y] => destruct (gtb x y) end;
    [|match goal with |- context [ltb ?x ?y] => destruct (ltb x y) end];
    cbn [wins draws losses goalsFor goalsAgainst];
    (split; [lia|eexists _, _; split; reflexivity]).
Qed.

(** The record of a team over its recent matches counts every row once, as
    a win, a draw or a defeat; a score that is NULL counts as 0.  The two
    totals are finite numbers. *)
Theorem summarizeTeamHistory_counts_every_row (rows : list MatchRow)
    (teamName : option string) :
  let summary := summarizeTeamHistory rows teamName in
  (0 <= wins summary /\ 0 <= draws summary /\ 0 <= losses summary
   /\ wins summary + draws summary + losses summary = Z.of_nat (List.length rows))%Z
  /\ exists gf ga, goalsFor summary = Fin gf /\ goalsAgainst summary = Fin ga.
Proof.
  unfold summarizeTeamHistory.
  assert (H : forall (start : TeamSummary) gf ga,
             goalsFor start = Fin gf -> goalsAgainst start = Fin ga ->
             let summary := fold_left (summarizeTeamRow teamName) rows start in
             (wins start <= wins summary /\ draws start <= draws summary
              /\ losses start <= losses summary
              /\ wins summary + draws summary + losses summary
                 = wins start + draws start + losses start
                   + Z.of_nat (List.length rows))%Z
             /\ exists gf' ga', goalsFor summary = Fin gf' /\ goalsAgainst summary = Fin ga').
  { induction rows as [|row rows IH]; intros start gf ga Hf Ha; simpl fold_left.
    - cbv zeta. split; [simpl; lia|]. exists gf, ga. split; assumption.
    - destruct (summarizeTeamRow_counts teamName start row gf ga Hf Ha)
        as (Hstep & gf' & ga' & Hf' & Ha').
      destruct (IH _ gf' ga' Hf' Ha') as (Hrest & Htotals).
      cbv zeta. split; [|exact Htotals].
      change (List.length (row :: rows)) with (S (List.length rows)).
      rewrite Nat2Z.inj_succ. lia. }
  destruct (H {| wins := 0; draws := 0; losses := 0;
                 goalsFor := Fin 0; goalsAgainst := Fin 0 |} 0 0 eq_refl eq_refl)
    as (Hc & Ht).
  cbv zeta. split; [|exact Ht]. cbn [wins draws losses] in Hc. lia.
Qed.

(** The record of the direct duels counts every row once, as a home win, an
    away win or a draw. *)
Theorem summarizeHeadToHead_counts_every_row (rows : list MatchRow) :
  let summary := summarizeHeadToHead rows in
  (0 <= homeWins summary /\ 0 <= awayWins summary /\ 0 <= drawn summary
   /\ homeWins summary + awayWins summary + drawn summary
      = Z.of_nat (List.length rows))%Z.
Proof.
  unfold summarizeHeadToHead.
  assert (H : forall start : HeadToHeadSummary,
             let summary := fold_left summarizeHeadToHeadRow rows start in
             (homeWins start <= homeWins summary /\ awayWins start <= awayWins summary
              /\ drawn start <= drawn summary
              /\ homeWins summary + awayWins summary + drawn summary
                 = homeWins start + awayWins start + drawn start
                   + Z.of_nat (List.length rows))%Z).
  { induction rows as [|row rows IH]; intro start; simpl fold_left.
    - simpl. lia.
    - specialize (IH (summarizeHeadToHeadRow start row)). cbv zeta in *.
      change (List.length (row :: rows)) with (S (List.length rows)).
      rewrite Nat2Z.inj_succ.
      assert (Hstep : (homeWins start <= homeWins (summarizeHeadToHeadRow start row)
                       /\ awayWins start <= awayWins (summarizeHeadToHeadRow start row)
                       /\ drawn start <= drawn (summarizeHeadToHeadRow start row)
                       /\ homeWins (summarizeHeadToHeadRow start row)
                          + awayWins (summarizeHeadToHeadRow start row)
                          + drawn (summarizeHeadToHeadRow start row)
                          = homeWins start + awayWins start + drawn start + 1)%Z).
      { unfold summarizeHeadToHeadRow. rewrite !toNumber_of_column.
        match goal with |- context [gtb ?x ?y] => destruct (gtb x y) end;
          [|match goal with |- context [ltb ?x ?y] => destruct (ltb x y) end];
          cbn [homeWins awayWins drawn]; lia. }
      lia. }
  specialize (H {| homeWins := 0; awayWins := 0; drawn := 0 |}).
  cbv zeta in *. cbn [homeWins awayWins drawn] in H. lia.
Qed.

End Summaries.

End QueryFacts.

(** ** The feature job *)

Module FeatureJobFacts.

Import FeatureEngine FeatureJob FeatureEngineFacts.

Local Open Scope string_scope.

Lemma insertBy_perm {A : Type} (cmp : A -> A -> Z) (x : A) (l : list A) :
  Permutation (insertBy cmp x l) (x :: l).
Proof.
  induction l as [|y ys IH]; simpl; [reflexivity|].
  destruct (cmp x y <=? 0)%Z; [reflexivity|].
  rewrite IH. apply perm_swap.
Qed.

Lemma sortBy_perm {A : Type} (cmp : A -> A -> Z) (l : list A) :
  Permutation (sortBy cmp l) l.
Proof.
  induction l as [|x l IH]; simpl; [reflexivity|].
  rewrite insertBy_perm. apply perm_skip. exact IH.
Qed.

Lemma partition_perm {A : Type} (f : A -> bool) (l : list A) :
  Permutation (filter f l ++ filter (fun x => negb (f x)) l) l.
Proof.
  induction l as [|x l IH]; simpl; [reflexivity|].
  destruct (f x); simpl.
  - apply perm_skip. exact IH.
  - rewrite <- Permutation_middle. apply perm_skip. exact IH.
Qed.

Lemma Object_entries_perm {A : Type} (o : list (string * A)) :
  Permutation (Object_entries o) o.
Proof.
  unfold Object_entries. rewrite sortBy_perm. apply partition_perm.
Qed.

Lemma pushTo_perm (key : string) (m : MatchRow) (acc : list (string * list MatchRow)) :
  Permutation (List.concat (map snd (pushTo key m acc))) (m :: List.concat (map snd acc)).
Proof.
  induction acc as [|[k ms] rest IH]; simpl; [reflexivity|].
  destruct (k =? key); simpl.
  - rewrite <- app_assoc. simpl. symmetry. apply Permutation_middle.
  - rewrite IH. symmetry. apply Permutation_middle.
Qed.

Lemma grouped_perm (matches : list MatchRow) :
  Permutation (List.concat (map snd (grouped matches))) matches.
Proof.
  unfold grouped.
  assert (H : forall acc,
             Permutation
               (List.concat (map snd (fold_left (fun acc m => pushTo (sportOf m) m acc)
                                        matches acc)))
               (List.concat (map snd acc) ++ matches)).
  { induction matches as [|m l IH]; intro acc; simpl.
    - rewrite app_nil_r. reflexivity.
    - rewrite IH, pushTo_perm. simpl. apply Permutation_middle. }
  apply (H []).
Qed.

Lemma pushTo_find (key : string) (m : MatchRow) (acc : list (string * list MatchRow))
    (k : string) :
  option_map snd (find (fun g => fst g =? k) (pushTo key m acc))
  = if key =? k
    then Some (match option_map snd (find (fun g => fst g =? k) acc) with
               | Some ms => (ms ++ [m])%list
               | None => [m]
               end)
    else option_map snd (find (fun g => fst g =? k) acc).
Proof.
  induction acc as [|[k0 ms] rest IH]; simpl.
  - destruct (key =? k); reflexivity.
  - destruct (k0 =? key) eqn:E0; simpl.
    + apply String.eqb_eq in E0. subst k0.
      destruct (key =? k); reflexivity.
    + destruct (k0 =? k) eqn:E1; simpl.
      * apply String.eqb_eq in E1. subst k0. rewrite String.eqb_sym, E0. reflexivity.
      * exact IH.
Qed.

Lemma groupOf_snoc (k : string) (l : list MatchRow) (m : MatchRow) :
  groupOf k (l ++ [m]) = (groupOf k l ++ (if sportOf m =? k then [m] else []))%list.
Proof. unfold groupOf. rewrite filter_app. reflexivity. Qed.

Lemma grouped_find (matches : list MatchRow) (k : string) :
  option_map snd (find (fun g => fst g =? k) (grouped matches))
  = match groupOf k matches with
    | [] => None
    | g => Some g
    end.
Proof.
  unfold grouped.
  assert (H : forall acc processed,
             option_map snd (find (fun g => fst g =? k) acc)
             = match groupOf k processed with [] => None | g => Some g end ->
             option_map snd
               (find (fun g => fst g =? k)
                  (fold_left (fun acc m => pushTo (sportOf m) m acc) matches acc))
             = match groupOf k (processed ++ matches) with [] => None | g => Some g end).
  { induction matches as [|m l IH]; intros acc processed Hacc; simpl.
    - rewrite app_nil_r. exact Hacc.
    - replace (processed ++ m :: l)%list with ((processed ++ [m]) ++ l)%list
        by (rewrite <- app_assoc; reflexivity).
      apply IH. rewrite pushTo_find, Hacc, groupOf_snoc.
      destruct (sportOf m =? k).
      + destruct (groupOf k processed); reflexivity.
      + rewrite app_nil_r. reflexivity. }
  apply (H [] []). reflexivity.
Qed.

(** The group of a sport holds the matches of that sport, in the order of
    the query. *)
Lemma grouped_group (matches : list MatchRow) (m : MatchRow) :
  In m matches ->
  In (sportOf m, groupOf (sportOf m) matches) (grouped matches)
  /\ In m (groupOf (sportOf m) matches).
Proof.
  intro Hin.
  assert (Hm : In m (groupOf (sportOf m) matches)).
  { unfold groupOf. apply filter_In. split; [exact Hin|apply String.eqb_refl]. }
  split; [|exact Hm].
  pose proof (grouped_find matches (sportOf m)) as H.
  destruct (groupOf (sportOf m) matches) as [|x g] eqn:Eg; [destruct Hm|].
  destruct (find _ (grouped matches)) as [[k ms]|] eqn:Ef; [|discriminate H].
  simpl in H. injection H as ->.
  apply find_some in Ef. destruct Ef as [Ef Ek]. simpl in Ek.
  apply String.eqb_eq in Ek. subst k. exact Ef.
Qed.

(** The reduction returns the groups when no sport bears an inherited name,
    and throws otherwise. *)
Lemma matchesBySport_thrown (matches : list MatchRow) (message : string) :
  fold_left groupStep matches (Thrown message) = Thrown message.
Proof. induction matches as [|m l IH]; simpl; [reflexivity|exact IH]. Qed.

Lemma matchesBySport_returned (matches : list MatchRow) :
  forallb (fun m => negb (inherited (sportOf m))) matches = true ->
  matchesBySport matches = Returned (grouped matches).
Proof.
  unfold matchesBySport, grouped. generalize (@nil (string * list MatchRow)).
  induction matches as [|m l IH]; intros acc H; simpl; [reflexivity|].
  simpl in H. apply andb_prop in H. destruct H as [Hm Hl].
  apply negb_true_iff in Hm. rewrite Hm. apply IH. exact Hl.
Qed.

Lemma matchesBySport_throws (matches : list MatchRow) :
  existsb (fun m => inherited (sportOf m)) matches = true ->
  exists message, matchesBySport matches = Thrown message.
Proof.
  unfold matchesBySport. generalize (@nil (string * list MatchRow)).
  induction matches as [|m l IH]; intros acc H; simpl in *; [discriminate|].
  destruct (inherited (sportOf m)) eqn:Em.
  - eexists. apply matchesBySport_thrown.
  - apply IH. exact H.
Qed.

Section WithZone.

Context {zone : Zone}.

Lemma featureRows_ids (groups : list (string * list MatchRow)) :
  map row_match_id (featureRows groups) = map match_id (List.concat (map snd groups)).
Proof.
  unfold featureRows. induction groups as [|[k ms] rest IH]; simpl; [reflexivity|].
  rewrite !map_app, IH, map_map. reflexivity.
Qed.

Lemma sportOf_coalesceSport (r : MatchRow) : sportOf (coalesceSport r) = sportOf r.
Proof. reflexivity. Qed.

Lemma selectMatches_perm (w : World) :
  Permutation (selectMatches w) (map coalesceSport (db_matches w)).
Proof. apply sortBy_perm. Qed.

Lemma selectMatches_ids (w : World) :
  Permutation (map match_id (selectMatches w)) (map match_id (db_matches w)).
Proof.
  rewrite (Permutation_map match_id (selectMatches_perm w)).
  rewrite map_map. reflexivity.
Qed.

Lemma selectMatches_names (w : World) (p : string -> bool) :
  forallb (fun m => p (sportOf m)) (selectMatches w)
  = forallb (fun m => p (sportOf m)) (db_matches w).
Proof.
  apply eq_true_iff_eq. rewrite !forallb_forall. split; intros H m Hm.
  - apply (H (coalesceSport m)).
    apply (Permutation_in _ (Permutation_sym (selectMatches_perm w))).
    apply in_map. exact Hm.
  - apply (Permutation_in _ (selectMatches_perm w)) in Hm.
    apply in_map_iff in Hm. destruct Hm as (r & <- & Hr). apply (H r Hr).
Qed.

(** [calcTeamStats] returns two finite numbers, the first between 0 and 1. *)
Lemma calcTeamStats_finite (matches : list MatchRow) (teamName : option string)
    (currentDate : option Z) (windowSize : nat) :
  exists f a : Q,
    calcTeamStats matches teamName currentDate windowSize
    = {| form := Fin f; avgGoalsFor := Fin a |}
    /\ 0 <= f <= 1.
Proof.
  unfold calcTeamStats.
  destruct (str_falsy teamName); [exists 0, 0; split; [reflexivity|lra]|].
  match goal with |- context [slice_last ?n ?l] => generalize (slice_last n l) end.
  intros [|m relevant]; [exists 0, 0; split; [reflexivity|lra]|].
  cbv zeta.
  match goal with |- context [fold_left ?f ?l ?a] =>
    destruct (counters_bounded teamName l a ltac:(simpl; lia)) as [Hw _];
    set (acc := fold_left f l a) in *
  end.
  rewrite Math_max_games.
  rewrite div_by_positive by lia. cbn [isFinite].
  match goal with |- context [ {| form := _; avgGoalsFor := ?x |} ] =>
    assert (Ha : exists a, x = Fin a)
  end.
  { destruct (gamesCount acc =? 0)%Z; [eexists; apply round_Fin|].
    match goal with |- context [isFinite ?d] => destruct d as [q| | |] end;
      cbn [isFinite]; eexists; first [apply round_Fin|reflexivity]. }
  destruct Ha as [a ->].
  eexists _, a. split; [reflexivity|].
  apply ratio_in_unit_interval; lia.
Qed.


Lemma selectMatches_no_inherited (w : World) :
  forallb (fun m => negb (inherited (sportOf m))) (db_matches w) = true ->
  forallb (fun m => negb (inherited (sportOf m))) (selectMatches w) = true.
Proof.
  rewrite !forallb_forall. intros H m Hm.
  apply (Permutation_in _ (selectMatches_perm w)) in Hm.
  apply in_map_iff in Hm. destruct Hm as (r & <- & Hr). apply (H r Hr).
Qed.

(** What a run that meets no inherited name does: the rows are those of the
    groups, and only the table [stats] changes. *)
Lemma calculateFeatures_returned (w : World) :
  forallb (fun m => negb (inherited (sportOf m))) (db_matches w) = true ->
  let rows := featureRows (Object_entries (grouped (selectMatches w))) in
  exists w',
    calculateFeatures w = (w', Returned rows)
    /\ db_stats w' = fold_left insertStats rows (db_stats w)
    /\ db_matches w' = db_matches w
    /\ fetchedHistoryTeams w' = fetchedHistoryTeams w
    /\ clock w' = clock w
    /\ trace w' = trace w.
Proof.
  intros H rows. apply selectMatches_no_inherited in H.
  apply matchesBySport_returned in H.
  unfold calculateFeatures, bind, get. subst rows.
  destruct (selectMatches w) as [|m l] eqn:E.
  - exists w. repeat split; reflexivity.
  - rewrite H. eexists. split; [reflexivity|]. repeat split; reflexivity.
Qed.

Lemma featureRows_perm (groups groups' : list (string * list MatchRow)) :
  Permutation groups groups' -> Permutation (featureRows groups) (featureRows groups').
Proof. intro H. unfold featureRows. apply Permutation_flat_map. exact H. Qed.

Lemma rows_ids (w : World) :
  Permutation
    (map row_match_id (featureRows (Object_entries (grouped (selectMatches w)))))
    (map match_id (db_matches w)).
Proof.
  rewrite (Permutation_map row_match_id
             (featureRows_perm _ _ (Object_entries_perm (grouped (selectMatches w))))).
  rewrite featureRows_ids.
  rewrite (Permutation_map match_id (grouped_perm (selectMatches w))).
  apply selectMatches_ids.
Qed.

(** Every row built holds finite numbers, the two forms between 0 and 1. *)
Lemma featureRows_finite (groups : list (string * list MatchRow)) (row : FeatureRow) :
  In row (featureRows groups) ->
  exists hf af hg ag : Q,
    row_home_form row = Fin hf /\ row_away_form row = Fin af
    /\ row_home_goals_avg row = Fin hg /\ row_away_goals_avg row = Fin ag
    /\ 0 <= hf <= 1 /\ 0 <= af <= 1.
Proof.
  unfold featureRows. intro H. apply in_flat_map in H.
  destruct H as ([k ms] & _ & H). apply in_map_iff in H. destruct H as (m & <- & _).
  unfold featureRow. cbn [fst snd].
  destruct (calcTeamStats_finite ms (home_team m) (date m) WINDOW_SIZE)
    as (hf & hg & -> & Hh).
  destruct (calcTeamStats_finite ms (away_team m) (date m) WINDOW_SIZE)
    as (af & ag & -> & Ha).
  exists hf, af, hg, ag. cbn. repeat split; tauto.
Qed.

Lemma find_insertStats (table : list StatsRow) (row : FeatureRow) (id : Z) :
  find (fun s => (stats_match_id s =? id)%Z) (insertStats table row)
  = if (row_match_id row =? id)%Z then Some (storedRow row)
    else find (fun s => (stats_match_id s =? id)%Z) table.
Proof.
  unfold insertStats. induction table as [|s t IH]; simpl.
  - destruct (row_match_id row =? id)%Z; reflexivity.
  - destruct (stats_match_id s =? row_match_id row)%Z eqn:E1; simpl.
    + rewrite IH. apply Z.eqb_eq in E1. rewrite E1.
      destruct (row_match_id row =? id)%Z; reflexivity.
    + destruct (stats_match_id s =? id)%Z eqn:E2.
      * apply Z.eqb_eq in E2. apply Z.eqb_neq in E1.
        rewrite (proj2 (Z.eqb_neq (row_match_id row) id)) by lia. reflexivity.
      * exact IH.
Qed.

Lemma find_fold_insertStats_other (rows : list FeatureRow) (table : list StatsRow)
    (id : Z) :
  ~ In id (map row_match_id rows) ->
  find (fun s => (stats_match_id s =? id)%Z) (fold_left insertStats rows table)
  = find (fun s => (stats_match_id s =? id)%Z) table.
Proof.
  revert table. induction rows as [|r rows IH]; intros table H; simpl; [reflexivity|].
  rewrite IH by (intro; apply H; right; assumption).
  rewrite find_insertStats.
  rewrite (proj2 (Z.eqb_neq (row_match_id r) id)); [reflexivity|].
  intro E. apply H. left. exact E.
Qed.

(** A row written under a key no other row bears is the row read back. *)
Lemma find_fold_insertStats (rows : list FeatureRow) (table : list StatsRow)
    (row : FeatureRow) :
  NoDup (map row_match_id rows) ->
  In row rows ->
  find (fun s => (stats_match_id s =? row_match_id row)%Z)
    (fold_left insertStats rows table)
  = Some (storedRow row).
Proof.
  revert table. induction rows as [|r rows IH]; intros table Hnd Hin; [destruct Hin|].
  simpl. inversion Hnd as [|? ? Hr Hrows]; subst.
  destruct Hin as [->|Hin].
  - rewrite find_fold_insertStats_other by exact Hr.
    rewrite find_insertStats, Z.eqb_refl. reflexivity.
  - apply IH; assumption.
Qed.

Lemma find_by_key (l : list MatchRow) (m : MatchRow) :
  NoDup (map match_id l) ->
  In m l ->
  find (fun r => (match_id r =? match_id m)%Z) l = Some m.
Proof.
  induction l as [|x l IH]; intros Hnd Hin; [destruct Hin|].
  simpl. inversion Hnd as [|? ? Hx Hl]; subst.
  destruct Hin as [->|Hin].
  - rewrite Z.eqb_refl. reflexivity.
  - destruct (match_id x =? match_id m)%Z eqn:E.
    + apply Z.eqb_eq in E. exfalso. apply Hx. rewrite E. apply in_map. exact Hin.
    + apply IH; assumption.
Qed.

(** The row of a stored match is among the rows built, computed over the
    matches of its sport. *)
Lemma featureRows_row (w : World) (m : MatchRow) :
  In m (db_matches w) ->
  In (featureRow (sportOf m) (groupOf (sportOf m) (selectMatches w)) (coalesceSport m))
     (featureRows (Object_entries (grouped (selectMatches w)))).
Proof.
  intro Hin.
  assert (Hsel : In (coalesceSport m) (selectMatches w)).
  { apply (Permutation_in _ (Permutation_sym (selectMatches_perm w))).
    apply in_map. exact Hin. }
  destruct (grouped_group _ _ Hsel) as [Hg Hm].
  rewrite sportOf_coalesceSport in Hg, Hm.
  unfold featureRows. apply in_flat_map.
  exists (sportOf m, groupOf (sportOf m) (selectMatches w)). split.
  - apply (Permutation_in _ (Permutation_sym (Object_entries_perm _))). exact Hg.
  - cbn [fst snd]. apply in_map. exact Hm.
Qed.

(** When no stored sport bears a name every object inherits,
    [calculateFeatures] returns one row per stored match (the ids of the rows
    are the ids of the table, each once for each row of the table), every row
    holds finite numbers with the two forms between 0 and 1, and nothing but
    the table [stats] changes: no match is written, no request is made. *)
Theorem calculateFeatures_one_row_per_match (w : World) :
  forallb (fun m => negb (inherited (sportOf m))) (db_matches w) = true ->
  exists (rows : list FeatureRow) (w' : World),
    calculateFeatures w = (w', Returned rows)
    /\ Permutation (map row_match_id rows) (map match_id (db_matches w))
    /\ (forall row, In row rows ->
          exists hf af hg ag : Q,
            row_home_form row = Fin hf /\ row_away_form row = Fin af
            /\ row_home_goals_avg row = Fin hg /\ row_away_goals_avg row = Fin ag
            /\ 0 <= hf <= 1 /\ 0 <= af <= 1)
    /\ db_matches w' = db_matches w
    /\ fetchedHistoryTeams w' = fetchedHistoryTeams w
    /\ clock w' = clock w
    /\ trace w' = trace w.
Proof.
  intro H. destruct (calculateFeatures_returned w H) as (w' & Hrun & _ & Hrest).
  eexists _, w'. split; [exact Hrun|]. split; [apply rows_ids|].
  split; [apply featureRows_finite|]. exact Hrest.
Qed.

(** A stored sport named like a property every object inherits
    ([constructor], [toString], ...) makes [calculateFeatures] throw, and
    nothing is written. *)
Theorem calculateFeatures_inherited_name (w : World) :
  existsb (fun m => inherited (sportOf m)) (db_matches w) = true ->
  exists message, calculateFeatures w = (w, Thrown message).
Proof.
  intro H.
  assert (Hsel : existsb (fun m => inherited (sportOf m)) (selectMatches w) = true).
  { apply existsb_exists in H. destruct H as (m & Hm & Hi).
    apply existsb_exists. exists (coalesceSport m). split; [|exact Hi].
    apply (Permutation_in _ (Permutation_sym (selectMatches_perm w))).
    apply in_map. exact Hm. }
  destruct (matchesBySport_throws _ Hsel) as [message Hthrow].
  exists message. unfold calculateFeatures, bind, get.
  destruct (selectMatches w) as [|m l] eqn:E; [discriminate Hsel|].
  rewrite Hthrow. reflexivity.
Qed.

Lemma filter_relevant_earlier (teamName : option string) (d : Z)
    (cutoff : option (option Z)) (l : list MatchRow) :
  filter (relevantMatch teamName (Some d) cutoff)
    (filter (fun m => match date m with Some x => (x <? d)%Z | None => false end) l)
  = filter (relevantMatch teamName (Some d) cutoff) l.
Proof.
  induction l as [|m l IH]; simpl; [reflexivity|].
  unfold relevantMatch at 2. destruct (date m) as [x|] eqn:Ex.
  - destruct (x <? d)%Z eqn:Ed; simpl.
    + unfold relevantMatch at 1. rewrite Ex, Ed, IH. reflexivity.
    + rewrite andb_false_r. simpl. exact IH.
  - exact IH.
Qed.

(** No look-ahead: the statistics at a reference date depend on the matches
    dated strictly before it only.  Matches on or after that date, the match
    the statistics are computed for among them, may be added, removed or
    given another score without changing the result. *)
Theorem calcTeamStats_no_look_ahead (matches matches' : list MatchRow)
    (teamName : option string) (d : Z) (windowSize : nat) :
  filter (fun m => match date m with Some x => (x <? d)%Z | None => false end) matches
  = filter (fun m => match date m with Some x => (x <? d)%Z | None => false end) matches' ->
  calcTeamStats matches teamName (Some d) windowSize
  = calcTeamStats matches' teamName (Some d) windowSize.
Proof.
  intro H. unfold calcTeamStats.
  destruct (str_falsy teamName); [reflexivity|]. cbv zeta.
  rewrite <- (filter_relevant_earlier teamName d _ matches).
  rewrite <- (filter_relevant_earlier teamName d _ matches').
  rewrite H. reflexivity.
Qed.

(** After [calculateFeatures], [getFeatures] finds the features of every
    stored match, when the ids of the table are distinct (the primary key):
    the sport of the match, and the statistics of its two teams over the
    stored matches of that sport.  A match stored without a sport is found
    under the default hint only. *)
Theorem getFeatures_after_calculateFeatures (w : World) (m : MatchRow)
    (sportHint : option string) :
  NoDup (map match_id (db_matches w)) ->
  forallb (fun m => negb (inherited (sportOf m))) (db_matches w) = true ->
  In m (db_matches w) ->
  sport m <> None \/ sportHint = Some "football" ->
  let sportMatches := groupOf (sportOf m) (selectMatches w) in
  let homeStats := calcTeamStats sportMatches (home_team m) (date m) WINDOW_SIZE in
  let awayStats := calcTeamStats sportMatches (away_team m) (date m) WINDOW_SIZE in
  Predictor.getFeatures (fst (calculateFeatures w)) (match_id m) sportHint
  = Some {| Predictor.feature_sport := Some (sportOf m);
            Predictor.home_form := form homeStats;
            Predictor.away_form := form awayStats;
            Predictor.home_goals_avg := avgGoalsFor homeStats;
            Predictor.away_goals_avg := avgGoalsFor awayStats |}.
Proof.
  intros Hnd Hnames Hin Hhint sportMatches homeStats awayStats.
  destruct (calculateFeatures_returned w Hnames) as (w' & -> & Hstats & Hmatches & _).
  cbn [fst]. unfold Predictor.getFeatures. rewrite Hstats, Hmatches.
  pose proof (featureRows_row w m Hin) as Hrow.
  assert (Hrows : NoDup (map row_match_id
                           (featureRows (Object_entries (grouped (selectMatches w)))))).
  { apply (Permutation_NoDup (Permutation_sym (rows_ids w))). exact Hnd. }
  pose proof (find_fold_insertStats _ (db_stats w) _ Hrows Hrow) as Hfind.
  cbn [featureRow row_match_id coalesceSport match_id] in Hfind.
  rewrite Hfind. rewrite (find_by_key _ _ Hnd Hin).
  unfold storedRow, featureRow.
  cbn [stats_sport row_sport Predictor.coalesce coalesceSport home_team away_team date
       stats_home_form stats_away_form stats_home_goals_avg stats_away_goals_avg
       row_home_form row_away_form row_home_goals_avg row_away_goals_avg].
  fold sportMatches. fold homeStats. fold awayStats.
  assert (Heq : Predictor.sql_eqb (Some (sportOf m))
                  (Predictor.coalesce [sport m; sportHint]) = true).
  { unfold sportOf. destruct (sport m) as [s|] eqn:Es; cbn.
    - apply String.eqb_refl.
    - destruct Hhint as [Hs| ->]; [congruence|reflexivity]. }
  cbn [Predictor.coalesce] in Heq. rewrite Heq.
  destruct (calcTeamStats_finite sportMatches (home_team m) (date m) WINDOW_SIZE)
    as (hf & hg & Eh & _).
  destruct (calcTeamStats_finite sportMatches (away_team m) (date m) WINDOW_SIZE)
    as (af & ag & Ea & _).
  fold homeStats in Eh. fold awayStats in Ea. rewrite Eh, Ea. reflexivity.
Qed.

End WithZone.

(** The store of the example: two football matches. *)
Lemma calculateFeatures_one_row_per_match_witness :
  exists (rows : list FeatureRow) (w' : World),
    @calculateFeatures Examples.utc Examples.sparse = (w', Returned rows)
    /\ Permutation (map row_match_id rows) (map match_id (db_matches Examples.sparse))
    /\ (forall row, In row rows ->
          exists hf af hg ag : Q,
            row_home_form row = Fin hf /\ row_away_form row = Fin af
            /\ row_home_goals_avg row = Fin hg /\ row_away_goals_avg row = Fin ag
            /\ 0 <= hf <= 1 /\ 0 <= af <= 1)
    /\ db_matches w' = db_matches Examples.sparse
    /\ fetchedHistoryTeams w' = fetchedHistoryTeams Examples.sparse
    /\ clock w' = clock Examples.sparse
    /\ trace w' = trace Examples.sparse.
Proof. apply (@calculateFeatures_one_row_per_match Examples.utc Examples.sparse). reflexivity. Defined.

(** A store with a match whose sport is [toString]. *)
Lemma calculateFeatures_inherited_name_witness :
  exists message,
    @calculateFeatures Examples.utc Examples.misnamed = (Examples.misnamed, Thrown message).
Proof. apply (@calculateFeatures_inherited_name Examples.utc Examples.misnamed). reflexivity. Defined.

(** The season of the example, and the same season with the result of the
    match of 6 May changed, seen from 5 May. *)
Lemma calcTeamStats_no_look_ahead_witness :
  @calcTeamStats Examples.utc Examples.season (Some "A"%string)
    (Some (Examples.may_1st + 4 * DAY_MS)%Z) 10
  = @calcTeamStats Examples.utc
      (firstn 5 Examples.season ++ Examples.fixture 6 5 (Some (0, 3))
         :: skipn 6 Examples.season)
      (Some "A"%string) (Some (Examples.may_1st + 4 * DAY_MS)%Z) 10.
Proof.
  apply (@calcTeamStats_no_look_ahead Examples.utc Examples.season
           (firstn 5 Examples.season ++ Examples.fixture 6 5 (Some (0, 3))
              :: skipn 6 Examples.season)
           (Some "A"%string) (Examples.may_1st + 4 * DAY_MS)%Z 10).
  reflexivity.
Defined.

(** The contest of the example, asked for without a hint. *)
Lemma getFeatures_after_calculateFeatures_witness :
  let sportMatches := groupOf "football" (selectMatches Examples.sparse) in
  let homeStats :=
    @calcTeamStats Examples.utc sportMatches (Some "A") (Some Examples.june_1st) 10 in
  let awayStats :=
    @calcTeamStats Examples.utc sportMatches (Some "B") (Some Examples.june_1st) 10 in
  Predictor.getFeatures (fst (@calculateFeatures Examples.utc Examples.sparse)) 7 None
  = Some {| Predictor.feature_sport := Some "football";
            Predictor.home_form := form homeStats;
            Predictor.away_form := form awayStats;
            Predictor.home_goals_avg := avgGoalsFor homeStats;
            Predictor.away_goals_avg := avgGoalsFor awayStats |}.
Proof.
  apply (@getFeatures_after_calculateFeatures Examples.utc
           Examples.sparse Examples.contest None).
  - repeat (constructor; [simpl; intuition discriminate|]). constructor.
  - reflexivity.
  - simpl. auto.
  - left. discriminate.
Defined.

End FeatureJobFacts.

(** ** What the bot shows *)

Module BotFacts.

Import Bot.

Local Open Scope string_scope.

Lemma append_associative (r s t : string) : (r ++ s) ++ t = r ++ (s ++ t).
Proof. induction r as [|x r IH]; simpl; [reflexivity|]. rewrite IH. reflexivity. Qed.

Lemma replaceAll_app (c : ascii) (replacement s t : string) :
  replaceAll c replacement (s ++ t)
  = replaceAll c replacement s ++ replaceAll c replacement t.
Proof.
  induction s as [|a s IH]; simpl; [reflexivity|].
  destruct (Ascii.eqb a c); simpl; rewrite IH; [|reflexivity].
  symmetry. apply append_associative.
Qed.

Ltac by_character a :=
  destruct (Ascii.eqb a ampersand) eqn:?;
  [|destruct (Ascii.eqb a lessThan) eqn:?;
    [|destruct (Ascii.eqb a greaterThan) eqn:?;
      [|destruct (Ascii.eqb a doubleQuote) eqn:?;
        [|destruct (Ascii.eqb a apostrophe) eqn:?]]]].

Lemma escapeHtml_cons (a : ascii) (rest : string) :
  escapeHtml (Some (String a rest)) = entity a ++ escapeHtml (Some rest).
Proof.
  unfold escapeHtml, entity.
  by_character a;
    repeat (progress
              (cbn [replaceAll];
               repeat match goal with
                      | H : Ascii.eqb a ?c = _ |- context [Ascii.eqb a ?c] => rewrite H
                      end));
    rewrite ?replaceAll_app; reflexivity.
Qed.

Lemma occurs_app (p : ascii -> bool) (s t : string) :
  occurs p (s ++ t) = occurs p s || occurs p t.
Proof.
  induction s as [|a s IH]; simpl; [reflexivity|]. rewrite IH. apply orb_assoc.
Qed.

Lemma entity_clean (a : ascii) : occurs markup (entity a) = false.
Proof.
  unfold entity. by_character a; try reflexivity.
  unfold occurs, markup.
  repeat match goal with
         | H : Ascii.eqb a _ = _ |- _ => rewrite H
         end.
  reflexivity.
Qed.

Lemma escapeHtml_text (s : string) : escapeHtml (Some s) = escaped s.
Proof.
  induction s as [|a s IH]; [reflexivity|].
  rewrite escapeHtml_cons, IH. reflexivity.
Qed.

Lemma escaped_clean (s : string) : occurs markup (escaped s) = false.
Proof.
  induction s as [|a s IH]; [reflexivity|].
  cbn [escaped]. rewrite occurs_app, entity_clean, IH. reflexivity.
Qed.

Lemma entity_cons (a : ascii) : exists x r, entity a = String x r.
Proof. unfold entity. by_character a; eexists; eexists; reflexivity. Qed.

Lemma escaped_injective (s t : string) : escaped s = escaped t -> s = t.
Proof.
  revert t. induction s as [|a s IH]; intros [|b t] H.
  - reflexivity.
  - cbn [escaped] in H. destruct (entity_cons b) as (x & r & E). rewrite E in H.
    discriminate H.
  - cbn [escaped] in H. destruct (entity_cons a) as (x & r & E). rewrite E in H.
    discriminate H.
  - cbn [escaped] in H. unfold entity in H.
    by_character a; by_character b;
      repeat match goal with
             | E : Ascii.eqb _ _ = true |- _ => apply Ascii.eqb_eq in E; subst
             end;
      cbn [String.append] in H;
      try discriminate H;
      inversion H; subst;
      first [ f_equal; apply IH; assumption
            | exfalso;
              match goal with
              | E : Ascii.eqb _ _ = false |- _ => vm_compute in E; discriminate E
              end ].
Qed.

(** The five replacements, one after the other, escape every character of
    the text exactly once: the ampersand of an entity written by a later
    replacement is not escaped again, the ampersands of the text being
    replaced first.  So the text returned holds no character that opens or
    closes a tag or an attribute value. *)
Theorem escapeHtml_escapes_once (value : option string) :
  escapeHtml value = escaped (match value with Some s => s | None => EmptyString end)
  /\ occurs markup (escapeHtml value) = false.
Proof.
  destruct value as [s|].
  - rewrite escapeHtml_text. split; [reflexivity|apply escaped_clean].
  - split; reflexivity.
Qed.

(** Nothing is lost in escaping: two texts escaped to the same text are the
    same text. *)
Theorem escapeHtml_injective (s t : string) :
  escapeHtml (Some s) = escapeHtml (Some t) -> s = t.
Proof. rewrite !escapeHtml_text. apply escaped_injective. Qed.

(** The text [a<b], escaped twice. *)
Lemma escapeHtml_injective_witness : "a<b" = "a<b".
Proof. apply (escapeHtml_injective "a<b" "a<b"). reflexivity. Defined.

Section WithRuntime.

Context {rt : Runtime}.

(** The number [formatPercent] rounds lies between 0 and 100. *)
Lemma clamped_percentage (x : Q) :
  exists q,
    Math_max (Fin 0)
      (Math_min (if leb (Fin x) (Fin 1) && geb (Fin x) (Fin (-1))
                 then mul (Fin x) (Fin 100) else Fin x) (Fin 100))
    = Fin q /\ 0 <= q <= 100.
Proof.
  destruct (leb (Fin x) (Fin 1) && geb (Fin x) (Fin (-1))); cbn [mul].
  - destruct (RuleFacts.Math_min_finite (x * 100) 100) as (y & -> & Hy).
    destruct (RuleFacts.Math_max_finite 0 y) as (z & -> & Hz).
    exists z. split; [reflexivity|].
    rewrite Hz, Hy. split; [apply Q.le_max_l|].
    apply Q.max_lub; [lra|apply Q.le_min_r].
  - destruct (RuleFacts.Math_min_finite x 100) as (y & -> & Hy).
    destruct (RuleFacts.Math_max_finite 0 y) as (z & -> & Hz).
    exists z. split; [reflexivity|].
    rewrite Hz, Hy. split; [apply Q.le_max_l|].
    apply Q.max_lub; [lra|apply Q.le_min_r].
Qed.

Lemma percentage_bounded (value : JsValue) (number : JsNum) :
  percentage value = Returned (Some number) ->
  exists q, number = Fin q /\ 0 <= q <= 100.
Proof.
  unfold percentage.
  assert (H : forall n : Outcome JsNum,
             andThen n
               (fun number =>
                  if negb (isFinite number) then Returned None
                  else Returned
                         (Some (Math_max (Fin 0)
                                  (Math_min (if leb number (Fin 1) && geb number (Fin (-1))
                                             then mul number (Fin 100) else number)
                                     (Fin 100)))))
             = Returned (Some number) ->
             exists q, number = Fin q /\ 0 <= q <= 100).
  { intros [[x| | |]|message]; cbn [andThen isFinite negb]; try discriminate.
    destruct (clamped_percentage x) as (q & -> & Hq). intro H. injection H as <-.
    exists q. split; [reflexivity|exact Hq]. }
  destruct value; try discriminate; apply H.
Qed.

(** [formatPercent] throws only the [TypeError] of a conversion, and only on
    an array or an object. *)
Lemma percentage_thrown (value : JsValue) (message : string) :
  percentage value = Thrown message ->
  message = conversionError /\ Predictor.typeofObject value = true.
Proof.
  unfold percentage.
  destruct value as [| |[|]|n|s|items|fields]; cbn [Number andThen];
    try discriminate;
    try (match goal with
         | |- (if ?c then _ else _) = Thrown _ -> _ => destruct c; discriminate
         end);
    (match goal with
     | |- andThen (andThen ?t _) _ = Thrown _ -> _ =>
         destruct t as [text|text] eqn:E; cbn [andThen]
     end;
     [match goal with
      | |- (if ?c then _ else _) = Thrown _ -> _ => destruct c; discriminate
      end
     |intro H; injection H as <-; split; [|reflexivity];
      exact (NormalizerFacts.ToString_throws _ _ E)]).
Qed.

(** What [formatPercent] shows is a whole number of percent between 0 and
    100, whatever it is given; the one exception is an array or an object
    that does not convert to a number, on which [Number] throws. *)
Theorem formatPercent_between_0_and_100 (value : JsValue) :
  match formatPercent value with
  | Returned text =>
      exists z : Z,
        (0 <= z <= 100)%Z
        /\ (text = "0%" \/ text = NumberToString (Fin (inject_Z z)) ++ "%")
  | Thrown message => message = conversionError /\ Predictor.typeofObject value = true
  end.
Proof.
  unfold formatPercent. destruct (percentage value) as [[number|]|message] eqn:E;
    cbn [andThen].
  - destruct (percentage_bounded value number E) as (q & -> & Hq).
    exists (Qfloor (q + (1 # 2))). split; [|right; reflexivity].
    split.
    + apply (Z.le_trans _ (Qfloor 0)); [discriminate|apply Qfloor_resp_le; lra].
    + apply (Z.le_trans _ (Qfloor (100 + (1 # 2)))); [apply Qfloor_resp_le; lra|].
      discriminate.
  - exists 0%Z. split; [lia|left; reflexivity].
  - exact (percentage_thrown value message E).
Qed.


End WithRuntime.


End BotFacts.

(** ** The predictor module on binary64 numbers *)

Module Binary64Facts.

Import PrimFloat Binary64.

Local Open Scope string_scope.
Local Open Scope bool_scope.
Local Open Scope float_scope.

Set Warnings "-inexact-float".

(** [round] on ties and near them: the product by 100 is rounded to
    binary64 before [Math.round] sees it, so [0.855] goes up to [0.86]
    (the product is [85.5]) and [0.285] down to [0.28] (the product is
    [28.499999999999996]), [23 / 40] gives [0.57], and a product that
    overflows gives [Infinity]. *)
Lemma round_near_ties :
  0.855 * 100 = 85.5 /\ round 0.855 = 0.86
  /\ 0.285 * 100 = 28.499999999999996 /\ round 0.285 = 0.28
  /\ round (23 / 40) = 0.57
  /\ round 0.8125 = 0.81
  /\ round 1e307 = infinity
  /\ round 0.6 = 0.6 /\ round 0.85 = 0.85.
Proof. repeat split; vm_compute; reflexivity. Qed.

(** [Math.round] rounds ties towards plus infinity, and is exact next to
    one half. *)
Lemma Math_round_ties :
  Math_round 2.5 = 3 /\ Math_round (-2.5) = -2 /\ Math_round 0.5 = 1
  /\ Math_round 0.49999999999999994 = 0
  /\ Math_round (-3.7) = -4 /\ Math_round 4503599627370497 = 4503599627370497
  /\ Math_round infinity = infinity.
Proof. repeat split; vm_compute; reflexivity. Qed.

(** The arithmetic of [normalizePrediction] on the probabilities -1, 1, 1
    (the home probability returned is -1), on two probabilities whose sum
    overflows (the three returned are 0) and on the confidence 5. *)
Lemma normalized_out_of_range :
  normalized (-1) 1 1 = Some {| home := -1; draw := 1; away := 1 |}
  /\ normalized 1e308 1e308 0 = Some {| home := 0; draw := 0; away := 0 |}
  /\ safeConfidence (Some 5) = 5.
Proof. repeat split; vm_compute; reflexivity. Qed.

Section WithOutside.

Variable random : nat -> float.
Variable NumberToString : float -> string.

(** C6, with the rounding the code applies.  The score is
    [(home_form - away_form) + (home_goals_avg - away_goals_avg)], computed
    in binary64; when it is above 0.3 the label is the home win, when it is
    below -0.3 the away win, each with the confidence
    [min(0.85, 0.5 + |score|)] rounded to 2 decimals; otherwise (a score
    that is [NaN] included) the label is the draw label of the sport, the
    recommendation depends on the sport, and the confidence is 0.6.  The
    draw label is [Unentschieden] for every sport but one named like a
    property every object inherits, for which it is [undefined].  The
    features 0.8, 0.2, 2.5, 1.0 give the home win with confidence 0.85. *)
Theorem simpleRulePredict_outcome (m : MatchRow) (features : Features) (clock : nat) :
  let score :=
    (home_form features - away_form features)
    + (home_goals_avg features - away_goals_avg features) in
  let sportName := Predictor.sportOr (sport m) "football" in
  let p := simpleRulePredict random NumberToString m features clock in
  ((0.3 <? score) = true ->
   prediction p = VStr "Heimsieg"
   /\ recommendation (betting_advice p) = "Heimsieg"%string
   /\ confidence (betting_advice p) = round (Math_min 0.85 (0.5 + Math_abs score)))
  /\ ((0.3 <? score) = false -> (score <? -0.3) = true ->
      prediction p = VStr "Auswaertssieg"
      /\ recommendation (betting_advice p) = "Auswaertssieg"%string
      /\ confidence (betting_advice p) = round (Math_min 0.85 (0.5 + Math_abs score)))
  /\ ((0.3 <? score) = false -> (score <? -0.3) = false ->
      prediction p = Predictor.valueOf (Predictor.drawLabel (Predictor.metaOf sportName))
      /\ recommendation (betting_advice p)
         = (if (sportName =? "basketball")%string then "Spread meiden"
            else "Unter 2.5 Tore")%string
      /\ confidence (betting_advice p) = 0.6)
  /\ (FeatureJob.inherited sportName = false ->
      Predictor.valueOf (Predictor.drawLabel (Predictor.metaOf sportName))
      = VStr "Unentschieden")
  /\ (home_form features = 0.8 -> away_form features = 0.2 ->
      home_goals_avg features = 2.5 -> away_goals_avg features = 1 ->
      score = 2.1
      /\ prediction p = VStr "Heimsieg"
      /\ confidence (betting_advice p) = 0.85).
Proof.
  intros score sportName p. subst p. unfold simpleRulePredict.
  fold score. fold sportName.
  assert (Hfixed : round 0.6 = 0.6) by (vm_compute; reflexivity).
  split; [|split; [|split; [|split]]].
  - intro E. rewrite E. cbn [prediction betting_advice recommendation confidence].
    repeat split.
  - intros E1 E2. rewrite E1, E2.
    cbn [prediction betting_advice recommendation confidence]. repeat split.
  - intros E1 E2. rewrite E1, E2.
    cbn [prediction betting_advice recommendation confidence].
    split; [reflexivity|]. split; [reflexivity|exact Hfixed].
  - intro H. unfold Predictor.metaOf.
    destruct (sportName =? "football")%string; [reflexivity|].
    destruct (sportName =? "basketball")%string; [reflexivity|].
    rewrite H. reflexivity.
  - intros Hhf Haf Hhg Hag.
    assert (Hscore : score = 2.1).
    { unfold score. rewrite Hhf, Haf, Hhg, Hag. vm_compute. reflexivity. }
    rewrite Hscore. split; [reflexivity|].
    assert (E : (0.3 <? 2.1) = true) by (vm_compute; reflexivity).
    rewrite E. cbn [prediction betting_advice confidence]. split; [reflexivity|].
    vm_compute. reflexivity.
Qed.

End WithOutside.

(** C6, as stated, fails: for the features 0.8125, 0.5, 1, 1, all binary64
    numbers, the score is 0.3125 and [min(0.85, 0.5 + |score|)] is 0.8125,
    but the confidence returned is 0.81. *)
Lemma simpleRulePredict_confidence_is_rounded :
  let features := Examples.binary64Features 0.8125 0.5 1 1 in
  let score :=
    (home_form features - away_form features)
    + (home_goals_avg features - away_goals_avg features) in
  let p :=
    simpleRulePredict Examples.evenDraws Examples.unprinted Examples.contest features 0 in
  score = 0.3125
  /\ (0.3 <? score) = true
  /\ Math_min 0.85 (0.5 + Math_abs score) = 0.8125
  /\ prediction p = VStr "Heimsieg"
  /\ confidence (betting_advice p) = 0.81
  /\ confidence (betting_advice p) <> Math_min 0.85 (0.5 + Math_abs score).
Proof.
  cbv zeta. repeat split; try (vm_compute; reflexivity).
  intro H. apply (f_equal (fun x => x =? 0.81)) in H. vm_compute in H. discriminate H.
Qed.

(** The features of the scenario of the specification, 0.8, 0.2, 2.5 and 1.0:
    the home win with the confidence 0.85. *)
Lemma simpleRulePredict_outcome_witness :
  let p :=
    simpleRulePredict Examples.evenDraws Examples.unprinted Examples.contest
      (Examples.binary64Features 0.8 0.2 2.5 1) 0 in
  prediction p = VStr "Heimsieg" /\ confidence (betting_advice p) = 0.85.
Proof.
  destruct (simpleRulePredict_outcome Examples.evenDraws Examples.unprinted
              Examples.contest (Examples.binary64Features 0.8 0.2 2.5 1) 0)
    as (_ & _ & _ & _ & H).
  destruct H as (_ & Hlabel & Hconfidence); try reflexivity.
  split; [exact Hlabel|exact Hconfidence].
Defined.

(** The comparison is made on the score as binary64 computes it: for the
    features 1, 0.2, 1.5, 2 the differences are 0.8 and -0.5, their sum is
    0.30000000000000004, above 0.3, and the home win is predicted with
    confidence 0.8. *)
Lemma simpleRulePredict_at_the_threshold :
  let features := Examples.binary64Features 1 0.2 1.5 2 in
  let score :=
    (home_form features - away_form features)
    + (home_goals_avg features - away_goals_avg features) in
  let p :=
    simpleRulePredict Examples.evenDraws Examples.unprinted Examples.contest features 0 in
  score = 0.30000000000000004
  /\ (0.3 <? score) = true
  /\ prediction p = VStr "Heimsieg"
  /\ confidence (betting_advice p) = 0.8.
Proof. cbv zeta. repeat split; vm_compute; reflexivity. Qed.

(** [formatPercent] on the ties of [round]: 0.855 is shown as 86 percent and
    0.285 as 28 percent. *)
Lemma formatPercent_near_ties (NumberToString : float -> string) :
  formatPercent NumberToString 0.855 = (NumberToString 86 ++ "%")%string
  /\ formatPercent NumberToString 0.285 = (NumberToString 28 ++ "%")%string.
Proof. split; reflexivity. Qed.

End Binary64Facts.
